(** * Todo backend: the todo resource layer

    A shallow embedding of the todo resource management layer of the
    Express/Mongoose todo backend:

    - [src/types/todo.ts]            request and status types,
    - [src/models/Todo.ts]           the Mongoose schema of a todo document,
    - [src/services/todoService.ts]  the domain service ([TodoService]),
    - [controllers/todoController]   the request handlers ([TodoController]).

    Asynchronous functions are functions of the world (the state of the
    document store) that settle to a value or to a thrown error and return
    the new world.  The Mongoose model [Todo] is an external collaborator:
    its operations are modelled on what the specification says of the
    store and are kept apart in the modules [Mongoose] and [Todo]. *)

From Stdlib Require Import ZArith NArith List String Ascii Lia Bool.
From stdpp Require Import base option list sorting gmap.
Import ListNotations.

Local Open Scope Z_scope.

(** ** JavaScript strings

    A JavaScript string is a sequence of UTF-16 code units.  Literals of
    the source are written with [js]. *)

Definition jsstring := list N.

Definition js (s : string) : jsstring :=
  map N_of_ascii (list_ascii_of_string s).

(** [s.length] *)
Definition jslength (s : jsstring) : Z := Z.of_nat (length s).

(** The code units removed by [String.prototype.trim]: ECMAScript
    WhiteSpace (TAB, VT, FF, SP, NBSP, ZWNBSP and the Unicode space
    separators) and LineTerminator (LF, CR, LS, PS). *)
Definition isWhiteSpace (c : N) : bool :=
  ((9 <=? c) && (c <=? 13))%N
  || (c =? 32)%N || (c =? 160)%N || (c =? 5760)%N
  || ((8192 <=? c) && (c <=? 8202))%N
  || (c =? 8232)%N || (c =? 8233)%N || (c =? 8239)%N
  || (c =? 8287)%N || (c =? 12288)%N || (c =? 65279)%N.

Fixpoint trimStart (s : jsstring) : jsstring :=
  match s with
  | c :: s' => if isWhiteSpace c then trimStart s' else s
  | [] => []
  end.

Definition trimEnd (s : jsstring) : jsstring := rev (trimStart (rev s)).

(** [s.trim()] *)
Definition trim (s : jsstring) : jsstring := trimEnd (trimStart s).

(** [s] begins with a white space code unit. *)
Definition startsWithWhiteSpace (s : jsstring) : bool :=
  match s with
  | c :: _ => isWhiteSpace c
  | [] => false
  end.

(** [s] ends with a white space code unit. *)
Definition endsWithWhiteSpace (s : jsstring) : bool :=
  match last s with
  | Some c => isWhiteSpace c
  | None => false
  end.

(** [s] is made of white space only (the empty string included). *)
Definition whiteSpaceOnly (s : jsstring) : bool := forallb isWhiteSpace s.

(** ** Store identifiers

    An [ObjectId] is a 12-byte value, kept as the number it denotes
    (big endian).  Its string form is 24 hexadecimal digits. *)

Definition ObjectId := N.

Definition wf_ObjectId (o : ObjectId) : Prop := (o < 2 ^ 96)%N.

Definition hexDigitValue (c : N) : option N :=
  if ((48 <=? c) && (c <=? 57))%N then Some (c - 48)%N
  else if ((97 <=? c) && (c <=? 102))%N then Some (c - 87)%N
  else if ((65 <=? c) && (c <=? 70))%N then Some (c - 55)%N
  else None.

Fixpoint fromHex (s : jsstring) (acc : N) : option N :=
  match s with
  | [] => Some acc
  | c :: s' =>
      match hexDigitValue c with
      | Some d => fromHex s' (16 * acc + d)%N
      | None => None
      end
  end.

Definition hexDigit (d : N) : N :=
  if (d <? 10)%N then (48 + d)%N else (87 + d)%N.

(** The [k] low hexadecimal digits of [n], most significant first. *)
Fixpoint toHex (k : nat) (n : N) : jsstring :=
  match k with
  | O => []
  | S k' => toHex k' (n / 16)%N ++ [hexDigit (n mod 16)%N]
  end.

Module ObjectIdOps.

(** Modelled from the spec: the well-formedness of a store identifier,
    which the store client decides ([new ObjectId(s)] is library code).
    A string of 24 hexadecimal digits (either case) denotes an
    identifier, any other string is refused. *)
Definition cast (s : jsstring) : option ObjectId :=
  if (length s =? 24)%nat then fromHex s 0%N else None.

(** [mongoose.Types.ObjectId.isValid(id)] *)
Definition isValid (id : jsstring) : bool :=
  match cast id with
  | Some _ => true
  | None => false
  end.

(** [oid.toString()], also [oid.toHexString()] *)
Definition toString (o : ObjectId) : jsstring := toHex 24 o.

End ObjectIdOps.

(** ** Data model *)

(** A [Date], in milliseconds since the epoch. *)
Definition Date := Z.

(** [ITodo] of src/models/Todo.ts: a todo document of the collection. *)
Record ITodo := mkTodo {
  _id : ObjectId;
  title : jsstring;
  description : option jsstring;
  completed : bool;
  createdAt : Date;
  updatedAt : Date
}.

(** The [toJSON] transform of the schema: [_id] is presented as the
    string [id]. *)
Module TodoJSON.
Record t := mk {
  id : jsstring;
  title : jsstring;
  description : option jsstring;
  completed : bool;
  createdAt : Date;
  updatedAt : Date
}.
End TodoJSON.

Definition toJSON (doc : ITodo) : TodoJSON.t :=
  {| TodoJSON.id := ObjectIdOps.toString (_id doc);
     TodoJSON.title := title doc;
     TodoJSON.description := description doc;
     TodoJSON.completed := completed doc;
     TodoJSON.createdAt := createdAt doc;
     TodoJSON.updatedAt := updatedAt doc |}.

(** src/types/todo.ts.  An optional property is an [option]; [None] is
    [undefined].  The handlers test [title] for absence, so it is
    optional in the body of a create request too. *)
Module CreateTodoRequest.
Record t := mk {
  title : option jsstring;
  description : option jsstring
}.
End CreateTodoRequest.

Module UpdateTodoRequest.
Record t := mk {
  title : option jsstring;
  description : option jsstring;
  completed : option bool
}.
End UpdateTodoRequest.

Inductive TodoStatus := ALL | COMPLETED | PENDING.

(** ** The world and promises *)

(** A query filter: [{}] or [{ completed: b }]. *)
Record FilterQuery := mkFilter { f_completed : option bool }.

(** The calls made to the Mongoose model, in order. *)
Inductive StoreCall :=
| CallFind (f : FilterQuery)
| CallFindById (id : jsstring)
| CallSave (o : ObjectId)
| CallFindByIdAndUpdate (id : jsstring)
| CallFindByIdAndDelete (id : jsstring)
| CallCountDocuments (f : FilterQuery)
| CallDeleteMany.

(** The state of the document store: the collection of todo documents
    keyed by [_id] (the store keeps [_id] unique), whether the store can
    be reached, and the calls made so far. *)
Record World := mkWorld {
  collection : gmap ObjectId ITodo;
  online : bool;
  trace : list StoreCall
}.

Inductive Settled (E A : Type) :=
| Fulfilled (a : A)
| Rejected (e : E).
Arguments Fulfilled {E A} a.
Arguments Rejected {E A} e.

(** An asynchronous computation that rejects with an [E]. *)
Definition Promise (E A : Type) : Type := World -> Settled E A * World.

Definition resolve {E A} (a : A) : Promise E A := fun w => (Fulfilled a, w).

Definition reject {E A} (e : E) : Promise E A := fun w => (Rejected e, w).

(** [const x = await m; k x] *)
Definition bind {E A B} (m : Promise E A) (k : A -> Promise E B)
  : Promise E B :=
  fun w =>
    match m w with
    | (Fulfilled a, w') => k a w'
    | (Rejected e, w') => (Rejected e, w')
    end.

(** [try { m } catch (error) { h error }] *)
Definition try_catch {E E' A} (m : Promise E A) (h : E -> Promise E' A)
  : Promise E' A :=
  fun w =>
    match m w with
    | (Fulfilled a, w') => (Fulfilled a, w')
    | (Rejected e, w') => h e w'
    end.

(** [Promise.all([p, q])]: both computations run; the first rejection
    wins. *)
Definition Promise_all {E A B} (p : Promise E A) (q : Promise E B)
  : Promise E (A * B) :=
  fun w =>
    let '(ra, w1) := p w in
    let '(rb, w2) := q w1 in
    match ra, rb with
    | Fulfilled a, Fulfilled b => (Fulfilled (a, b), w2)
    | Rejected e, _ => (Rejected e, w2)
    | _, Rejected e => (Rejected e, w2)
    end.

Notation "x <-- m ;; k" := (bind m (fun x => k))
  (at level 100, m at next level, right associativity).

(** ** The Mongoose model [Todo]

    The document store client is not part of the repository.  Its
    operations are modelled here on what the specification says of the
    store (create, find, update, delete and count with a filter and
    sort, skip and limit modifiers) and on the schema of
    src/models/Todo.ts, which is part of the source. *)
Module Mongoose.

(** What a call to the model rejects with. *)
Inductive MongooseError :=
| ValidationError (messages : list string)
| CastError
| StorageError.

(** The schema of src/models/Todo.ts.  [trim: true] is a setter; the
    validators are [required] and [maxlength]. *)
Module Schema.

Definition set_title : jsstring -> jsstring := trim.

Definition set_description : jsstring -> jsstring := trim.

Definition default_completed : bool := false.

(** [required: [true, 'Title is required']]: an absent or empty
    string fails. *)
Definition required_title (v : option jsstring) : list string :=
  match v with
  | Some s => if jslength s =? 0 then ["Title is required"%string] else []
  | None => ["Title is required"%string]
  end.

Definition maxlength_title (v : option jsstring) : list string :=
  match v with
  | Some s =>
      if jslength s <=? 200 then []
      else ["Title cannot exceed 200 characters"%string]
  | None => []
  end.

Definition maxlength_description (v : option jsstring) : list string :=
  match v with
  | Some s =>
      if jslength s <=? 1000 then []
      else ["Description cannot exceed 1000 characters"%string]
  | None => []
  end.

(** Validation of a whole document, path by path in the order of the
    schema. *)
Definition validate (title description : option jsstring)
  : list string :=
  (required_title title ++ maxlength_title title)
    ++ maxlength_description description.

(** Update validators ([runValidators: true]) look only at the paths
    the update sets.  The keys of the update are moved under [$set] from
    the last one to the first, and the validators run in the order of
    [$set]: with the keys in the order of [UpdateTodoRequest], [title]
    before [description], the description is reported before the
    title. *)
Definition validateUpdate (title description : option jsstring)
  : list string :=
  maxlength_description description
    ++ (match title with
        | Some _ => required_title title ++ maxlength_title title
        | None => []
        end).

End Schema.

(** A document in memory: the result of [new Todo(obj)], not stored
    yet, or a stored document that was loaded and then modified. *)
Inductive Document :=
| New (oid : ObjectId) (title description : option jsstring)
      (completed : bool)
| Loaded (doc : ITodo).

(** The sort of a query: none, or [{ createdAt: -1 }]. *)
Inductive SortSpec := NaturalOrder | CreatedAtDesc.

(** A query under construction: [Todo.find(filter)] followed by
    [.sort], [.skip] and [.limit]. *)
Record Query := mkQuery {
  q_filter : FilterQuery;
  q_sort : SortSpec;
  q_skip : option Z;
  q_limit : option Z
}.

(** The set part of an update; [None] is a path that is absent or
    [undefined], which the update leaves out. *)
Record UpdateSpec := mkUpdate {
  set_title : option jsstring;
  set_description : option jsstring;
  set_completed : option bool;
  set_updatedAt : option Date
}.

Definition matches (f : FilterQuery) (doc : ITodo) : bool :=
  match f_completed f with
  | Some b => Bool.eqb (completed doc) b
  | None => true
  end.

(** [a] comes before [b] under [{ createdAt: -1 }]. *)
Definition newer_first (a b : ITodo) : Prop := createdAt b <= createdAt a.

#[global] Instance newer_first_dec : RelDecision newer_first :=
  fun a b => Z_le_dec (createdAt b) (createdAt a).

(** The documents of the collection in the store's natural order. *)
Definition documents (m : gmap ObjectId ITodo) : list ITodo :=
  (map_to_list m).*2.

Definition apply_sort (s : SortSpec) (l : list ITodo) : list ITodo :=
  match s with
  | NaturalOrder => l
  | CreatedAtDesc => merge_sort newer_first l
  end.

Definition apply_skip (n : option Z) (l : list ITodo) : list ITodo :=
  match n with
  | Some k => drop (Z.to_nat k) l
  | None => l
  end.

Definition apply_limit (n : option Z) (l : list ITodo) : list ITodo :=
  match n with
  | Some k => take (Z.to_nat k) l
  | None => l
  end.

(** Modelled from the spec: a storage operation, which may fail when the
    store cannot be reached.  The call is recorded; it reaches the store
    only when the store is online, and rejects otherwise. *)
Definition request {A} (c : StoreCall)
    (op : gmap ObjectId ITodo -> Settled MongooseError A * gmap ObjectId ITodo)
  : Promise MongooseError A :=
  fun w =>
    if online w then
      let '(r, m) := op (collection w) in
      (r, {| collection := m; online := online w;
             trace := trace w ++ [c] |})
    else
      (Rejected StorageError,
       {| collection := collection w; online := online w;
          trace := trace w ++ [c] |}).

(** A call that fails before the store is reached (a cast or a
    validation error). *)
Definition refuse {A} (c : StoreCall) (e : MongooseError)
  : Promise MongooseError A :=
  fun w =>
    (Rejected e,
     {| collection := collection w; online := online w;
        trace := trace w ++ [c] |}).

End Mongoose.

(** The operations of the model [Todo] that the service uses. *)
Module Todo.
Import Mongoose.

(** Modelled from the spec: the construction of a document by the store
    client, [new Todo({ title, description, completed })]; [oid] is the
    identifier generated for the document.  The setters of the schema
    run on the values given. *)
Definition new (oid : ObjectId) (title description : option jsstring)
    (completed : option bool) : Document :=
  New oid (Schema.set_title <$> title)
      (Schema.set_description <$> description)
      (default Schema.default_completed completed).

(** Modelled from the spec: the insert and the write-back of the store,
    [doc.save()] at time [now].  The document is validated first.  A new
    document is inserted with [createdAt] and [updatedAt] both set to
    [now] ([timestamps: true]); the store refuses an [_id] it already
    holds.  A loaded document is written back with [updatedAt] set to
    [now]; the store refuses it when it no longer holds the document. *)
Definition save (now : Date) (d : Document) : Promise MongooseError ITodo :=
  match d with
  | New oid title description completed =>
      match title with
      | None =>
          refuse (CallSave oid)
            (ValidationError (Schema.validate None description))
      | Some t =>
          match Schema.validate (Some t) description with
          | [] =>
              request (CallSave oid) (fun m =>
                match m !! oid with
                | Some _ => (Rejected StorageError, m)
                | None =>
                    let doc := mkTodo oid t description completed now now in
                    (Fulfilled doc, <[oid := doc]> m)
                end)
          | msgs => refuse (CallSave oid) (ValidationError msgs)
          end
      end
  | Loaded doc =>
      match Schema.validate (Some (title doc)) (description doc) with
      | [] =>
          request (CallSave (_id doc)) (fun m =>
            match m !! _id doc with
            | None => (Rejected StorageError, m)
            | Some _ =>
                let doc' :=
                  mkTodo (_id doc) (title doc) (description doc)
                    (completed doc) (createdAt doc) now in
                (Fulfilled doc', <[_id doc := doc']> m)
            end)
      | msgs => refuse (CallSave (_id doc)) (ValidationError msgs)
      end
  end.

(** [Todo.find(filter)] *)
Definition find (f : FilterQuery) : Query :=
  {| q_filter := f; q_sort := NaturalOrder;
     q_skip := None; q_limit := None |}.

(** [query.sort({ createdAt: -1 })] *)
Definition sort (s : SortSpec) (q : Query) : Query :=
  {| q_filter := q_filter q; q_sort := s;
     q_skip := q_skip q; q_limit := q_limit q |}.

(** [query.skip(n)] *)
Definition skip (n : Z) (q : Query) : Query :=
  {| q_filter := q_filter q; q_sort := q_sort q;
     q_skip := Some n; q_limit := q_limit q |}.

(** [query.limit(n)] *)
Definition limit (n : Z) (q : Query) : Query :=
  {| q_filter := q_filter q; q_sort := q_sort q;
     q_skip := q_skip q; q_limit := Some n |}.

(** Modelled from the spec: the find of the store with its filter, sort,
    skip and limit modifiers.  Documents with the same creation time
    keep the natural order of the store. *)
Definition select (q : Query) (m : gmap ObjectId ITodo) : list ITodo :=
  apply_limit (q_limit q)
    (apply_skip (q_skip q)
       (apply_sort (q_sort q)
          (List.filter (matches (q_filter q)) (documents m)))).

(** [await query] *)
Definition exec (q : Query) : Promise MongooseError (list ITodo) :=
  request (CallFind (q_filter q)) (fun m => (Fulfilled (select q m), m)).

(** Modelled from the spec: the lookup of the store,
    [Todo.findById(id)].  The string is cast to an identifier first; the
    store client rejects a string that is not one. *)
Definition findById (id : jsstring) : Promise MongooseError (option ITodo) :=
  match ObjectIdOps.cast id with
  | None => refuse (CallFindById id) CastError
  | Some oid =>
      request (CallFindById id) (fun m => (Fulfilled (m !! oid), m))
  end.

(** Modelled from the spec: the update of the store,
    [Todo.findByIdAndUpdate(id, update, { new: true, runValidators:
    true })] at time [now].  Paths that are [undefined] are left out
    of the update; the setters and the update validators run on the
    others; the document after the update is returned. *)
Definition findByIdAndUpdate (now : Date) (id : jsstring)
    (upd : UpdateSpec) : Promise MongooseError (option ITodo) :=
  match ObjectIdOps.cast id with
  | None => refuse (CallFindByIdAndUpdate id) CastError
  | Some oid =>
      let t := Schema.set_title <$> set_title upd in
      let d := Schema.set_description <$> set_description upd in
      match Schema.validateUpdate t d with
      | [] =>
          request (CallFindByIdAndUpdate id) (fun m =>
            match m !! oid with
            | None => (Fulfilled None, m)
            | Some doc =>
                let doc' :=
                  mkTodo (_id doc)
                    (default (title doc) t)
                    (match d with
                     | Some v => Some v
                     | None => description doc
                     end)
                    (default (completed doc) (set_completed upd))
                    (createdAt doc)
                    (default now (set_updatedAt upd)) in
                (Fulfilled (Some doc'), <[oid := doc']> m)
            end)
      | msgs => refuse (CallFindByIdAndUpdate id) (ValidationError msgs)
      end
  end.

(** Modelled from the spec: the delete of the store,
    [Todo.findByIdAndDelete(id)]: the removed document, if any. *)
Definition findByIdAndDelete (id : jsstring)
  : Promise MongooseError (option ITodo) :=
  match ObjectIdOps.cast id with
  | None => refuse (CallFindByIdAndDelete id) CastError
  | Some oid =>
      request (CallFindByIdAndDelete id)
        (fun m => (Fulfilled (m !! oid), delete oid m))
  end.

(** Modelled from the spec: the count of the store,
    [Todo.countDocuments(filter)]. *)
Definition countDocuments (f : FilterQuery) : Promise MongooseError Z :=
  request (CallCountDocuments f) (fun m =>
    (Fulfilled
       (Z.of_nat (length (List.filter (matches f) (documents m)))), m)).

(** Modelled from the spec: the delete of every document,
    [Todo.deleteMany({})]. *)
Definition deleteMany : Promise MongooseError unit :=
  request CallDeleteMany (fun _ => (Fulfilled tt, ∅)).

End Todo.

(** ** The domain service: src/services/todoService.ts *)

(** [new Error(message)], what the service throws. *)
Inductive JsError := Error (message : string).

Definition error_message (e : JsError) : string :=
  match e with Error m => m end.

(** [Math.ceil(a / b)] for integers [a] and [b <> 0].  Numbers that hold
    counts, page numbers and limits are integers; the quotient is taken
    exactly. *)
Definition Math_ceil_div (a b : Z) : Z := - ((- a) / b).

(** The result of [getTodosPaginated]. *)
Module Paginated.
Record t := mk {
  todos : list ITodo;
  total : Z;
  page : Z;
  totalPages : Z
}.
End Paginated.

(** The result of [getTodosCount]. *)
Module Stats.
Record t := mk {
  total : Z;
  completed : Z;
  pending : Z
}.
End Stats.

Module TodoService.
Import Mongoose.

(** The filter both list operations build from the status. *)
Definition statusFilter (status : option TodoStatus) : FilterQuery :=
  match status with
  | Some COMPLETED => {| f_completed := Some true |}
  | Some PENDING => {| f_completed := Some false |}
  | _ => {| f_completed := None |}
  end.

(** Rethrow of [createTodo] and [updateTodo]: a validation error keeps
    its messages. *)
Definition rethrow {A} (fallback : string) (error : MongooseError)
  : Promise JsError A :=
  match error with
  | ValidationError msgs =>
      reject (Error ("Validation error: " ++ String.concat ", " msgs)%string)
  | _ => reject (Error fallback)
  end.

Definition getAllTodos (status : option TodoStatus)
  : Promise JsError (list ITodo) :=
  try_catch
    (let filter := statusFilter status in
     todos <-- Todo.exec (Todo.sort CreatedAtDesc (Todo.find filter)) ;;
     resolve todos)
    (fun _ => reject (Error "Failed to fetch todos")).

Definition getTodoById (id : jsstring) : Promise JsError (option ITodo) :=
  try_catch
    (if negb (ObjectIdOps.isValid id) then resolve None
     else
       todo <-- Todo.findById id ;;
       resolve todo)
    (fun _ => reject (Error "Failed to fetch todo")).

(** [oid] is the identifier generated for the new document and [now]
    the time of the save. *)
Definition createTodo (oid : ObjectId) (now : Date)
    (todoData : CreateTodoRequest.t) : Promise JsError ITodo :=
  try_catch
    (let newTodo :=
       Todo.new oid (CreateTodoRequest.title todoData)
         (CreateTodoRequest.description todoData) (Some false) in
     savedTodo <-- Todo.save now newTodo ;;
     resolve savedTodo)
    (rethrow "Failed to create todo").

(** [now] is the time of the call: the value of [new Date()] and the
    time of the update. *)
Definition updateTodo (now : Date) (id : jsstring)
    (updateData : UpdateTodoRequest.t) : Promise JsError (option ITodo) :=
  try_catch
    (if negb (ObjectIdOps.isValid id) then resolve None
     else
       updatedTodo <--
         Todo.findByIdAndUpdate now id
           {| set_title := UpdateTodoRequest.title updateData;
              set_description := UpdateTodoRequest.description updateData;
              set_completed := UpdateTodoRequest.completed updateData;
              set_updatedAt := Some now |} ;;
       resolve updatedTodo)
    (rethrow "Failed to update todo").

Definition deleteTodo (id : jsstring) : Promise JsError bool :=
  try_catch
    (if negb (ObjectIdOps.isValid id) then resolve false
     else
       deletedTodo <-- Todo.findByIdAndDelete id ;;
       resolve (match deletedTodo with Some _ => true | None => false end))
    (fun _ => reject (Error "Failed to delete todo")).

Definition toggleTodo (now : Date) (id : jsstring)
  : Promise JsError (option ITodo) :=
  try_catch
    (if negb (ObjectIdOps.isValid id) then resolve None
     else
       todo <-- Todo.findById id ;;
       match todo with
       | None => resolve None
       | Some todo =>
           let todo :=
             mkTodo (_id todo) (title todo) (description todo)
               (negb (completed todo)) (createdAt todo) (updatedAt todo) in
           updatedTodo <-- Todo.save now (Loaded todo) ;;
           resolve (Some updatedTodo)
       end)
    (fun _ => reject (Error "Failed to toggle todo")).

Definition getTodosCount : Promise JsError Stats.t :=
  try_catch
    (counts <--
       Promise_all
         (Todo.countDocuments {| f_completed := None |})
         (Todo.countDocuments {| f_completed := Some true |}) ;;
     let '(total, completed) := counts in
     let pending := total - completed in
     resolve (Stats.mk total completed pending))
    (fun _ => reject (Error "Failed to get todos statistics")).

Definition clearAllTodos : Promise JsError unit :=
  try_catch
    (Todo.deleteMany)
    (fun _ => reject (Error "Failed to clear todos")).

Definition getTodosPaginated (page limit : Z) (status : option TodoStatus)
  : Promise JsError Paginated.t :=
  try_catch
    (let filter := statusFilter status in
     let skip := (page - 1) * limit in
     results <--
       Promise_all
         (Todo.exec
            (Todo.limit limit
               (Todo.skip skip
                  (Todo.sort CreatedAtDesc (Todo.find filter)))))
         (Todo.countDocuments filter) ;;
     let '(todos, total) := results in
     let totalPages := Math_ceil_div total limit in
     resolve (Paginated.mk todos total page totalPages))
    (fun _ => reject (Error "Failed to fetch paginated todos")).

End TodoService.

(** ** The request handlers: controllers/todoController.ts *)

(** What [data] holds in a response. *)
Inductive Payload :=
| DataTodo (todo : ITodo)
| DataTodos (todos : list ITodo)
| DataStats (stats : Stats.t).

Module Pagination.
Record t := mk {
  page : Z;
  limit : Z;
  total : Z;
  totalPages : Z;
  hasNext : bool;
  hasPrev : bool
}.
End Pagination.

(** [res.status(status).json({ success, data, message, error, count,
    pagination })]; a property that is not written is [None]. *)
Module Response.
Record t := mk {
  status : Z;
  success : bool;
  data : option Payload;
  message : option string;
  error : option string;
  count : option Z;
  pagination : option Pagination.t
}.
End Response.

(** [!s] for a string: only the empty string is falsy. *)
Definition falsy (s : jsstring) : bool := jslength s =? 0.

(** [parseInt(text) || d]; [None] is [NaN].  [NaN] and [0] are falsy. *)
Definition or_default (parsed : option Z) (d : Z) : Z :=
  match parsed with
  | Some 0 => d
  | Some n => n
  | None => d
  end.

Module TodoController.

(** A handler writes one response and leaves a new world. *)
Definition Handler : Type := World -> Response.t * World.

Definition failure (status : Z) (message : string) : Response.t :=
  Response.mk status false None (Some message) None None None.

(** The response of every [catch] block. *)
Definition serverError (message : string) (e : JsError) : Response.t :=
  Response.mk 500 false None (Some message) (Some (error_message e))
    None None.

(** [return] of a response before any call to the service. *)
Definition send (r : Response.t) : Handler := fun w => (r, w).

(** [try { const a = await p; respond a } catch (error) { 500 }] *)
Definition respond {A} (p : Promise JsError A) (k : A -> Response.t)
    (message : string) : Handler :=
  fun w =>
    match p w with
    | (Fulfilled a, w') => (k a, w')
    | (Rejected e, w') => (serverError message e, w')
    end.

Definition getAllTodos (status : option TodoStatus) : Handler :=
  respond (TodoService.getAllTodos status)
    (fun todos =>
       Response.mk 200 true (Some (DataTodos todos)) None None
         (Some (Z.of_nat (length todos))) None)
    "Failed to fetch todos".

Definition getTodoById (id : jsstring) : Handler :=
  if falsy id then send (failure 400 "Todo ID is required")
  else
    respond (TodoService.getTodoById id)
      (fun todo =>
         match todo with
         | None => failure 404 "Todo not found"
         | Some todo =>
             Response.mk 200 true (Some (DataTodo todo)) None None None None
         end)
      "Failed to fetch todo".

Definition createTodo (oid : ObjectId) (now : Date)
    (todoData : CreateTodoRequest.t) : Handler :=
  match CreateTodoRequest.title todoData with
  | None => send (failure 400 "Title is required")
  | Some title =>
      if falsy title || (jslength (trim title) =? 0) then
        send (failure 400 "Title is required")
      else
        respond
          (TodoService.createTodo oid now
             {| CreateTodoRequest.title := Some (trim title);
                CreateTodoRequest.description :=
                  trim <$> CreateTodoRequest.description todoData |})
          (fun newTodo =>
             Response.mk 201 true (Some (DataTodo newTodo))
               (Some "Todo created successfully"%string) None None None)
          "Failed to create todo"
  end.

Definition updateTodo (now : Date) (id : jsstring)
    (updateData : UpdateTodoRequest.t) : Handler :=
  if falsy id then send (failure 400 "Todo ID is required")
  else if
    match UpdateTodoRequest.title updateData with
    | Some title => jslength (trim title) =? 0
    | None => false
    end
  then send (failure 400 "Title cannot be empty")
  else
    respond
      (TodoService.updateTodo now id
         {| UpdateTodoRequest.title :=
              trim <$> UpdateTodoRequest.title updateData;
            UpdateTodoRequest.description :=
              trim <$> UpdateTodoRequest.description updateData;
            UpdateTodoRequest.completed :=
              UpdateTodoRequest.completed updateData |})
      (fun updatedTodo =>
         match updatedTodo with
         | None => failure 404 "Todo not found"
         | Some updatedTodo =>
             Response.mk 200 true (Some (DataTodo updatedTodo))
               (Some "Todo updated successfully"%string) None None None
         end)
      "Failed to update todo".

Definition deleteTodo (id : jsstring) : Handler :=
  if falsy id then send (failure 400 "Todo ID is required")
  else
    respond (TodoService.deleteTodo id)
      (fun deleted =>
         if negb deleted then failure 404 "Todo not found"
         else
           Response.mk 200 true None
             (Some "Todo deleted successfully"%string) None None None)
      "Failed to delete todo".

Definition toggleTodo (now : Date) (id : jsstring) : Handler :=
  if falsy id then send (failure 400 "Todo ID is required")
  else
    respond (TodoService.toggleTodo now id)
      (fun updatedTodo =>
         match updatedTodo with
         | None => failure 404 "Todo not found"
         | Some updatedTodo =>
             Response.mk 200 true (Some (DataTodo updatedTodo))
               (Some ("Todo marked as " ++
                      (if completed updatedTodo then "completed"
                       else "pending"))%string)
               None None None
         end)
      "Failed to toggle todo".

Definition getTodoStats : Handler :=
  respond TodoService.getTodosCount
    (fun stats =>
       Response.mk 200 true (Some (DataStats stats)) None None None None)
    "Failed to fetch todo statistics".

(** [pageParam] and [limitParam] are [parseInt(req.query.page)] and
    [parseInt(req.query.limit)]. *)
Definition getPaginatedTodos (pageParam limitParam : option Z)
    (status : option TodoStatus) : Handler :=
  let page := or_default pageParam 1 in
  let limit := or_default limitParam 10 in
  if (page <? 1) || (limit <? 1) || (limit >? 100) then
    send (failure 400
      "Invalid pagination parameters. Page must be >= 1, limit must be between 1 and 100")
  else
    respond (TodoService.getTodosPaginated page limit status)
      (fun result =>
         Response.mk 200 true (Some (DataTodos (Paginated.todos result)))
           None None None
           (Some
              {| Pagination.page := Paginated.page result;
                 Pagination.limit := limit;
                 Pagination.total := Paginated.total result;
                 Pagination.totalPages := Paginated.totalPages result;
                 Pagination.hasNext :=
                   Paginated.page result <? Paginated.totalPages result;
                 Pagination.hasPrev := Paginated.page result >? 1 |}))
      "Failed to fetch paginated todos".

End TodoController.

(** ** The routes: routes/todoRoutes.ts

    One request to the API, with what the environment supplies to the
    handler: the time of the request and, for a creation, the identifier
    generated for the document. *)
Inductive Request :=
| GetStats
| GetPaginated (pageParam limitParam : option Z) (status : option TodoStatus)
| GetAll (status : option TodoStatus)
| GetById (id : jsstring)
| Post (oid : ObjectId) (now : Date) (body : CreateTodoRequest.t)
| Put (now : Date) (id : jsstring) (body : UpdateTodoRequest.t)
| PatchToggle (now : Date) (id : jsstring)
| Delete (id : jsstring).

Definition router (r : Request) : TodoController.Handler :=
  match r with
  | GetStats => TodoController.getTodoStats
  | GetPaginated p l s => TodoController.getPaginatedTodos p l s
  | GetAll s => TodoController.getAllTodos s
  | GetById id => TodoController.getTodoById id
  | Post oid now body => TodoController.createTodo oid now body
  | Put now id body => TodoController.updateTodo now id body
  | PatchToggle now id => TodoController.toggleTodo now id
  | Delete id => TodoController.deleteTodo id
  end.

(** The store as the service finds it at start: no document, no call
    made yet. *)
Definition initial (up : bool) : World :=
  {| collection := ∅; online := up; trace := [] |}.

(** The store losing or regaining its connection. *)
Definition connection (up : bool) (w : World) : World :=
  {| collection := collection w; online := up; trace := trace w |}.

(** The worlds the API can bring about from an empty collection. *)
Inductive reachable : World -> Prop :=
| reachable_initial up : reachable (initial up)
| reachable_request w r : reachable w -> reachable (snd (router r w))
| reachable_connection w up : reachable w -> reachable (connection up w).

(** ** Properties of worlds and documents *)

(** The world after a call [c] to the model that left the collection
    [m]. *)
Definition after (c : StoreCall) (m : gmap ObjectId ITodo) (w : World)
  : World :=
  {| collection := m; online := online w; trace := trace w ++ [c] |}.

(** [s] neither begins nor ends with white space. *)
Definition trimmed (s : jsstring) : Prop :=
  startsWithWhiteSpace s = false /\ endsWithWhiteSpace s = false.

(** The trim invariant of a stored document. *)
Definition trimInvariant (doc : ITodo) : Prop :=
  trimmed (title doc)
  /\ whiteSpaceOnly (title doc) = false
  /\ forall d, description doc = Some d -> trimmed d.

Definition storedTrimmed (w : World) : Prop :=
  forall k doc, collection w !! k = Some doc -> trimInvariant doc.

(** A stored document passes the validators of the schema. *)
Definition conforms (doc : ITodo) : Prop :=
  Mongoose.Schema.validate (Some (title doc)) (description doc) = [].

(** Every document is stored under its own [_id] and conforms to the
    schema. *)
Definition consistent (w : World) : Prop :=
  forall k doc, collection w !! k = Some doc -> _id doc = k /\ conforms doc.

(** The paths an update request carries are within the bounds of the
    schema once trimmed. *)
Definition acceptable (req : UpdateTodoRequest.t) : Prop :=
  Mongoose.Schema.validateUpdate
    (trim <$> UpdateTodoRequest.title req)
    (trim <$> UpdateTodoRequest.description req) = [].

(** A collection of 25 todos, created one per millisecond. *)
Fixpoint sampleTodos (n : nat) : gmap ObjectId ITodo :=
  match n with
  | O => ∅
  | S k =>
      <[N.of_nat n :=
          mkTodo (N.of_nat n) (js "todo") None (Nat.even n)
            (Z.of_nat n) (Z.of_nat n)]> (sampleTodos k)
  end.

(** What a request does to the collection: nothing, the write of one
    document, or the removal of one. *)
Inductive effect (w : World) (m' : gmap ObjectId ITodo) : Prop :=
| effect_none : m' = collection w -> effect w m'
| effect_write k doc :
    m' = <[k := doc]> (collection w) ->
    (consistent w -> _id doc = k /\ conforms doc) ->
    (storedTrimmed w -> trimInvariant doc) ->
    effect w m'
| effect_remove k : m' = delete k (collection w) -> effect w m'.

(** [doc'] has the identifier and the creation time of [doc] and its
    value on every path that the request does not carry. *)
Definition keepsAbsent (req : UpdateTodoRequest.t) (doc doc' : ITodo)
  : Prop :=
  _id doc' = _id doc
  /\ createdAt doc' = createdAt doc
  /\ (UpdateTodoRequest.title req = None -> title doc' = title doc)
  /\ (UpdateTodoRequest.description req = None ->
      description doc' = description doc)
  /\ (UpdateTodoRequest.completed req = None ->
      completed doc' = completed doc).

(** [doc'] has, trimmed, what the request carries. *)
Definition holdsPresent (req : UpdateTodoRequest.t) (doc' : ITodo) : Prop :=
  (forall t, UpdateTodoRequest.title req = Some t -> title doc' = trim t)
  /\ (forall d, UpdateTodoRequest.description req = Some d ->
        description doc' = Some (trim d))
  /\ (forall c, UpdateTodoRequest.completed req = Some c ->
        completed doc' = c).

(** The store holding the 25 sample todos, reachable, before any call. *)
Definition sampleWorld : World :=
  {| collection := sampleTodos 25; online := true; trace := [] |}.

(** ** One request, in detail *)

(** The requests that only read: the GET routes. *)
Definition isGet (r : Request) : bool :=
  match r with
  | GetStats | GetPaginated _ _ _ | GetAll _ | GetById _ => true
  | _ => false
  end.

(** The time at which a request writes, if it may write. *)
Definition requestTime (r : Request) : option Date :=
  match r with
  | Post _ now _ | Put now _ _ | PatchToggle now _ => Some now
  | _ => None
  end.

(** What a request answered with [resp] did to the collection [m] of the
    world: nothing, unless it is a creation answered 201, an update, a
    toggle or a deletion answered 200; then the one document written or
    removed is the one given. *)
Inductive step (w : World) (r : Request) (resp : Response.t)
    (m' : gmap ObjectId ITodo) : Prop :=
| step_unchanged :
    m' = collection w ->
    (isGet r = true
     \/ (Response.status resp <> 200 /\ Response.status resp <> 201)) ->
    step w r resp m'
| step_created oid now body t :
    r = Post oid now body ->
    Response.status resp = 201 ->
    online w = true ->
    CreateTodoRequest.title body = Some t ->
    collection w !! oid = None ->
    Response.data resp
    = Some (DataTodo
              (mkTodo oid (trim t)
                 (trim <$> CreateTodoRequest.description body)
                 false now now)) ->
    m' = <[oid := mkTodo oid (trim t)
                    (trim <$> CreateTodoRequest.description body)
                    false now now]> (collection w) ->
    step w r resp m'
| step_updated now id body oid old :
    r = Put now id body ->
    Response.status resp = 200 ->
    online w = true ->
    ObjectIdOps.cast id = Some oid ->
    collection w !! oid = Some old ->
    acceptable body ->
    Response.data resp
    = Some (DataTodo
              (mkTodo (_id old)
                 (default (title old) (trim <$> UpdateTodoRequest.title body))
                 (match trim <$> UpdateTodoRequest.description body with
                  | Some v => Some v
                  | None => description old
                  end)
                 (default (completed old) (UpdateTodoRequest.completed body))
                 (createdAt old) now)) ->
    m' = <[oid :=
             mkTodo (_id old)
               (default (title old) (trim <$> UpdateTodoRequest.title body))
               (match trim <$> UpdateTodoRequest.description body with
                | Some v => Some v
                | None => description old
                end)
               (default (completed old) (UpdateTodoRequest.completed body))
               (createdAt old) now]> (collection w) ->
    step w r resp m'
| step_toggled now id oid old :
    r = PatchToggle now id ->
    Response.status resp = 200 ->
    online w = true ->
    ObjectIdOps.cast id = Some oid ->
    collection w !! oid = Some old ->
    conforms old ->
    is_Some (collection w !! _id old) ->
    Response.data resp
    = Some (DataTodo
              (mkTodo (_id old) (title old) (description old)
                 (negb (completed old)) (createdAt old) now)) ->
    m' = <[_id old :=
             mkTodo (_id old) (title old) (description old)
               (negb (completed old)) (createdAt old) now]> (collection w) ->
    step w r resp m'
| step_deleted id oid old :
    r = Delete id ->
    Response.status resp = 200 ->
    online w = true ->
    ObjectIdOps.cast id = Some oid ->
    collection w !! oid = Some old ->
    m' = delete oid (collection w) ->
    step w r resp m'.

(** What happens to the service: a request is served, or the store
    loses or regains its connection. *)
Inductive Event :=
| Serve (r : Request)
| Connection (up : bool).

(** The world after a sequence of events. *)
Fixpoint run (evs : list Event) (w : World) : World :=
  match evs with
  | [] => w
  | Serve r :: evs' => run evs' (snd (router r w))
  | Connection up :: evs' => run evs' (connection up w)
  end.

(** The clock does not go back: the requests that write carry times that
    do not decrease, from [t] on. *)
Fixpoint clockMonotone (t : Date) (evs : list Event) : Prop :=
  match evs with
  | [] => True
  | Serve r :: evs' =>
      match requestTime r with
      | Some now => t <= now /\ clockMonotone now evs'
      | None => clockMonotone t evs'
      end
  | Connection _ :: evs' => clockMonotone t evs'
  end.

(** No stored document was updated before it was created, or after
    [t]. *)
Definition timely (t : Date) (w : World) : Prop :=
  forall k doc,
    collection w !! k = Some doc ->
    createdAt doc <= updatedAt doc /\ updatedAt doc <= t.

(** The todos of one page, as [getTodosPaginated] fulfils it; none when it
    rejects. *)
Definition pageItems (page limit : Z) (status : option TodoStatus)
    (w : World) : list ITodo :=
  match fst (TodoService.getTodosPaginated page limit status w) with
  | Fulfilled result => Paginated.todos result
  | Rejected _ => []
  end.

(** A computation that leaves the connection of the store as it is. *)
Definition keepsOnline {E A} (p : Promise E A) : Prop :=
  forall w, online (snd (p w)) = online w.


(** ** Error middleware: middleware/errorHandler.ts *)

(** [AppError]: an [Error] with an optional status code and status. *)
Module AppError.
Record t := mk {
  message : jsstring;
  stack : option jsstring;
  statusCode : option Z;
  status : option jsstring
}.
End AppError.

(** The JSON body and the status code that [errorHandler] sends. *)
Module ErrorResponse.
Record t := mk {
  statusCode : Z;
  success : bool;
  status : jsstring;
  message : jsstring;
  stack : option jsstring
}.
End ErrorResponse.

(** [s || d] for an optional string: [undefined] and the empty string are
    falsy. *)
Definition or_string (s : option jsstring) (d : jsstring) : jsstring :=
  match s with
  | Some v => if falsy v then d else v
  | None => d
  end.

(** [development] is [process.env.NODE_ENV === 'development']. *)
Definition errorHandler (development : bool) (err : AppError.t)
  : ErrorResponse.t :=
  let statusCode := or_default (AppError.statusCode err) 500 in
  let status := or_string (AppError.status err) (js "error") in
  {| ErrorResponse.statusCode := statusCode;
     ErrorResponse.success := false;
     ErrorResponse.status := status;
     ErrorResponse.message :=
       or_string (Some (AppError.message err)) (js "Internal Server Error");
     ErrorResponse.stack :=
       if development then AppError.stack err else None |}.

(** The error that [notFoundHandler] passes on for the URL of the
    request; [stack] is the stack trace of the new [Error]. *)
Definition notFoundHandler (originalUrl stack : jsstring) : AppError.t :=
  {| AppError.message := js "Not found - " ++ originalUrl;
     AppError.stack := Some stack;
     AppError.statusCode := Some 404;
     AppError.status := Some (js "fail") |}.

(** ** Cross-origin policy: server.ts *)

Definition allowedOrigins : list jsstring :=
  [ js "http://localhost:3000";
    js "http://localhost:3001";
    js "http://localhost:3002";
    js "http://localhost:3003";
    js "http://localhost:3004";
    js "https://todo-frontend-theta-self.vercel.app";
    js "https://todo-frontend-vatspras-projects.vercel.app";
    js "http://localhost:5173" ].

(** [allowedOrigins.includes(s)] *)
Definition includes (l : list jsstring) (s : jsstring) : bool :=
  bool_decide (s ∈ l).

(** The [origin] function of the CORS configuration: [None] is
    [callback(null, true)], [Some err] is [callback(err)]; [stack] is the
    stack trace of the new [Error]. *)
Definition corsOrigin (origin : option jsstring) (stack : jsstring)
  : option AppError.t :=
  if includes allowedOrigins (or_string origin (js "")) then None
  else
    Some {| AppError.message := js "Not allowed by CORS";
            AppError.stack := Some stack;
            AppError.statusCode := None;
            AppError.status := None |}.

(** * Strings *)

Section Trim.

Lemma trimStart_startsWithWhiteSpace (s : jsstring) :
  startsWithWhiteSpace (trimStart s) = false.
Proof.
  induction s as [|c s IH]; simpl; [reflexivity|].
  destruct (isWhiteSpace c) eqn:Hc; [exact IH|].
  simpl. exact Hc.
Qed.

Lemma endsWithWhiteSpace_rev (s : jsstring) :
  endsWithWhiteSpace s = startsWithWhiteSpace (rev s).
Proof.
  unfold endsWithWhiteSpace.
  destruct s as [|c s] using rev_ind; [reflexivity|].
  rewrite last_snoc, rev_unit. reflexivity.
Qed.

Lemma trimEnd_endsWithWhiteSpace (s : jsstring) :
  endsWithWhiteSpace (trimEnd s) = false.
Proof.
  rewrite endsWithWhiteSpace_rev. unfold trimEnd.
  rewrite rev_involutive. apply trimStart_startsWithWhiteSpace.
Qed.

(** [trimStart] keeps a suffix. *)
Lemma trimStart_suffix (s : jsstring) :
  exists p, s = p ++ trimStart s.
Proof.
  induction s as [|c s [p IH]]; simpl.
  - exists []. reflexivity.
  - destruct (isWhiteSpace c).
    + exists (c :: p). simpl. f_equal. exact IH.
    + exists []. reflexivity.
Qed.

(** [trimEnd] keeps a prefix. *)
Lemma trimEnd_prefix (s : jsstring) :
  exists q, s = trimEnd s ++ q.
Proof.
  destruct (trimStart_suffix (rev s)) as [p Hp].
  exists (rev p). unfold trimEnd.
  rewrite <- rev_app_distr, <- Hp, rev_involutive. reflexivity.
Qed.

Lemma trimEnd_startsWithWhiteSpace (s : jsstring) :
  startsWithWhiteSpace s = false ->
  startsWithWhiteSpace (trimEnd s) = false.
Proof.
  intros Hs. destruct (trimEnd_prefix s) as [q Hq].
  destruct (trimEnd s) as [|c t]; [reflexivity|].
  rewrite Hq in Hs. exact Hs.
Qed.

Lemma trim_trimmed (s : jsstring) : trimmed (trim s).
Proof.
  split.
  - apply trimEnd_startsWithWhiteSpace, trimStart_startsWithWhiteSpace.
  - apply trimEnd_endsWithWhiteSpace.
Qed.

Lemma trimStart_id (s : jsstring) :
  startsWithWhiteSpace s = false -> trimStart s = s.
Proof.
  destruct s as [|c s]; simpl; [reflexivity|].
  intros ->. reflexivity.
Qed.

Lemma trimEnd_id (s : jsstring) :
  endsWithWhiteSpace s = false -> trimEnd s = s.
Proof.
  rewrite endsWithWhiteSpace_rev. intros H. unfold trimEnd.
  rewrite trimStart_id by exact H. apply rev_involutive.
Qed.

Lemma trim_id (s : jsstring) : trimmed s -> trim s = s.
Proof.
  intros [H1 H2]. unfold trim.
  rewrite trimStart_id by exact H1. apply trimEnd_id, H2.
Qed.

Lemma trim_idempotent (s : jsstring) : trim (trim s) = trim s.
Proof. apply trim_id, trim_trimmed. Qed.

(** A string that does not begin with white space is empty or holds a
    code unit that is not white space. *)
Lemma whiteSpaceOnly_nonempty (s : jsstring) :
  startsWithWhiteSpace s = false -> s <> [] -> whiteSpaceOnly s = false.
Proof.
  destruct s as [|c s]; [congruence|].
  simpl. intros -> _. reflexivity.
Qed.

Lemma jslength_0 (s : jsstring) : (jslength s =? 0) = true <-> s = [].
Proof.
  unfold jslength. rewrite Z.eqb_eq. destruct s; simpl; split; try easy; lia.
Qed.

Lemma jslength_not_0 (s : jsstring) : (jslength s =? 0) = false <-> s <> [].
Proof.
  rewrite <- jslength_0. destruct (jslength s =? 0); split; congruence.
Qed.

(** Trimming a string made of white space leaves nothing, and only
    then. *)
Lemma trimStart_nil (s : jsstring) :
  trimStart s = [] <-> whiteSpaceOnly s = true.
Proof.
  induction s as [|c s IH]; simpl; [easy|].
  destruct (isWhiteSpace c); simpl; [exact IH|]. split; discriminate.
Qed.

Lemma trim_nil (s : jsstring) : trim s = [] <-> whiteSpaceOnly s = true.
Proof.
  rewrite <- trimStart_nil. unfold trim. split.
  - intros H. destruct (trimStart s) as [|c t] eqn:E; [reflexivity|].
    exfalso.
    pose proof (trimStart_startsWithWhiteSpace s) as Hs. rewrite E in Hs.
    pose proof (trimEnd_startsWithWhiteSpace (c :: t) Hs) as Ht.
    destruct (trimEnd_prefix (c :: t)) as [q Hq]. rewrite H in Hq.
    unfold trimEnd in H.
    apply (f_equal (@rev N)) in H. rewrite rev_involutive in H. simpl in H.
    apply trimStart_nil in H. unfold whiteSpaceOnly in H.
    rewrite forallb_forall in H.
    simpl in Hs. specialize (H c). rewrite Hs in H.
    discriminate H. apply in_or_app. right. left. reflexivity.
  - intros ->. reflexivity.
Qed.

End Trim.

(** * Identifiers and their string form *)

Section Hex.

Local Open Scope N_scope.

Lemma hexDigitValue_hexDigit (d : N) :
  d < 16 -> hexDigitValue (hexDigit d) = Some d.
Proof.
  intros Hd. unfold hexDigit, hexDigitValue.
  destruct (N.ltb_spec d 10) as [Hlt|Hge].
  - replace ((48 <=? 48 + d) && (48 + d <=? 57))%bool with true.
    + f_equal. lia.
    + symmetry. apply andb_true_iff. split; apply N.leb_le; lia.
  - replace ((48 <=? 87 + d) && (87 + d <=? 57))%bool with false.
    + replace ((97 <=? 87 + d) && (87 + d <=? 102))%bool with true.
      * f_equal. lia.
      * symmetry. apply andb_true_iff. split; apply N.leb_le; lia.
    + symmetry. apply andb_false_iff. right. apply N.leb_gt. lia.
Qed.

Lemma fromHex_app (a b : jsstring) (acc : N) :
  fromHex (a ++ b) acc =
  match fromHex a acc with
  | Some x => fromHex b x
  | None => None
  end.
Proof.
  revert acc. induction a as [|c a IH]; intros acc; simpl; [reflexivity|].
  destruct (hexDigitValue c); [apply IH | reflexivity].
Qed.

Lemma length_toHex (k : nat) (n : N) : length (toHex k n) = k.
Proof.
  revert n. induction k as [|k IH]; intros n; simpl; [reflexivity|].
  rewrite length_app, IH. simpl. lia.
Qed.

Lemma fromHex_toHex (k : nat) (n acc : N) :
  fromHex (toHex k n) acc = Some (acc * 16 ^ N.of_nat k + n mod 16 ^ N.of_nat k).
Proof.
  revert n acc. induction k as [|k IH]; intros n acc.
  - simpl. rewrite N.mod_1_r. f_equal. lia.
  - cbn [toHex]. rewrite fromHex_app, IH. cbn [fromHex].
    rewrite hexDigitValue_hexDigit by (apply N.mod_lt; lia).
    f_equal. rewrite Nat2N.inj_succ, N.pow_succ_r'.
    rewrite (N.Div0.mod_mul_r n 16 (16 ^ N.of_nat k)). lia.
Qed.

(** The string form of an identifier denotes that identifier. *)
Lemma cast_toString (o : ObjectId) :
  wf_ObjectId o -> ObjectIdOps.cast (ObjectIdOps.toString o) = Some o.
Proof.
  intros Ho. unfold ObjectIdOps.cast, ObjectIdOps.toString.
  rewrite length_toHex. simpl Nat.eqb. cbv iota.
  rewrite fromHex_toHex. f_equal.
  change (16 ^ N.of_nat 24) with (2 ^ 96).
  rewrite N.mod_small by exact Ho. lia.
Qed.

Lemma isValid_cast (id : jsstring) :
  ObjectIdOps.isValid id = true <-> exists o, ObjectIdOps.cast id = Some o.
Proof.
  unfold ObjectIdOps.isValid. destruct (ObjectIdOps.cast id) as [o|].
  - split; [eauto | reflexivity].
  - split; [discriminate | intros [o Ho]; discriminate].
Qed.

Lemma cast_length (id : jsstring) (o : ObjectId) :
  ObjectIdOps.cast id = Some o -> length id = 24%nat.
Proof.
  unfold ObjectIdOps.cast.
  destruct (Nat.eqb_spec (length id) 24); [auto | discriminate].
Qed.

Lemma cast_falsy (id : jsstring) (o : ObjectId) :
  ObjectIdOps.cast id = Some o -> falsy id = false.
Proof.
  intros H. apply cast_length in H. unfold falsy, jslength.
  rewrite H. reflexivity.
Qed.

End Hex.

(** * Running the service *)

Ltac unfold_promise :=
  unfold try_catch, bind, resolve, reject, Promise_all,
    Mongoose.request, Mongoose.refuse, TodoService.rethrow, after.

Section Validation.
Import Mongoose.

Lemma validate_nil (t d : option jsstring) :
  Schema.validate t d = [] <->
  Schema.required_title t = [] /\ Schema.maxlength_title t = []
  /\ Schema.maxlength_description d = [].
Proof.
  unfold Schema.validate. split.
  - intros H. apply app_eq_nil in H as [H1 H3].
    apply app_eq_nil in H1 as [H1 H2]. auto.
  - intros (-> & -> & ->). reflexivity.
Qed.

Lemma required_title_nil (t : option jsstring) :
  Schema.required_title t = [] <-> exists s, t = Some s /\ s <> [].
Proof.
  unfold Schema.required_title. destruct t as [s|].
  - destruct (jslength s =? 0) eqn:E.
    + apply jslength_0 in E. subst. split; [discriminate|].
      intros (s & [= <-] & Hs). congruence.
    + apply jslength_not_0 in E. split; eauto.
  - split; [discriminate|]. intros (s & Hs & _). discriminate.
Qed.

End Validation.

Section GetById.

Variables (id : jsstring) (oid : ObjectId) (w : World).

Lemma getTodoById_invalid :
  ObjectIdOps.cast id = None ->
  TodoService.getTodoById id w = (Fulfilled None, w).
Proof.
  intros H. unfold TodoService.getTodoById, ObjectIdOps.isValid.
  rewrite H. reflexivity.
Qed.

Hypothesis Hcast : ObjectIdOps.cast id = Some oid.

Lemma getTodoById_online :
  online w = true ->
  TodoService.getTodoById id w =
  (Fulfilled (collection w !! oid), after (CallFindById id) (collection w) w).
Proof.
  intros Hon.
  unfold TodoService.getTodoById, ObjectIdOps.isValid, Todo.findById.
  rewrite Hcast. unfold_promise. simpl. rewrite Hon. reflexivity.
Qed.

Lemma getTodoById_offline :
  online w = false ->
  TodoService.getTodoById id w =
  (Rejected (Error "Failed to fetch todo"),
   after (CallFindById id) (collection w) w).
Proof.
  intros Hon.
  unfold TodoService.getTodoById, ObjectIdOps.isValid, Todo.findById.
  rewrite Hcast. unfold_promise. simpl. rewrite Hon. reflexivity.
Qed.

End GetById.

Section Create.
Import Mongoose.

(** The document [createTodo] stores. *)
Lemma createTodo_stores (oid : ObjectId) (now : Date)
    (req : CreateTodoRequest.t) (t : jsstring) (w : World) :
  CreateTodoRequest.title req = Some t ->
  Schema.validate (Some (trim t))
    (trim <$> CreateTodoRequest.description req) = [] ->
  online w = true ->
  collection w !! oid = None ->
  let doc :=
    mkTodo oid (trim t) (trim <$> CreateTodoRequest.description req)
      false now now in
  TodoService.createTodo oid now req w =
  (Fulfilled doc, after (CallSave oid) (<[oid := doc]> (collection w)) w).
Proof.
  intros Ht Hv Hon Hfresh doc.
  unfold TodoService.createTodo, Todo.new, Todo.save. rewrite Ht. simpl.
  unfold Schema.set_title, Schema.set_description.
  rewrite Hv. unfold_promise. simpl. rewrite Hon, Hfresh. reflexivity.
Qed.

(** [createTodo] stores that document or leaves the collection as it
    was. *)
Lemma createTodo_cases (oid : ObjectId) (now : Date)
    (req : CreateTodoRequest.t) (w : World) :
  (exists t,
      CreateTodoRequest.title req = Some t
      /\ Schema.validate (Some (trim t))
           (trim <$> CreateTodoRequest.description req) = []
      /\ online w = true
      /\ collection w !! oid = None
      /\ TodoService.createTodo oid now req w =
         (Fulfilled
            (mkTodo oid (trim t)
               (trim <$> CreateTodoRequest.description req) false now now),
          after (CallSave oid)
            (<[oid :=
                 mkTodo oid (trim t)
                   (trim <$> CreateTodoRequest.description req)
                   false now now]> (collection w)) w))
  \/ (exists e,
         TodoService.createTodo oid now req w =
         (Rejected e, after (CallSave oid) (collection w) w)).
Proof.
  destruct (CreateTodoRequest.title req) as [t|] eqn:Ht.
  - destruct (Schema.validate (Some (trim t))
                (trim <$> CreateTodoRequest.description req)) eqn:Hv.
    + destruct (online w) eqn:Hon.
      * destruct (collection w !! oid) eqn:Hfresh.
        -- right. eexists.
           unfold TodoService.createTodo, Todo.new, Todo.save.
           rewrite Ht. simpl.
           unfold Schema.set_title, Schema.set_description.
           rewrite Hv. unfold_promise. simpl. rewrite Hon, Hfresh. reflexivity.
        -- left. exists t. repeat split; try assumption.
           apply createTodo_stores; assumption.
      * right. eexists.
        unfold TodoService.createTodo, Todo.new, Todo.save.
        rewrite Ht. simpl.
        unfold Schema.set_title, Schema.set_description.
        rewrite Hv. unfold_promise. simpl. rewrite Hon. reflexivity.
    + right. eexists.
      unfold TodoService.createTodo, Todo.new, Todo.save.
      rewrite Ht. simpl.
      unfold Schema.set_title, Schema.set_description.
      rewrite Hv. unfold_promise. reflexivity.
  - right. eexists.
    unfold TodoService.createTodo, Todo.new, Todo.save.
    rewrite Ht. simpl. unfold_promise. reflexivity.
Qed.

End Create.

Section Update.
Import Mongoose.

Variables (now : Date) (id : jsstring) (oid : ObjectId).
Variables (req : UpdateTodoRequest.t) (doc : ITodo) (w : World).

Lemma updateTodo_invalid :
  ObjectIdOps.cast id = None ->
  TodoService.updateTodo now id req w = (Fulfilled None, w).
Proof.
  intros H. unfold TodoService.updateTodo, ObjectIdOps.isValid.
  rewrite H. reflexivity.
Qed.

Hypothesis Hcast : ObjectIdOps.cast id = Some oid.

Ltac run_update :=
  unfold TodoService.updateTodo, ObjectIdOps.isValid,
    Todo.findByIdAndUpdate;
  rewrite Hcast;
  cbn [negb set_title set_description set_completed set_updatedAt];
  unfold Schema.set_title, Schema.set_description.

Lemma updateTodo_refused :
  ~ acceptable req ->
  exists e,
    TodoService.updateTodo now id req w =
    (Rejected e, after (CallFindByIdAndUpdate id) (collection w) w).
Proof.
  intros Hv. unfold acceptable in Hv. run_update.
  destruct (Schema.validateUpdate _ _) eqn:E; [contradiction|].
  eexists. unfold_promise. reflexivity.
Qed.

Hypothesis Hacceptable : acceptable req.

Lemma updateTodo_offline :
  online w = false ->
  TodoService.updateTodo now id req w =
  (Rejected (Error "Failed to update todo"),
   after (CallFindByIdAndUpdate id) (collection w) w).
Proof.
  intros Hoff. run_update. rewrite Hacceptable.
  unfold_promise. simpl. rewrite Hoff. reflexivity.
Qed.

Hypothesis Honline : online w = true.

Lemma updateTodo_missing :
  collection w !! oid = None ->
  TodoService.updateTodo now id req w =
  (Fulfilled None, after (CallFindByIdAndUpdate id) (collection w) w).
Proof.
  intros Hm. run_update. rewrite Hacceptable.
  unfold_promise. simpl. rewrite Honline, Hm. reflexivity.
Qed.

(** The document an update of [doc] leaves. *)
Lemma updateTodo_existing :
  collection w !! oid = Some doc ->
  let doc' :=
    mkTodo (_id doc)
      (default (title doc) (trim <$> UpdateTodoRequest.title req))
      (match trim <$> UpdateTodoRequest.description req with
       | Some v => Some v
       | None => description doc
       end)
      (default (completed doc) (UpdateTodoRequest.completed req))
      (createdAt doc) now in
  TodoService.updateTodo now id req w =
  (Fulfilled (Some doc'),
   after (CallFindByIdAndUpdate id) (<[oid := doc']> (collection w)) w).
Proof.
  intros Hm doc'. run_update. rewrite Hacceptable.
  unfold_promise. simpl. rewrite Honline, Hm. reflexivity.
Qed.

End Update.

Section Delete.

Variables (id : jsstring) (oid : ObjectId) (w : World).

Lemma deleteTodo_invalid :
  ObjectIdOps.cast id = None ->
  TodoService.deleteTodo id w = (Fulfilled false, w).
Proof.
  intros H. unfold TodoService.deleteTodo, ObjectIdOps.isValid.
  rewrite H. reflexivity.
Qed.

Hypothesis Hcast : ObjectIdOps.cast id = Some oid.

Lemma deleteTodo_online :
  online w = true ->
  TodoService.deleteTodo id w =
  (Fulfilled (match collection w !! oid with Some _ => true | None => false end),
   after (CallFindByIdAndDelete id) (delete oid (collection w)) w).
Proof.
  intros Hon.
  unfold TodoService.deleteTodo, ObjectIdOps.isValid, Todo.findByIdAndDelete.
  rewrite Hcast. unfold_promise. simpl. rewrite Hon. reflexivity.
Qed.

Lemma deleteTodo_offline :
  online w = false ->
  TodoService.deleteTodo id w =
  (Rejected (Error "Failed to delete todo"),
   after (CallFindByIdAndDelete id) (collection w) w).
Proof.
  intros Hon.
  unfold TodoService.deleteTodo, ObjectIdOps.isValid, Todo.findByIdAndDelete.
  rewrite Hcast. unfold_promise. simpl. rewrite Hon. reflexivity.
Qed.

End Delete.

Section Toggle.
Import Mongoose.

Variables (now : Date) (id : jsstring) (oid : ObjectId).
Variables (doc : ITodo) (w : World).

Lemma toggleTodo_invalid :
  ObjectIdOps.cast id = None ->
  TodoService.toggleTodo now id w = (Fulfilled None, w).
Proof.
  intros H. unfold TodoService.toggleTodo, ObjectIdOps.isValid.
  rewrite H. reflexivity.
Qed.

Hypothesis Hcast : ObjectIdOps.cast id = Some oid.

Ltac run_toggle :=
  unfold TodoService.toggleTodo, ObjectIdOps.isValid, Todo.findById;
  rewrite Hcast; cbn [negb].

Lemma toggleTodo_offline :
  online w = false ->
  TodoService.toggleTodo now id w =
  (Rejected (Error "Failed to toggle todo"),
   after (CallFindById id) (collection w) w).
Proof.
  intros Hoff. run_toggle. unfold_promise. simpl.
  rewrite Hoff. reflexivity.
Qed.

Hypothesis Honline : online w = true.

Lemma toggleTodo_missing :
  collection w !! oid = None ->
  TodoService.toggleTodo now id w =
  (Fulfilled None, after (CallFindById id) (collection w) w).
Proof.
  intros Hm. run_toggle. unfold_promise. simpl.
  rewrite Honline, Hm. reflexivity.
Qed.

Hypothesis Hstored : collection w !! oid = Some doc.

(** A stored document that fails the validators is not written back. *)
Lemma toggleTodo_refused :
  ~ conforms doc ->
  TodoService.toggleTodo now id w =
  (Rejected (Error "Failed to toggle todo"),
   after (CallSave (_id doc)) (collection w)
     (after (CallFindById id) (collection w) w)).
Proof.
  intros Hc. run_toggle. unfold conforms in Hc.
  unfold_promise. simpl. rewrite Honline, Hstored. unfold Todo.save.
  cbn [title description _id].
  destruct (Schema.validate _ _) eqn:E; [contradiction|].
  reflexivity.
Qed.

(** The document a toggle of [doc] leaves. *)
Lemma toggleTodo_existing :
  _id doc = oid -> conforms doc ->
  let doc' :=
    mkTodo (_id doc) (title doc) (description doc)
      (negb (completed doc)) (createdAt doc) now in
  TodoService.toggleTodo now id w =
  (Fulfilled (Some doc'),
   after (CallSave oid) (<[oid := doc']> (collection w))
     (after (CallFindById id) (collection w) w)).
Proof.
  intros Hid Hc doc'. subst doc'. run_toggle. unfold conforms in Hc.
  unfold_promise. simpl. rewrite Honline, Hstored. unfold Todo.save.
  cbn [title description _id]. rewrite Hc.
  unfold_promise. simpl. rewrite Hid, Hstored. reflexivity.
Qed.

(** A document stored under another key than its [_id]. *)
Lemma toggleTodo_misfiled :
  conforms doc ->
  exists r m,
    TodoService.toggleTodo now id w =
    (r, after (CallSave (_id doc)) m
          (after (CallFindById id) (collection w) w))
    /\ (m = collection w
        \/ m = <[_id doc :=
                   mkTodo (_id doc) (title doc) (description doc)
                     (negb (completed doc)) (createdAt doc) now]>
                 (collection w)).
Proof.
  intros Hc. run_toggle. unfold conforms in Hc.
  unfold_promise. simpl. rewrite Honline, Hstored. unfold Todo.save.
  cbn [title description _id]. rewrite Hc.
  unfold_promise. simpl.
  destruct (collection w !! _id doc); eexists _, _; split;
    try reflexivity; auto.
Qed.

End Toggle.

Section PaginationFacts.
Import Mongoose.

(** The least number of pages of [b] items that hold [a] items. *)
Lemma Math_ceil_div_spec (a b : Z) :
  0 < b ->
  (Math_ceil_div a b - 1) * b < a <= Math_ceil_div a b * b.
Proof.
  intros Hb. unfold Math_ceil_div.
  pose proof (Z.div_mod (- a) b ltac:(lia)) as Hdm.
  pose proof (Z.mod_pos_bound (- a) b Hb) as Hm.
  nia.
Qed.

Lemma Math_ceil_div_unique (a b q : Z) :
  0 < b -> (q - 1) * b < a <= q * b -> Math_ceil_div a b = q.
Proof.
  intros Hb Hq. pose proof (Math_ceil_div_spec a b Hb). nia.
Qed.

(** The documents that match a filter, newest first: what
    [getAllTodos] returns. *)
Lemma getAllTodos_online (status : option TodoStatus) (w : World) :
  online w = true ->
  TodoService.getAllTodos status w =
  (Fulfilled
     (merge_sort newer_first
        (List.filter (matches (TodoService.statusFilter status))
           (documents (collection w)))),
   after (CallFind (TodoService.statusFilter status)) (collection w) w).
Proof.
  intros Hon. unfold TodoService.getAllTodos, Todo.exec.
  unfold_promise. simpl. rewrite Hon. reflexivity.
Qed.

Lemma getTodosPaginated_online (page limit : Z)
    (status : option TodoStatus) (w : World) :
  online w = true ->
  let f := TodoService.statusFilter status in
  let all := merge_sort newer_first
               (List.filter (matches f) (documents (collection w))) in
  TodoService.getTodosPaginated page limit status w =
  (Fulfilled
     (Paginated.mk
        (take (Z.to_nat limit) (drop (Z.to_nat ((page - 1) * limit)) all))
        (Z.of_nat (length (List.filter (matches f) (documents (collection w)))))
        page
        (Math_ceil_div
           (Z.of_nat (length (List.filter (matches f) (documents (collection w)))))
           limit)),
   after (CallCountDocuments f) (collection w)
     (after (CallFind f) (collection w) w)).
Proof.
  intros Hon f all. unfold TodoService.getTodosPaginated, Todo.exec,
    Todo.countDocuments.
  unfold_promise. simpl. rewrite Hon. reflexivity.
Qed.

Lemma getTodosPaginated_offline (page limit : Z)
    (status : option TodoStatus) (w : World) :
  online w = false ->
  let f := TodoService.statusFilter status in
  TodoService.getTodosPaginated page limit status w =
  (Rejected (Error "Failed to fetch paginated todos"),
   after (CallCountDocuments f) (collection w)
     (after (CallFind f) (collection w) w)).
Proof.
  intros Hon f. unfold TodoService.getTodosPaginated, Todo.exec,
    Todo.countDocuments.
  unfold_promise. simpl. rewrite Hon. reflexivity.
Qed.

Lemma length_sorted (l : list ITodo) :
  length (merge_sort newer_first l) = length l.
Proof. apply Permutation_length, merge_sort_Permutation. Qed.

Lemma filter_all (l : list ITodo) :
  List.filter (matches {| f_completed := None |}) l = l.
Proof.
  induction l as [|d l IH]; simpl; [reflexivity|]. f_equal. exact IH.
Qed.

Lemma length_documents (m : gmap ObjectId ITodo) :
  length (documents m) = size m.
Proof. unfold documents. rewrite length_fmap. apply length_map_to_list. Qed.

Lemma or_default_positive (n d : Z) : 1 <= n -> or_default (Some n) d = n.
Proof. intros Hn. destruct n; simpl; try reflexivity; lia. Qed.

End PaginationFacts.

(** * Invariants of the collection *)

Section Invariants.
Import Mongoose.

Lemma conforms_nonempty (doc : ITodo) : conforms doc -> title doc <> [].
Proof.
  unfold conforms. intros H. apply validate_nil in H as (H & _ & _).
  apply required_title_nil in H as (s & [= <-] & Hs). exact Hs.
Qed.

Lemma fmap_trim_trimmed (o : option jsstring) (d : jsstring) :
  trim <$> o = Some d -> trimmed d.
Proof.
  destruct o as [x|]; simpl; [|discriminate].
  intros [= <-]. apply trim_trimmed.
Qed.

(** A document made by [createTodo] satisfies the trim invariant. *)
Lemma created_trimInvariant (oid : ObjectId) (now : Date) (t : jsstring)
    (d : option jsstring) (c : bool) :
  Schema.validate (Some (trim t)) (trim <$> d) = [] ->
  trimInvariant (mkTodo oid (trim t) (trim <$> d) c now now).
Proof.
  intros Hv. apply validate_nil in Hv as (Hr & _ & _).
  apply required_title_nil in Hr as (s & [= <-] & Hs).
  split; [apply trim_trimmed|]. split; simpl.
  - apply whiteSpaceOnly_nonempty; [apply trim_trimmed | exact Hs].
  - intros d'. apply fmap_trim_trimmed.
Qed.

(** The document an update leaves satisfies the trim invariant when
    the stored one did. *)
Lemma updated_trimInvariant (doc : ITodo) (t d : option jsstring)
    (c : bool) (now : Date) :
  Schema.validateUpdate (trim <$> t) (trim <$> d) = [] ->
  trimInvariant doc ->
  trimInvariant
    (mkTodo (_id doc) (default (title doc) (trim <$> t))
       (match trim <$> d with Some v => Some v | None => description doc end)
       c (createdAt doc) now).
Proof.
  intros Hv (Ht & Hw & Hd). unfold trimInvariant. cbn [title description].
  split; [|split].
  - destruct t as [x|]; simpl; [apply trim_trimmed | exact Ht].
  - destruct t as [x|]; simpl; [|exact Hw].
    unfold Schema.validateUpdate in Hv.
    cbn [fmap option_fmap option_map] in Hv.
    apply app_eq_nil in Hv as [_ Hv].
    apply app_eq_nil in Hv as [Hv _].
    apply required_title_nil in Hv as (s & [= <-] & Hs).
    apply whiteSpaceOnly_nonempty; [apply trim_trimmed | exact Hs].
  - intros d'. destruct d as [x|]; simpl.
    + intros [= <-]. apply trim_trimmed.
    + apply Hd.
Qed.

Lemma updated_conforms (doc : ITodo) (t d : option jsstring)
    (c : bool) (now : Date) :
  Schema.validateUpdate (trim <$> t) (trim <$> d) = [] ->
  conforms doc ->
  conforms
    (mkTodo (_id doc) (default (title doc) (trim <$> t))
       (match trim <$> d with Some v => Some v | None => description doc end)
       c (createdAt doc) now).
Proof.
  unfold conforms. cbn [title description]. intros Hv Hc.
  apply validate_nil in Hc as (Hr & Hm & Hd).
  apply validate_nil. unfold Schema.validateUpdate in Hv.
  destruct t as [x|], d as [y|];
    cbn [fmap option_fmap option_map default] in *;
    repeat match goal with
           | H : _ ++ _ = [] |- _ => apply app_eq_nil in H as [? ?]
           end; auto.
Qed.

End Invariants.

Section Router.
Import Mongoose.

Lemma respond_effect {A} (p : Promise JsError A) (k : A -> Response.t)
    (msg : string) (w : World) :
  effect w (collection (snd (p w))) ->
  effect w (collection (snd (TodoController.respond p k msg w))).
Proof.
  unfold TodoController.respond. destruct (p w) as [[a|e] w']; auto.
Qed.

Lemma getAllTodos_effect (status : option TodoStatus) (w : World) :
  effect w (collection (snd (TodoService.getAllTodos status w))).
Proof.
  apply effect_none. unfold TodoService.getAllTodos, Todo.exec.
  unfold_promise. simpl. destruct (online w); reflexivity.
Qed.

Lemma getTodosCount_effect (w : World) :
  effect w (collection (snd (TodoService.getTodosCount w))).
Proof.
  apply effect_none. unfold TodoService.getTodosCount, Todo.countDocuments.
  unfold_promise. simpl. destruct (online w); reflexivity.
Qed.

Lemma getTodosPaginated_effect (page limit : Z)
    (status : option TodoStatus) (w : World) :
  effect w
    (collection (snd (TodoService.getTodosPaginated page limit status w))).
Proof.
  apply effect_none. destruct (online w) eqn:Hon.
  - rewrite getTodosPaginated_online by exact Hon. reflexivity.
  - rewrite getTodosPaginated_offline by exact Hon. reflexivity.
Qed.

Lemma getTodoById_effect (id : jsstring) (w : World) :
  effect w (collection (snd (TodoService.getTodoById id w))).
Proof.
  apply effect_none. destruct (ObjectIdOps.cast id) as [oid|] eqn:Hc.
  - destruct (online w) eqn:Hon.
    + rewrite (getTodoById_online id oid) by assumption. reflexivity.
    + rewrite (getTodoById_offline id oid) by assumption. reflexivity.
  - rewrite getTodoById_invalid by exact Hc. reflexivity.
Qed.

Lemma createTodo_effect (oid : ObjectId) (now : Date)
    (req : CreateTodoRequest.t) (w : World) :
  effect w (collection (snd (TodoService.createTodo oid now req w))).
Proof.
  destruct (createTodo_cases oid now req w)
    as [(t & Ht & Hv & Hon & Hfresh & ->)|[e ->]].
  - eapply effect_write; [reflexivity| |].
    + intros _. split; [reflexivity | exact Hv].
    + intros _. apply created_trimInvariant, Hv.
  - apply effect_none. reflexivity.
Qed.

Lemma updateTodo_effect (now : Date) (id : jsstring)
    (req : UpdateTodoRequest.t) (w : World) :
  effect w (collection (snd (TodoService.updateTodo now id req w))).
Proof.
  destruct (ObjectIdOps.cast id) as [oid|] eqn:Hc.
  2: { rewrite updateTodo_invalid by exact Hc. apply effect_none.
       reflexivity. }
  destruct (decide (acceptable req)) as [Hv|Hv].
  2: { destruct (updateTodo_refused now id oid req w Hc Hv) as [e ->].
       apply effect_none. reflexivity. }
  destruct (online w) eqn:Hon.
  2: { rewrite (updateTodo_offline now id oid) by assumption.
       apply effect_none. reflexivity. }
  destruct (collection w !! oid) as [doc|] eqn:Hm.
  2: { rewrite (updateTodo_missing now id oid) by assumption.
       apply effect_none. reflexivity. }
  rewrite (updateTodo_existing now id oid req doc) by assumption.
  eapply effect_write; [reflexivity| |].
  - intros Hw. destruct (Hw oid doc Hm) as [Hid Hcf]. split; [exact Hid|].
    apply updated_conforms; assumption.
  - intros Hw. apply updated_trimInvariant; [exact Hv|].
    exact (Hw oid doc Hm).
Qed.

Lemma deleteTodo_effect (id : jsstring) (w : World) :
  effect w (collection (snd (TodoService.deleteTodo id w))).
Proof.
  destruct (ObjectIdOps.cast id) as [oid|] eqn:Hc.
  - destruct (online w) eqn:Hon.
    + rewrite (deleteTodo_online id oid) by assumption.
      eapply effect_remove. reflexivity.
    + rewrite (deleteTodo_offline id oid) by assumption.
      apply effect_none. reflexivity.
  - rewrite deleteTodo_invalid by exact Hc. apply effect_none. reflexivity.
Qed.

Lemma toggleTodo_effect (now : Date) (id : jsstring) (w : World) :
  effect w (collection (snd (TodoService.toggleTodo now id w))).
Proof.
  destruct (ObjectIdOps.cast id) as [oid|] eqn:Hc.
  2: { rewrite toggleTodo_invalid by exact Hc. apply effect_none.
       reflexivity. }
  destruct (online w) eqn:Hon.
  2: { rewrite (toggleTodo_offline now id oid) by assumption.
       apply effect_none. reflexivity. }
  destruct (collection w !! oid) as [doc|] eqn:Hm.
  2: { rewrite (toggleTodo_missing now id oid) by assumption.
       apply effect_none. reflexivity. }
  destruct (decide (conforms doc)) as [Hv|Hv].
  2: { rewrite (toggleTodo_refused now id oid doc) by assumption.
       apply effect_none. reflexivity. }
  destruct (toggleTodo_misfiled now id oid doc w Hc Hon Hm Hv)
    as (r & m & -> & [-> | ->]).
  - apply effect_none. reflexivity.
  - eapply effect_write; [reflexivity| |].
    + intros _. split; [reflexivity | exact Hv].
    + intros Hw. exact (Hw oid doc Hm).
Qed.

(** Every request has one of the three effects. *)
Lemma router_effect (r : Request) (w : World) :
  effect w (collection (snd (router r w))).
Proof.
  destruct r as [|p l s|s|id|oid now body|now id body|now id|id];
    cbn [router].
  - apply respond_effect, getTodosCount_effect.
  - unfold TodoController.getPaginatedTodos.
    destruct (_ || _).
    + apply effect_none. reflexivity.
    + apply respond_effect, getTodosPaginated_effect.
  - apply respond_effect, getAllTodos_effect.
  - unfold TodoController.getTodoById. destruct (falsy id).
    + apply effect_none. reflexivity.
    + apply respond_effect, getTodoById_effect.
  - unfold TodoController.createTodo.
    destruct (CreateTodoRequest.title body) as [t|].
    + destruct (_ || _).
      * apply effect_none. reflexivity.
      * apply respond_effect, createTodo_effect.
    + apply effect_none. reflexivity.
  - unfold TodoController.updateTodo. destruct (falsy id).
    + apply effect_none. reflexivity.
    + destruct (match UpdateTodoRequest.title body with
                | Some t => _ | None => _ end).
      * apply effect_none. reflexivity.
      * apply respond_effect, updateTodo_effect.
  - unfold TodoController.toggleTodo. destruct (falsy id).
    + apply effect_none. reflexivity.
    + apply respond_effect, toggleTodo_effect.
  - unfold TodoController.deleteTodo. destruct (falsy id).
    + apply effect_none. reflexivity.
    + apply respond_effect, deleteTodo_effect.
Qed.

Lemma effect_consistent (w : World) (w' : World) :
  effect w (collection w') -> consistent w -> consistent w'.
Proof.
  intros He Hw. pose proof Hw as Hw0. unfold consistent in Hw |- *.
  destruct He as [E|k doc E Hd _|k E]; rewrite E; [exact Hw| |].
  - intros j d. destruct (decide (k = j)) as [<-|Hne].
    + rewrite lookup_insert_eq. intros [= <-]. exact (Hd Hw0).
    + rewrite lookup_insert_ne by exact Hne. apply Hw.
  - intros j d Hj. apply lookup_delete_Some in Hj as [_ Hj].
    exact (Hw j d Hj).
Qed.

Lemma effect_storedTrimmed (w : World) (w' : World) :
  effect w (collection w') -> storedTrimmed w -> storedTrimmed w'.
Proof.
  intros He Hw. pose proof Hw as Hw0. unfold storedTrimmed in Hw |- *.
  destruct He as [E|k doc E _ Hd|k E]; rewrite E; [exact Hw| |].
  - intros j d. destruct (decide (k = j)) as [<-|Hne].
    + rewrite lookup_insert_eq. intros [= <-]. exact (Hd Hw0).
    + rewrite lookup_insert_ne by exact Hne. apply Hw.
  - intros j d Hj. apply lookup_delete_Some in Hj as [_ Hj].
    exact (Hw j d Hj).
Qed.

(** The worlds the API brings about keep every document under its
    [_id], within the schema, and trimmed. *)
Lemma reachable_invariants (w : World) :
  reachable w -> consistent w /\ storedTrimmed w.
Proof.
  induction 1 as [up|w r Hw [IH1 IH2]|w up Hw IH].
  - split; intros k doc Hk; cbn in Hk; rewrite lookup_empty in Hk;
      discriminate.
  - pose proof (router_effect r w) as He. split.
    + eapply effect_consistent; eassumption.
    + eapply effect_storedTrimmed; eassumption.
  - exact IH.
Qed.


(** A document of a world the API brought about is stored under its
    [_id] and conforms to the schema. *)
Lemma stored_consistent (w : World) (oid : ObjectId) (doc : ITodo) :
  collection w !! oid = Some doc ->
  reachable w \/ (_id doc = oid /\ conforms doc) ->
  _id doc = oid /\ conforms doc.
Proof.
  intros Hm [Hr|H]; [|exact H].
  apply reachable_invariants in Hr as [Hc _]. exact (Hc oid doc Hm).
Qed.

End Router.


(** * The handlers *)

Section Handlers.
Import Mongoose.

Lemma fmap_trim_idempotent (o : option jsstring) :
  trim <$> (trim <$> o) = trim <$> o.
Proof. destruct o; simpl; [rewrite trim_idempotent|]; reflexivity. Qed.

(** A creation without a usable title is answered at once. *)
Lemma createTodo_rejects_empty (oid : ObjectId) (now : Date)
    (body : CreateTodoRequest.t) (w : World) :
  (CreateTodoRequest.title body = None
   \/ exists t, CreateTodoRequest.title body = Some t /\ trim t = []) ->
  TodoController.createTodo oid now body w =
  (TodoController.failure 400 "Title is required", w).
Proof.
  unfold TodoController.createTodo. intros [->|(t & -> & Ht)].
  - reflexivity.
  - rewrite Ht. cbn [jslength length Z.of_nat Z.eqb].
    rewrite orb_true_r. reflexivity.
Qed.

(** A creation with a usable title reaches the service with the title
    and the description trimmed. *)
Lemma createTodo_accepts (oid : ObjectId) (now : Date)
    (body : CreateTodoRequest.t) (t : jsstring) (w : World) :
  CreateTodoRequest.title body = Some t -> trim t <> [] ->
  TodoController.createTodo oid now body w =
  TodoController.respond
    (TodoService.createTodo oid now
       {| CreateTodoRequest.title := Some (trim t);
          CreateTodoRequest.description :=
            trim <$> CreateTodoRequest.description body |})
    (fun newTodo =>
       Response.mk 201 true (Some (DataTodo newTodo))
         (Some "Todo created successfully"%string) None None None)
    "Failed to create todo" w.
Proof.
  unfold TodoController.createTodo. intros -> Ht.
  assert (falsy t = false) as ->.
  { unfold falsy. apply jslength_not_0. intros ->. apply Ht. reflexivity. }
  apply jslength_not_0 in Ht. rewrite Ht. reflexivity.
Qed.

(** An update whose title trims to nothing is answered at once. *)
Lemma updateTodo_rejects_empty (now : Date) (id : jsstring)
    (body : UpdateTodoRequest.t) (t : jsstring) (w : World) :
  UpdateTodoRequest.title body = Some t -> trim t = [] ->
  TodoController.updateTodo now id body w =
  (TodoController.failure 400
     (if falsy id then "Todo ID is required" else "Title cannot be empty")%string,
   w).
Proof.
  unfold TodoController.updateTodo. intros -> Ht.
  destruct (falsy id); [reflexivity|]. rewrite Ht. reflexivity.
Qed.

(** Any other update with an identifier reaches the service with the
    title and the description trimmed. *)
Lemma updateTodo_accepts (now : Date) (id : jsstring)
    (body : UpdateTodoRequest.t) (w : World) :
  falsy id = false ->
  (forall t, UpdateTodoRequest.title body = Some t -> trim t <> []) ->
  TodoController.updateTodo now id body w =
  TodoController.respond
    (TodoService.updateTodo now id
       {| UpdateTodoRequest.title := trim <$> UpdateTodoRequest.title body;
          UpdateTodoRequest.description :=
            trim <$> UpdateTodoRequest.description body;
          UpdateTodoRequest.completed := UpdateTodoRequest.completed body |})
    (fun updatedTodo =>
       match updatedTodo with
       | None => TodoController.failure 404 "Todo not found"
       | Some updatedTodo =>
           Response.mk 200 true (Some (DataTodo updatedTodo))
             (Some "Todo updated successfully"%string) None None None
       end)
    "Failed to update todo" w.
Proof.
  unfold TodoController.updateTodo. intros -> Ht.
  destruct (UpdateTodoRequest.title body) as [t|]; [|reflexivity].
  specialize (Ht t eq_refl). apply jslength_not_0 in Ht. rewrite Ht.
  reflexivity.
Qed.

End Handlers.

(** * The claims *)

(** C2. A Create call whose title is absent or empty once trimmed, and an
    Update call whose title is present and empty once trimmed, is answered
    with the status 400 (the validation failure) and leaves the world as
    it was: no call to the store is recorded, and no document is created
    or changed. *)
Theorem validation_precedes_storage (w : World) :
  (forall oid now body,
      (CreateTodoRequest.title body = None
       \/ exists t, CreateTodoRequest.title body = Some t /\ trim t = []) ->
      exists r,
        TodoController.createTodo oid now body w = (r, w)
        /\ Response.status r = 400 /\ Response.success r = false)
  /\ (forall now id body t,
         UpdateTodoRequest.title body = Some t -> trim t = [] ->
         exists r,
           TodoController.updateTodo now id body w = (r, w)
           /\ Response.status r = 400 /\ Response.success r = false).
Proof.
  split.
  - intros oid now body H. eexists. split.
    + apply createTodo_rejects_empty, H.
    + split; reflexivity.
  - intros now id body t Ht He. eexists. split.
    + eapply updateTodo_rejects_empty; eassumption.
    + split; reflexivity.
Qed.

Lemma validation_precedes_storage_witness :
  (exists r,
      TodoController.createTodo 1%N 0
        (CreateTodoRequest.mk (Some (js "   ")) None) (initial true)
      = (r, initial true)
      /\ Response.status r = 400 /\ Response.success r = false)
  /\ (exists r,
         TodoController.updateTodo 0 (js "000000000000000000000001")
           (UpdateTodoRequest.mk (Some (js "   ")) None None) (initial true)
         = (r, initial true)
         /\ Response.status r = 400 /\ Response.success r = false).
Proof.
  split.
  - apply (proj1 (validation_precedes_storage (initial true))).
    right. exists (js "   "). split; reflexivity.
  - apply (proj2 (validation_precedes_storage (initial true))
             0 (js "000000000000000000000001") _ (js "   "));
      reflexivity.
Defined.

(** C3. For every id string, Get by id is fulfilled with the absent
    outcome when the id is not a valid identifier, whatever the state of
    the store and without a call to it, and when the id is valid and no
    document matches it.  The handler answers both with the same
    response, 404. *)
Theorem get_by_id_not_found (id : jsstring) (w : World) :
  (ObjectIdOps.isValid id = false ->
   TodoService.getTodoById id w = (Fulfilled None, w))
  /\ (forall oid,
         ObjectIdOps.cast id = Some oid -> online w = true ->
         collection w !! oid = None ->
         exists w',
           TodoService.getTodoById id w = (Fulfilled None, w')
           /\ collection w' = collection w)
  /\ (falsy id = false ->
      ObjectIdOps.isValid id = false
      \/ (exists oid, ObjectIdOps.cast id = Some oid /\ online w = true
                      /\ collection w !! oid = None) ->
      fst (TodoController.getTodoById id w)
      = TodoController.failure 404 "Todo not found").
Proof.
  split; [|split].
  - unfold ObjectIdOps.isValid.
    destruct (ObjectIdOps.cast id) eqn:Hc; [discriminate|].
    intros _. apply getTodoById_invalid, Hc.
  - intros oid Hc Hon Hm. eexists. split.
    + rewrite (getTodoById_online id oid) by assumption.
      rewrite Hm. reflexivity.
    + reflexivity.
  - intros Hf H. unfold TodoController.getTodoById, TodoController.respond.
    rewrite Hf. destruct H as [Hv|(oid & Hc & Hon & Hm)].
    + unfold ObjectIdOps.isValid in Hv.
      destruct (ObjectIdOps.cast id) eqn:Hc; [discriminate|].
      rewrite getTodoById_invalid by exact Hc. reflexivity.
    + rewrite (getTodoById_online id oid) by assumption.
      rewrite Hm. reflexivity.
Qed.

Lemma get_by_id_not_found_witness :
  TodoService.getTodoById (js "not-a-valid-id-format") (initial false)
  = (Fulfilled None, initial false)
  /\ fst (TodoController.getTodoById (js "not-a-valid-id-format")
            (initial true))
     = fst (TodoController.getTodoById (js "00000000000000000000002a")
              (initial true)).
Proof.
  split.
  - apply (proj1 (get_by_id_not_found (js "not-a-valid-id-format")
                    (initial false))).
    reflexivity.
  - rewrite (proj2 (proj2 (get_by_id_not_found (js "not-a-valid-id-format")
                             (initial true))));
      [|reflexivity|left; reflexivity].
    rewrite (proj2 (proj2 (get_by_id_not_found (js "00000000000000000000002a")
                             (initial true))));
      [reflexivity|reflexivity|].
    right. exists 42%N. repeat split; reflexivity.
Defined.

Section TrimInvariant.
Import Mongoose.

(** What a Create call stores. *)
Lemma createTodo_trim (oid : ObjectId) (now : Date)
    (body : CreateTodoRequest.t) (w w' : World) (r : Response.t) :
  TodoController.createTodo oid now body w = (r, w') ->
  Response.status r = 201 ->
  exists t doc,
    CreateTodoRequest.title body = Some t
    /\ Response.data r = Some (DataTodo doc)
    /\ collection w' !! oid = Some doc
    /\ title doc = trim t
    /\ description doc = trim <$> CreateTodoRequest.description body
    /\ trimInvariant doc.
Proof.
  intros Hrun Hst.
  destruct (CreateTodoRequest.title body) as [t|] eqn:Ht.
  2: { rewrite createTodo_rejects_empty in Hrun by (left; exact Ht).
       injection Hrun as <- <-. discriminate Hst. }
  destruct (decide (trim t = [])) as [He|He].
  { rewrite createTodo_rejects_empty in Hrun by (right; eauto).
    injection Hrun as <- <-. discriminate Hst. }
  rewrite (createTodo_accepts oid now body t) in Hrun by assumption.
  unfold TodoController.respond in Hrun.
  match type of Hrun with
  | context [TodoService.createTodo ?o ?n ?q ?x] =>
      destruct (createTodo_cases o n q x)
        as [(t' & Ht' & Hv & Hon & Hfresh & E)|[e E]];
      rewrite E in Hrun; clear E
  end.
  - cbn [CreateTodoRequest.title CreateTodoRequest.description]
      in Ht', Hv, Hrun.
    injection Ht' as <-.
    rewrite trim_idempotent, fmap_trim_idempotent in Hrun, Hv.
    injection Hrun as <- <-. exists t. eexists.
    split; [reflexivity|]. split; [reflexivity|].
    split; [apply lookup_insert_eq|]. split; [reflexivity|].
    split; [reflexivity|]. apply created_trimInvariant, Hv.
  - injection Hrun as <- <-. discriminate Hst.
Qed.

(** What an Update call stores. *)
Lemma updateTodo_trim (now : Date) (id : jsstring)
    (body : UpdateTodoRequest.t) (w w' : World) (r : Response.t) :
  TodoController.updateTodo now id body w = (r, w') ->
  Response.status r = 200 ->
  exists oid doc,
    ObjectIdOps.cast id = Some oid
    /\ Response.data r = Some (DataTodo doc)
    /\ collection w' !! oid = Some doc
    /\ (forall t, UpdateTodoRequest.title body = Some t ->
          title doc = trim t /\ trimmed (title doc)
          /\ whiteSpaceOnly (title doc) = false)
    /\ (forall d, UpdateTodoRequest.description body = Some d ->
          description doc = Some (trim d) /\ trimmed (trim d))
    /\ (storedTrimmed w -> trimInvariant doc).
Proof.
  intros Hrun Hst.
  destruct (falsy id) eqn:Hf.
  { unfold TodoController.updateTodo in Hrun. rewrite Hf in Hrun.
    injection Hrun as <- <-. discriminate Hst. }
  assert (forall t, UpdateTodoRequest.title body = Some t -> trim t <> [])
    as Hne.
  { intros t Ht He.
    rewrite (updateTodo_rejects_empty now id body t) in Hrun by assumption.
    injection Hrun as <- <-. destruct (falsy id); discriminate Hst. }
  rewrite updateTodo_accepts in Hrun by assumption.
  unfold TodoController.respond in Hrun.
  set (req := UpdateTodoRequest.mk _ _ _) in Hrun.
  destruct (ObjectIdOps.cast id) as [oid|] eqn:Hc.
  2: { rewrite updateTodo_invalid in Hrun by exact Hc.
       injection Hrun as <- <-. discriminate Hst. }
  destruct (decide (acceptable req)) as [Hv|Hv].
  2: { destruct (updateTodo_refused now id oid req w Hc Hv) as [e E].
       rewrite E in Hrun. injection Hrun as <- <-. discriminate Hst. }
  destruct (online w) eqn:Hon.
  2: { rewrite (updateTodo_offline now id oid) in Hrun by assumption.
       injection Hrun as <- <-. discriminate Hst. }
  destruct (collection w !! oid) as [doc|] eqn:Hm.
  2: { rewrite (updateTodo_missing now id oid) in Hrun by assumption.
       injection Hrun as <- <-. discriminate Hst. }
  rewrite (updateTodo_existing now id oid req doc) in Hrun by assumption.
  injection Hrun as <- <-. exists oid. eexists.
  split; [reflexivity|]. split; [reflexivity|].
  split; [apply lookup_insert_eq|].
  unfold acceptable in Hv. subst req. cbn in Hv |- *.
  rewrite !fmap_trim_idempotent in *.
  split; [|split].
  - intros t Ht. rewrite Ht. cbn.
    split; [reflexivity|]. split; [apply trim_trimmed|].
    apply whiteSpaceOnly_nonempty; [apply trim_trimmed | eauto].
  - intros d Hd. rewrite Hd. cbn. split; [reflexivity | apply trim_trimmed].
  - intros Hw. apply updated_trimInvariant; [exact Hv | exact (Hw oid doc Hm)].
Qed.

End TrimInvariant.

(** C1. Trim invariant.  The document that a successful Create call
    stores, and the title and the description that a successful Update
    call writes, neither begin nor end with white space, and the title is
    neither empty nor made of white space only; a title that is absent or
    empty once trimmed is answered with the status 400 and nothing is
    stored.  Both calls keep the invariant on the whole collection, and
    every world the API brings about from an empty collection has it. *)
Theorem trim_invariant (w : World) :
  (forall oid now body r w',
      TodoController.createTodo oid now body w = (r, w') ->
      (Response.status r = 201 ->
       exists doc,
         Response.data r = Some (DataTodo doc)
         /\ collection w' !! oid = Some doc
         /\ trimInvariant doc)
      /\ (CreateTodoRequest.title body = None
          \/ (exists t, CreateTodoRequest.title body = Some t /\ trim t = []) ->
          Response.status r = 400 /\ w' = w)
      /\ (storedTrimmed w -> storedTrimmed w'))
  /\ (forall now id body r w',
         TodoController.updateTodo now id body w = (r, w') ->
         (Response.status r = 200 ->
          exists oid doc,
            ObjectIdOps.cast id = Some oid
            /\ Response.data r = Some (DataTodo doc)
            /\ collection w' !! oid = Some doc
            /\ (forall t, UpdateTodoRequest.title body = Some t ->
                  title doc = trim t /\ trimmed (title doc)
                  /\ whiteSpaceOnly (title doc) = false)
            /\ (forall d, UpdateTodoRequest.description body = Some d ->
                  description doc = Some (trim d) /\ trimmed (trim d))
            /\ (storedTrimmed w -> trimInvariant doc))
         /\ (forall t, UpdateTodoRequest.title body = Some t -> trim t = [] ->
               Response.status r = 400 /\ w' = w)
         /\ (storedTrimmed w -> storedTrimmed w'))
  /\ (reachable w -> storedTrimmed w).
Proof.
  split; [|split].
  - intros oid now body r w' Hrun. split; [|split].
    + intros Hst.
      destruct (createTodo_trim oid now body w w' r Hrun Hst)
        as (t & doc & _ & Hd & Hs & _ & _ & Hi).
      exists doc. auto.
    + intros H. rewrite createTodo_rejects_empty in Hrun by exact H.
      injection Hrun as <- <-. split; reflexivity.
    + apply effect_storedTrimmed.
      pose proof (router_effect (Post oid now body) w) as He.
      cbn [router] in He. rewrite Hrun in He. exact He.
  - intros now id body r w' Hrun. split; [|split].
    + intros Hst. exact (updateTodo_trim now id body w w' r Hrun Hst).
    + intros t Ht He.
      rewrite (updateTodo_rejects_empty now id body t) in Hrun by assumption.
      injection Hrun as <- <-. split; reflexivity.
    + apply effect_storedTrimmed.
      pose proof (router_effect (Put now id body) w) as He.
      cbn [router] in He. rewrite Hrun in He. exact He.
  - intros Hr. apply reachable_invariants, Hr.
Qed.

Lemma trim_invariant_witness :
  exists doc,
    collection
      (snd (TodoController.createTodo 1%N 100
              (CreateTodoRequest.mk (Some (js " Buy milk ")) (Some (js " 2% ")))
              (initial true))) !! 1%N = Some doc
    /\ title doc = js "Buy milk"
    /\ trimInvariant doc.
Proof.
  destruct (proj1 (proj1 (trim_invariant (initial true)) 1%N 100
                     (CreateTodoRequest.mk (Some (js " Buy milk "))
                        (Some (js " 2% ")))
                     _ _ eq_refl) eq_refl)
    as (doc & _ & Hs & Hi).
  exists doc. split; [exact Hs|]. split; [|exact Hi].
  vm_compute in Hs. injection Hs as <-. reflexivity.
Defined.

Section PartialUpdate.
Import Mongoose.

Lemma keepsAbsent_refl (req : UpdateTodoRequest.t) (doc : ITodo) :
  keepsAbsent req doc doc.
Proof. repeat split; reflexivity. Qed.

(** The two outcomes of an update of a stored document. *)
Lemma updateTodo_outcome (now : Date) (id : jsstring) (oid : ObjectId)
    (req : UpdateTodoRequest.t) (doc : ITodo) (w : World) :
  ObjectIdOps.cast id = Some oid ->
  collection w !! oid = Some doc ->
  (exists doc',
      acceptable req /\ online w = true
      /\ TodoService.updateTodo now id req w =
         (Fulfilled (Some doc'),
          after (CallFindByIdAndUpdate id) (<[oid := doc']> (collection w)) w)
      /\ keepsAbsent req doc doc'
      /\ holdsPresent req doc'
      /\ updatedAt doc' = now)
  \/ (exists e,
         TodoService.updateTodo now id req w =
         (Rejected e, after (CallFindByIdAndUpdate id) (collection w) w)).
Proof.
  intros Hc Hm.
  destruct (decide (acceptable req)) as [Hv|Hv].
  2: { right. exact (updateTodo_refused now id oid req w Hc Hv). }
  destruct (online w) eqn:Hon.
  2: { right. eexists. apply (updateTodo_offline now id oid); assumption. }
  left. eexists. split; [exact Hv|]. split; [reflexivity|].
  split; [apply (updateTodo_existing now id oid req doc); assumption|].
  split; [|split; [|reflexivity]].
  - unfold keepsAbsent. cbn. repeat split; intros ->; reflexivity.
  - unfold holdsPresent. cbn. repeat split; intros x ->; reflexivity.
Qed.

Lemma holdsPresent_trimmed (body : UpdateTodoRequest.t) (doc' : ITodo) :
  holdsPresent
    {| UpdateTodoRequest.title := trim <$> UpdateTodoRequest.title body;
       UpdateTodoRequest.description :=
         trim <$> UpdateTodoRequest.description body;
       UpdateTodoRequest.completed := UpdateTodoRequest.completed body |}
    doc' ->
  holdsPresent body doc'.
Proof.
  intros (Ht & Hd & Hc). cbn in Ht, Hd, Hc. repeat split.
  - intros t E. rewrite E in Ht. rewrite (Ht _ eq_refl).
    apply trim_idempotent.
  - intros d E. rewrite E in Hd. rewrite (Hd _ eq_refl).
    rewrite trim_idempotent. reflexivity.
  - exact Hc.
Qed.

Lemma keepsAbsent_trimmed (body : UpdateTodoRequest.t) (doc doc' : ITodo) :
  keepsAbsent
    {| UpdateTodoRequest.title := trim <$> UpdateTodoRequest.title body;
       UpdateTodoRequest.description :=
         trim <$> UpdateTodoRequest.description body;
       UpdateTodoRequest.completed := UpdateTodoRequest.completed body |}
    doc doc' ->
  keepsAbsent body doc doc'.
Proof.
  intros (Hi & Hc & Ht & Hd & Hb). cbn in Ht, Hd, Hb. repeat split; auto.
  - intros E. apply Ht. rewrite E. reflexivity.
  - intros E. apply Hd. rewrite E. reflexivity.
Qed.

End PartialUpdate.

(** C4. Update has partial-update semantics.  For a stored document and
    every update request, whatever the outcome of the call, the document
    stored afterwards under the id has its identifier, its creation time
    and every field that the request does not carry unchanged, and no
    other document is touched; when the update is fulfilled, the fields
    that the request carries hold the (trimmed) values given, and it is
    fulfilled whenever the store is reachable and the values are within
    the bounds of the schema.  The same holds through the handler.  In
    particular Update(id, {completed: true}) leaves the title and the
    description unchanged and sets completed to true. *)
Theorem partial_update (now : Date) (id : jsstring) (oid : ObjectId)
    (doc : ITodo) (w : World) :
  ObjectIdOps.cast id = Some oid ->
  collection w !! oid = Some doc ->
  (forall req r w',
      TodoService.updateTodo now id req w = (r, w') ->
      exists doc',
        collection w' !! oid = Some doc'
        /\ keepsAbsent req doc doc'
        /\ (forall k, k <> oid -> collection w' !! k = collection w !! k)
        /\ (forall u, r = Fulfilled (Some u) ->
              u = doc' /\ holdsPresent req doc' /\ updatedAt doc' = now))
  /\ (forall req,
         online w = true -> acceptable req ->
         exists doc' w',
           TodoService.updateTodo now id req w = (Fulfilled (Some doc'), w'))
  /\ (forall body r w',
         TodoController.updateTodo now id body w = (r, w') ->
         exists doc',
           collection w' !! oid = Some doc'
           /\ keepsAbsent body doc doc'
           /\ (Response.status r = 200 ->
               Response.data r = Some (DataTodo doc')
               /\ holdsPresent body doc'))
  /\ (online w = true ->
      exists doc' w',
        TodoController.updateTodo now id
          (UpdateTodoRequest.mk None None (Some true)) w
        = (Response.mk 200 true (Some (DataTodo doc'))
             (Some "Todo updated successfully"%string) None None None, w')
        /\ collection w' !! oid = Some doc'
        /\ title doc' = title doc
        /\ description doc' = description doc
        /\ completed doc' = true).
Proof.
  intros Hc Hm. split; [|split; [|split]].
  - intros req r w' Hrun.
    destruct (updateTodo_outcome now id oid req doc w Hc Hm)
      as [(doc' & _ & _ & E & Hk & Hp & Hu)|[e E]];
      rewrite E in Hrun; injection Hrun as <- <-.
    + exists doc'. split; [apply lookup_insert_eq|]. split; [exact Hk|].
      split.
      * intros k Hne. cbn. apply lookup_insert_ne. congruence.
      * intros u [= <-]. auto.
    + exists doc. split; [exact Hm|]. split; [apply keepsAbsent_refl|].
      split; [reflexivity | discriminate].
  - intros req Hon Hv. eexists _, _.
    apply (updateTodo_existing now id oid req doc); assumption.
  - intros body r w' Hrun.
    pose proof (cast_falsy id oid Hc) as Hf.
    destruct (UpdateTodoRequest.title body) as [t|] eqn:Ht.
    + destruct (decide (trim t = [])) as [He|He].
      * rewrite (updateTodo_rejects_empty now id body t) in Hrun
          by assumption.
        injection Hrun as <- <-. exists doc.
        split; [exact Hm|]. split; [apply keepsAbsent_refl|].
        rewrite Hf. discriminate.
      * rewrite updateTodo_accepts in Hrun
          by (try exact Hf; intros t' Ht'; congruence).
        unfold TodoController.respond in Hrun.
        match type of Hrun with
        | context [TodoService.updateTodo _ _ ?q _] =>
            destruct (updateTodo_outcome now id oid q doc w Hc Hm)
              as [(doc' & _ & _ & E & Hk & Hp & Hu)|[e E]]
        end; rewrite E in Hrun; injection Hrun as <- <-.
        -- exists doc'. split; [apply lookup_insert_eq|].
           split; [apply keepsAbsent_trimmed, Hk|]. intros _.
           split; [reflexivity | apply holdsPresent_trimmed, Hp].
        -- exists doc. split; [exact Hm|]. split; [apply keepsAbsent_refl|].
           discriminate.
    + rewrite updateTodo_accepts in Hrun
        by (try exact Hf; intros t' Ht'; congruence).
      unfold TodoController.respond in Hrun.
      match type of Hrun with
      | context [TodoService.updateTodo _ _ ?q _] =>
          destruct (updateTodo_outcome now id oid q doc w Hc Hm)
            as [(doc' & _ & _ & E & Hk & Hp & Hu)|[e E]]
      end; rewrite E in Hrun; injection Hrun as <- <-.
      * exists doc'. split; [apply lookup_insert_eq|].
        split; [apply keepsAbsent_trimmed, Hk|]. intros _.
        split; [reflexivity | apply holdsPresent_trimmed, Hp].
      * exists doc. split; [exact Hm|]. split; [apply keepsAbsent_refl|].
        discriminate.
  - intros Hon. eexists _, _.
    rewrite updateTodo_accepts
      by (try exact (cast_falsy id oid Hc); intros t' Ht'; discriminate).
    unfold TodoController.respond.
    rewrite (updateTodo_existing now id oid _ doc)
      by (try assumption; reflexivity).
    split; [reflexivity|]. split; [apply lookup_insert_eq|].
    repeat split; reflexivity.
Qed.

Lemma partial_update_witness :
  exists doc' w',
    TodoController.updateTodo 500 (js "000000000000000000000003")
      (UpdateTodoRequest.mk None None (Some true)) sampleWorld
    = (Response.mk 200 true (Some (DataTodo doc'))
         (Some "Todo updated successfully"%string) None None None, w')
    /\ collection w' !! 3%N = Some doc'
    /\ title doc' = js "todo"
    /\ description doc' = None
    /\ completed doc' = true.
Proof.
  destruct (partial_update 500 (js "000000000000000000000003") 3%N
              (mkTodo 3%N (js "todo") None false 3 3) sampleWorld
              ltac:(vm_compute; reflexivity) ltac:(vm_compute; reflexivity))
    as (_ & _ & _ & H).
  exact (H eq_refl).
Defined.

(** C10. For a stored document, an Update call whose request carries
    none of title, description and completed is fulfilled when the store
    is reachable, and answered with the status 200 by the handler; it sets
    updatedAt to the time of the call and leaves every other field of the
    document, and every other document, as it was. *)
Theorem empty_update_refreshes_updatedAt (now : Date) (id : jsstring)
    (oid : ObjectId) (doc : ITodo) (w : World) :
  ObjectIdOps.cast id = Some oid ->
  online w = true ->
  collection w !! oid = Some doc ->
  let req := UpdateTodoRequest.mk None None None in
  let doc' :=
    mkTodo (_id doc) (title doc) (description doc) (completed doc)
      (createdAt doc) now in
  let w' := after (CallFindByIdAndUpdate id) (<[oid := doc']> (collection w)) w in
  TodoService.updateTodo now id req w = (Fulfilled (Some doc'), w')
  /\ TodoController.updateTodo now id req w
     = (Response.mk 200 true (Some (DataTodo doc'))
          (Some "Todo updated successfully"%string) None None None, w')
  /\ collection w' !! oid = Some doc'
  /\ (forall k, k <> oid -> collection w' !! k = collection w !! k).
Proof.
  intros Hc Hon Hm req doc' w'.
  assert (TodoService.updateTodo now id req w = (Fulfilled (Some doc'), w'))
    as Hrun.
  { apply (updateTodo_existing now id oid req doc); try assumption.
    reflexivity. }
  split; [exact Hrun|]. split; [|split].
  - rewrite updateTodo_accepts
      by (try exact (cast_falsy id oid Hc); intros t' Ht'; discriminate).
    unfold TodoController.respond.
    change (UpdateTodoRequest.mk _ _ _) with req.
    rewrite Hrun. reflexivity.
  - apply lookup_insert_eq.
  - intros k Hne. cbn. apply lookup_insert_ne. congruence.
Qed.

Lemma empty_update_refreshes_updatedAt_witness :
  TodoService.updateTodo 500 (js "000000000000000000000004")
    (UpdateTodoRequest.mk None None None) sampleWorld
  = (Fulfilled (Some (mkTodo 4%N (js "todo") None true 4 500)),
     after (CallFindByIdAndUpdate (js "000000000000000000000004"))
       (<[4%N := mkTodo 4%N (js "todo") None true 4 500]> (sampleTodos 25))
       sampleWorld).
Proof.
  apply (empty_update_refreshes_updatedAt 500 (js "000000000000000000000004")
           4%N (mkTodo 4%N (js "todo") None true 4 4) sampleWorld);
    vm_compute; reflexivity.
Defined.

(** C9. Toggle frame effect.  For every document stored under an id, in
    a world that the API brought about (or, in any world, for a document
    stored under its own identifier and within the schema), with the
    store reachable, Toggle is fulfilled with the document it stores;
    that document has the title, the description, the creation time and
    the identifier of the stored one, the opposite completed flag and
    the time of the call as updatedAt; no other document is touched. *)
Theorem toggle_frame (now : Date) (id : jsstring) (oid : ObjectId)
    (doc : ITodo) (w : World) :
  ObjectIdOps.cast id = Some oid ->
  online w = true ->
  collection w !! oid = Some doc ->
  reachable w \/ (_id doc = oid /\ conforms doc) ->
  exists doc' w',
    TodoService.toggleTodo now id w = (Fulfilled (Some doc'), w')
    /\ collection w' !! oid = Some doc'
    /\ title doc' = title doc
    /\ description doc' = description doc
    /\ createdAt doc' = createdAt doc
    /\ _id doc' = _id doc
    /\ completed doc' = negb (completed doc)
    /\ updatedAt doc' = now
    /\ (forall k, k <> oid -> collection w' !! k = collection w !! k).
Proof.
    intros Hc Hon Hm Hw.
  destruct (stored_consistent w oid doc Hm Hw) as [Hid Hv].
  eexists _, _.
  split; [apply (toggleTodo_existing now id oid doc); assumption|].
  split; [apply lookup_insert_eq|].
  repeat split. intros k Hne. cbn. apply lookup_insert_ne. congruence.
Qed.

Lemma toggle_frame_witness :
  exists doc' w',
    TodoService.toggleTodo 500 (js "000000000000000000000005") sampleWorld
    = (Fulfilled (Some doc'), w')
    /\ collection w' !! 5%N = Some doc'
    /\ title doc' = js "todo"
    /\ description doc' = None
    /\ createdAt doc' = 5
    /\ _id doc' = 5%N
    /\ completed doc' = true
    /\ updatedAt doc' = 500
    /\ (forall k, k <> 5%N ->
          collection w' !! k = collection sampleWorld !! k).
Proof.
    apply (toggle_frame 500 (js "000000000000000000000005") 5%N
           (mkTodo 5%N (js "todo") None false 5 5) sampleWorld);
    try (vm_compute; reflexivity).
  right. split; vm_compute; reflexivity.
Defined.

(** C5. Toggle involution.  For every document stored under an id, in a
    world that the API brought about (or, in any world, for a document
    stored under its own identifier and within the schema), with the
    store reachable, one Toggle flips the completed flag, and a second
    Toggle on the world the first one left returns the flag to its
    original value. *)
Theorem toggle_involution (now1 now2 : Date) (id : jsstring)
    (oid : ObjectId) (doc : ITodo) (w : World) :
  ObjectIdOps.cast id = Some oid ->
  online w = true ->
  collection w !! oid = Some doc ->
  reachable w \/ (_id doc = oid /\ conforms doc) ->
  exists doc1 w1 doc2 w2,
    TodoService.toggleTodo now1 id w = (Fulfilled (Some doc1), w1)
    /\ collection w1 !! oid = Some doc1
    /\ completed doc1 = negb (completed doc)
    /\ TodoService.toggleTodo now2 id w1 = (Fulfilled (Some doc2), w2)
    /\ collection w2 !! oid = Some doc2
    /\ completed doc2 = completed doc.
Proof.
    intros Hc Hon Hm Hw.
  destruct (stored_consistent w oid doc Hm Hw) as [Hid Hv].
  pose proof (toggleTodo_existing now1 id oid doc w Hc Hon Hm Hid Hv) as H1.
  cbv zeta in H1.
  set (doc1 := mkTodo _ _ _ _ _ _) in H1.
  set (w1 := after _ _ _) in H1.
  assert (collection w1 !! oid = Some doc1) as Hm1
    by apply lookup_insert_eq.
  pose proof (toggleTodo_existing now2 id oid doc1 w1 Hc Hon Hm1 Hid Hv)
    as H2.
  cbv zeta in H2.
  eexists doc1, w1, _, _.
  split; [exact H1|]. split; [exact Hm1|]. split; [reflexivity|].
  split; [exact H2|]. split; [apply lookup_insert_eq|].
  cbn. apply negb_involutive.
Qed.

Lemma toggle_involution_witness :
  exists doc1 w1 doc2 w2,
    TodoService.toggleTodo 500 (js "000000000000000000000005") sampleWorld
    = (Fulfilled (Some doc1), w1)
    /\ collection w1 !! 5%N = Some doc1
    /\ completed doc1 = true
    /\ TodoService.toggleTodo 600 (js "000000000000000000000005") w1
       = (Fulfilled (Some doc2), w2)
    /\ collection w2 !! 5%N = Some doc2
    /\ completed doc2 = false.
Proof.
    apply (toggle_involution 500 600 (js "000000000000000000000005") 5%N
           (mkTodo 5%N (js "todo") None false 5 5) sampleWorld);
    try (vm_compute; reflexivity).
  right. split; vm_compute; reflexivity.
Defined.

(** C8. Delete is fulfilled with true if and only if a stored document
    was removed.  It is fulfilled with false when the id is not a valid
    identifier, without a call to the store; with the store reachable it
    is fulfilled with false when no document matches the id, the same
    outcome.  After a Delete the id matches no document, and every later
    Delete of it is fulfilled with false. *)
Theorem delete_detection (id : jsstring) (w : World) :
  (ObjectIdOps.isValid id = false ->
   TodoService.deleteTodo id w = (Fulfilled false, w))
  /\ (forall oid,
         ObjectIdOps.cast id = Some oid -> online w = true ->
         exists b w',
           TodoService.deleteTodo id w = (Fulfilled b, w')
           /\ (b = true <-> is_Some (collection w !! oid))
           /\ (b = true <-> collection w' <> collection w)
           /\ collection w' = delete oid (collection w)
           /\ (forall n,
                 fst (TodoService.deleteTodo id
                        (Nat.iter n
                           (fun x => snd (TodoService.deleteTodo id x)) w'))
                 = Fulfilled false))
  /\ (forall oid,
         ObjectIdOps.cast id = Some oid -> online w = true ->
         collection w !! oid = None ->
         exists w',
           TodoService.deleteTodo id w = (Fulfilled false, w')
           /\ collection w' = collection w).
Proof.
  assert (forall oid x,
             ObjectIdOps.cast id = Some oid -> online x = true ->
             collection x !! oid = None ->
             TodoService.deleteTodo id x
             = (Fulfilled false,
                after (CallFindByIdAndDelete id) (collection x) x))
    as Hgone.
  { intros oid x Hc Hon Hm.
    rewrite (deleteTodo_online id oid) by assumption.
    rewrite Hm, delete_id by exact Hm. reflexivity. }
  split; [|split].
  - unfold ObjectIdOps.isValid.
    destruct (ObjectIdOps.cast id) eqn:Hc; [discriminate|].
    intros _. apply deleteTodo_invalid, Hc.
  - intros oid Hc Hon. eexists _, _.
    split; [apply (deleteTodo_online id oid); assumption|].
    split; [|split; [|split]].
    + destruct (collection w !! oid); split; intros H;
        try reflexivity; try discriminate; eauto.
      destruct H; discriminate.
    + cbn. destruct (collection w !! oid) as [d|] eqn:Hm.
      * split; [|reflexivity]. intros _ E.
        apply (f_equal (fun m => m !! oid)) in E.
        rewrite lookup_delete_eq, Hm in E. discriminate.
      * split; [discriminate|]. intros H. exfalso. apply H.
        apply delete_id, Hm.
    + reflexivity.
    + intros n.
      set (w1 := after _ _ w).
      assert (online (Nat.iter n
                        (fun x => snd (TodoService.deleteTodo id x)) w1) = true
              /\ collection (Nat.iter n
                        (fun x => snd (TodoService.deleteTodo id x)) w1)
                   !! oid = None) as [Hon' Hm'].
      { induction n as [|n [IH1 IH2]].
        - split; [exact Hon | apply lookup_delete_eq].
        - rewrite Nat.iter_succ.
          rewrite (Hgone oid) by assumption. split; assumption. }
      rewrite (Hgone oid) by assumption. reflexivity.
  - intros oid Hc Hon Hm. eexists. split.
    + apply (Hgone oid); assumption.
    + reflexivity.
Qed.

Lemma delete_detection_witness :
  TodoService.deleteTodo (js "not-a-valid-id-format") sampleWorld
  = (Fulfilled false, sampleWorld)
  /\ (exists b w',
         TodoService.deleteTodo (js "000000000000000000000007") sampleWorld
         = (Fulfilled b, w')
         /\ (b = true <-> is_Some (collection sampleWorld !! 7%N))
         /\ (b = true <-> collection w' <> collection sampleWorld)
         /\ collection w' = delete 7%N (collection sampleWorld)
         /\ (forall n,
               fst (TodoService.deleteTodo (js "000000000000000000000007")
                      (Nat.iter n
                         (fun x =>
                            snd (TodoService.deleteTodo
                                   (js "000000000000000000000007") x)) w'))
               = Fulfilled false)).
Proof.
  split.
  - apply (proj1 (delete_detection (js "not-a-valid-id-format") sampleWorld)).
    reflexivity.
  - apply (proj1 (proj2 (delete_detection (js "000000000000000000000007")
                           sampleWorld)));
      reflexivity.
Defined.

Section SchemaBounds.
Import Mongoose.

(** A title and a description pass the validators exactly when they are
    within the bounds of the schema. *)
Lemma validate_bounds (t : jsstring) (d : option jsstring) :
  Schema.validate (Some t) d = [] <->
  1 <= jslength t <= 200 /\ (forall x, d = Some x -> jslength x <= 1000).
Proof.
  rewrite validate_nil.
  unfold Schema.required_title, Schema.maxlength_title,
    Schema.maxlength_description.
  assert (0 <= jslength t) by (unfold jslength; lia).
  destruct (Z.eqb_spec (jslength t) 0), (Z.leb_spec (jslength t) 200);
    (destruct d as [x|];
     [destruct (Z.leb_spec (jslength x) 1000)|]);
    split; try (intros (? & ? & ?); try discriminate);
    try (intros [? Hd]; try lia; try specialize (Hd _ eq_refl); try lia);
    repeat split; try lia; try reflexivity;
    try (intros ? [= <-]; lia); try discriminate.
Qed.

End SchemaBounds.

Section RoundTrip.
Import Mongoose.

(** A fulfilled creation can be read back under the string form of the
    identifier. *)
Lemma createTodo_getTodoById (oid : ObjectId) (now : Date)
    (req : CreateTodoRequest.t) (doc : ITodo) (w w' : World) :
  wf_ObjectId oid ->
  TodoService.createTodo oid now req w = (Fulfilled doc, w') ->
  TodoService.getTodoById (TodoJSON.id (toJSON doc)) w'
  = (Fulfilled (Some doc),
     after (CallFindById (TodoJSON.id (toJSON doc))) (collection w') w')
  /\ (exists t, CreateTodoRequest.title req = Some t /\ title doc = trim t)
  /\ description doc = trim <$> CreateTodoRequest.description req
  /\ completed doc = false
  /\ createdAt doc = updatedAt doc
  /\ _id doc = oid.
Proof.
  intros Hwf Hrun.
  destruct (createTodo_cases oid now req w)
    as [(t & Ht & Hv & Hon & Hfresh & E)|[e E]];
    rewrite E in Hrun; [|discriminate].
  injection Hrun as <- <-. cbn [toJSON TodoJSON.id _id].
  split.
  - rewrite (getTodoById_online _ oid);
      [|apply cast_toString, Hwf | exact Hon].
    cbn. rewrite lookup_insert_eq. reflexivity.
  - split; [eauto|]. repeat split; reflexivity.
Qed.

End RoundTrip.

(** C6. Create/Get round-trip.  For every request Create(title=A,
    description=B): it is fulfilled when A has between 1 and 200 code
    units once trimmed, B at most 1000, the store is reachable and the
    identifier is new; and for every fulfilled one, the Get that follows
    on the id returned is fulfilled with the document created, whose title
    is A trimmed, description B trimmed, completed flag false, and whose
    createdAt equals its updatedAt, the time of the request.  The title
    and the description read back are A and B themselves when they have no
    white space around them, as for Create(title="A", description="B"). *)
Theorem create_get_roundtrip (oid : ObjectId) (now : Date)
    (req : CreateTodoRequest.t) (w : World) :
  wf_ObjectId oid ->
  (forall a,
      CreateTodoRequest.title req = Some a ->
      1 <= jslength (trim a) <= 200 ->
      (forall b, CreateTodoRequest.description req = Some b ->
                 jslength (trim b) <= 1000) ->
      online w = true ->
      collection w !! oid = None ->
      exists doc w',
        TodoService.createTodo oid now req w = (Fulfilled doc, w'))
  /\ (forall doc w',
         TodoService.createTodo oid now req w = (Fulfilled doc, w') ->
         exists a w'',
           CreateTodoRequest.title req = Some a
           /\ TodoService.getTodoById (TodoJSON.id (toJSON doc)) w'
              = (Fulfilled (Some doc), w'')
           /\ collection w'' = collection w'
           /\ title doc = trim a
           /\ description doc = trim <$> CreateTodoRequest.description req
           /\ (trimmed a -> title doc = a)
           /\ (forall b, CreateTodoRequest.description req = Some b ->
                         trimmed b -> description doc = Some b)
           /\ completed doc = false
           /\ createdAt doc = updatedAt doc
           /\ createdAt doc = now)
  /\ (req = CreateTodoRequest.mk (Some (js "A")) (Some (js "B")) ->
      forall doc w',
        TodoService.createTodo oid now req w = (Fulfilled doc, w') ->
        exists w'',
          TodoService.getTodoById (TodoJSON.id (toJSON doc)) w'
          = (Fulfilled (Some doc), w'')
          /\ title doc = js "A"
          /\ description doc = Some (js "B")
          /\ completed doc = false
          /\ createdAt doc = updatedAt doc).
Proof.
  intros Hwf.
  assert (forall doc w',
             TodoService.createTodo oid now req w = (Fulfilled doc, w') ->
             createdAt doc = now) as Hnow.
  { intros doc w' Hrun.
    destruct (createTodo_cases oid now req w)
      as [(t & _ & _ & _ & _ & E)|[e E]];
      rewrite E in Hrun; [|discriminate].
    injection Hrun as <- _. reflexivity. }
  split; [|split].
  - intros a Ha Hlen Hb Hon Hfresh. eexists _, _.
    apply (createTodo_stores oid now req a); try assumption.
    apply validate_bounds. split; [exact Hlen|].
    intros x Hx.
    destruct (CreateTodoRequest.description req) as [b|]; [|discriminate].
    injection Hx as <-. apply Hb. reflexivity.
  - intros doc w' Hrun.
    destruct (createTodo_getTodoById oid now req doc w w' Hwf Hrun)
      as (Hget & (a & Ha & Htitle) & Hd & Hcomp & Hat & _).
    exists a. eexists. split; [exact Ha|]. split; [exact Hget|].
    split; [reflexivity|]. split; [exact Htitle|]. split; [exact Hd|].
    split; [|split; [|split; [|split]]].
    + intros Htr. rewrite Htitle. apply trim_id, Htr.
    + intros b Hb Htr. rewrite Hd, Hb. cbn [fmap option_fmap option_map].
      rewrite trim_id by exact Htr. reflexivity.
    + exact Hcomp.
    + exact Hat.
    + apply (Hnow doc w' Hrun).
  - intros -> doc w' Hrun.
    destruct (createTodo_getTodoById oid now _ doc w w' Hwf Hrun)
      as (Hget & (a & Ha & Htitle) & Hd & Hcomp & Hat & _).
    eexists. split; [exact Hget|].
    injection Ha as <-. repeat split; assumption.
Qed.

Lemma create_get_roundtrip_witness :
  exists doc w' w'',
    TodoService.createTodo 26%N 100
      (CreateTodoRequest.mk (Some (js "A")) (Some (js "B"))) sampleWorld
    = (Fulfilled doc, w')
    /\ TodoService.getTodoById (TodoJSON.id (toJSON doc)) w'
       = (Fulfilled (Some doc), w'')
    /\ title doc = js "A"
    /\ description doc = Some (js "B")
    /\ completed doc = false
    /\ createdAt doc = updatedAt doc.
Proof.
  assert (wf_ObjectId 26%N) as Hwf by (vm_compute; reflexivity).
  destruct (proj1 (create_get_roundtrip 26%N 100
                     (CreateTodoRequest.mk (Some (js "A")) (Some (js "B")))
                     sampleWorld Hwf)
              (js "A") eq_refl)
    as (doc & w' & Hrun).
  - vm_compute. split; discriminate.
  - intros b [= <-]. vm_compute. discriminate.
  - reflexivity.
  - vm_compute. reflexivity.
  - destruct (proj2 (proj2 (create_get_roundtrip 26%N 100
                       (CreateTodoRequest.mk (Some (js "A")) (Some (js "B")))
                       sampleWorld Hwf))
                eq_refl doc w' Hrun) as (w'' & H).
    exists doc, w', w''. split; [exact Hrun | exact H].
Defined.

(** C7. Paginated list arithmetic.  For every page >= 1 and every limit
    between 1 and 100, with the store reachable, the handler answers with
    the todos that the unpaginated list holds after its first
    (page-1)*limit ones, limit of them at most; the total is the count of
    the todos matching the same filter as the query; totalPages is the
    ceiling of total/limit, and hasNext tells whether page < totalPages.
    On a collection of 25 todos with limit=10, page=3 and no status filter,
    totalPages is 3, the page holds exactly 5 todos and hasNext is false. *)
Theorem paginated_list (page limit : Z) (status : option TodoStatus)
    (w : World) :
  1 <= page ->
  1 <= limit <= 100 ->
  online w = true ->
  exists all w1 items pg w2,
    TodoService.getAllTodos status w = (Fulfilled all, w1)
    /\ TodoController.getPaginatedTodos (Some page) (Some limit) status w
       = (Response.mk 200 true (Some (DataTodos items)) None None None
            (Some pg), w2)
    /\ items = take (Z.to_nat limit) (drop (Z.to_nat ((page - 1) * limit)) all)
    /\ trace w2
       = trace w ++ [CallFind (TodoService.statusFilter status);
                     CallCountDocuments (TodoService.statusFilter status)]
    /\ Pagination.total pg = Z.of_nat (length all)
    /\ (Pagination.totalPages pg - 1) * limit < Pagination.total pg
       <= Pagination.totalPages pg * limit
    /\ Pagination.page pg = page
    /\ Pagination.limit pg = limit
    /\ Pagination.hasNext pg = (page <? Pagination.totalPages pg)
    /\ (size (collection w) = 25%nat ->
        status = None \/ status = Some ALL ->
        limit = 10 -> page = 3 ->
        Pagination.totalPages pg = 3 /\ length items = 5%nat
        /\ Pagination.hasNext pg = false).
Proof.
  intros Hp Hl Hon.
  eexists _, _, _, _, _.
  split; [apply getAllTodos_online, Hon|].
  split.
  { unfold TodoController.getPaginatedTodos.
    rewrite !or_default_positive by lia.
    replace ((page <? 1) || (limit <? 1) || (limit >? 100)) with false
      by (symmetry; rewrite !orb_false_iff; repeat split; lia).
    unfold TodoController.respond.
    rewrite getTodosPaginated_online by exact Hon. reflexivity. }
  cbn [Pagination.total Pagination.totalPages Pagination.page
       Pagination.limit Pagination.hasNext Paginated.page Paginated.total
       Paginated.totalPages after trace].
  split; [reflexivity|].
  split; [rewrite <- app_assoc; reflexivity|].
  split; [rewrite length_sorted; reflexivity|].
  split; [apply Math_ceil_div_spec; lia|].
  split; [reflexivity|]. split; [reflexivity|]. split; [reflexivity|].
  intros Hsize Hst -> ->.
  assert (TodoService.statusFilter status = {| f_completed := None |}) as ->
    by (destruct Hst as [-> | ->]; reflexivity).
  cbn [Paginated.todos].
  rewrite length_take, length_drop, length_sorted, filter_all,
    length_documents, Hsize.
  repeat split; reflexivity.
Qed.

Lemma paginated_list_witness :
  exists all w1 items pg w2,
    TodoService.getAllTodos None sampleWorld = (Fulfilled all, w1)
    /\ TodoController.getPaginatedTodos (Some 3) (Some 10) None sampleWorld
       = (Response.mk 200 true (Some (DataTodos items)) None None None
            (Some pg), w2)
    /\ items = take 10 (drop 20 all)
    /\ Pagination.totalPages pg = 3
    /\ length items = 5%nat
    /\ Pagination.hasNext pg = false.
Proof.
  destruct (paginated_list 3 10 None sampleWorld ltac:(lia) ltac:(lia) eq_refl)
    as (all & w1 & items & pg & w2 & H1 & H2 & H3 & _ & _ & _ & _ & _ & _ & H4).
  exists all, w1, items, pg, w2.
  split; [exact H1|]. split; [exact H2|]. split; [exact H3|].
  apply H4; [vm_compute; reflexivity | left; reflexivity
            | reflexivity | reflexivity].
Defined.

(** * Scenarios of the specification *)

Example trim_buy_milk : trim (js " Buy milk ") = js "Buy milk".
Proof. reflexivity. Qed.

Example cast_hex :
  ObjectIdOps.cast (js "0000000000000000000000fF") = Some 255%N.
Proof. reflexivity. Qed.

Example toString_hex :
  ObjectIdOps.toString 255%N = js "0000000000000000000000ff".
Proof. reflexivity. Qed.

Example isValid_malformed :
  ObjectIdOps.isValid (js "not-a-valid-id-format") = false.
Proof. reflexivity. Qed.

(** Create({title:" Buy milk ", description:" 2% "}) returns
    {title:"Buy milk", description:"2%", completed:false}. *)
Example create_buy_milk :
  fst (TodoController.createTodo 1%N 100
         (CreateTodoRequest.mk (Some (js " Buy milk ")) (Some (js " 2% ")))
         (initial true))
  = Response.mk 201 true
      (Some (DataTodo
               (mkTodo 1%N (js "Buy milk") (Some (js "2%")) false 100 100)))
      (Some "Todo created successfully"%string) None None None.
Proof. vm_compute. reflexivity. Qed.

(** The third page of ten of the 25 sample todos. *)
Example third_page_of_sample :
  match fst (TodoController.getPaginatedTodos (Some 3) (Some 10) None
               sampleWorld) with
  | Response.mk 200 true (Some (DataTodos items)) _ _ _ (Some pg) =>
      List.map _id items = [5; 4; 3; 2; 1]%N
      /\ Pagination.totalPages pg = 3
      /\ Pagination.hasNext pg = false
  | _ => False
  end.
Proof. vm_compute. repeat split; reflexivity. Qed.

(** A toggle of a stored document that is outside the schema is
    refused. *)
Example toggle_outside_schema :
  fst (TodoService.toggleTodo 9 (js "000000000000000000000001")
         (mkWorld {[ 1%N := mkTodo 1%N [] None false 0 0 ]} true []))
  = Rejected (Error "Failed to toggle todo").
Proof. vm_compute. reflexivity. Qed.

(** * One request, in detail *)

Section Step.
Import Mongoose.

Lemma get_collection (r : Request) (w : World) :
  isGet r = true -> collection (snd (router r w)) = collection w.
Proof.
  destruct r as [|p l s|s|id|oid now body|now id body|now id|id];
    cbn [isGet router]; try discriminate; intros _.
  - unfold TodoController.getTodoStats, TodoController.respond,
      TodoService.getTodosCount, Todo.countDocuments.
    unfold_promise. simpl. destruct (online w); reflexivity.
  - unfold TodoController.getPaginatedTodos. destruct (_ || _); [reflexivity|].
    unfold TodoController.respond. destruct (online w) eqn:Hon.
    + rewrite getTodosPaginated_online by exact Hon. reflexivity.
    + rewrite getTodosPaginated_offline by exact Hon. reflexivity.
  - unfold TodoController.getAllTodos, TodoController.respond,
      TodoService.getAllTodos, Todo.exec.
    unfold_promise. simpl. destruct (online w); reflexivity.
  - unfold TodoController.getTodoById. destruct (falsy id); [reflexivity|].
    unfold TodoController.respond.
    destruct (ObjectIdOps.cast id) as [oid|] eqn:Hc.
    + destruct (online w) eqn:Hon.
      * rewrite (getTodoById_online id oid) by assumption.
        destruct (collection w !! oid); reflexivity.
      * rewrite (getTodoById_offline id oid) by assumption. reflexivity.
    + rewrite getTodoById_invalid by exact Hc. reflexivity.
Qed.

(** A toggle writes the document back under its [_id]. *)
Lemma toggleTodo_written (now : Date) (id : jsstring) (oid : ObjectId)
    (doc : ITodo) (w : World) :
  ObjectIdOps.cast id = Some oid -> online w = true ->
  collection w !! oid = Some doc -> conforms doc ->
  is_Some (collection w !! _id doc) ->
  TodoService.toggleTodo now id w =
  (Fulfilled
     (Some (mkTodo (_id doc) (title doc) (description doc)
              (negb (completed doc)) (createdAt doc) now)),
   after (CallSave (_id doc))
     (<[_id doc := mkTodo (_id doc) (title doc) (description doc)
                     (negb (completed doc)) (createdAt doc) now]>
        (collection w))
     (after (CallFindById id) (collection w) w)).
Proof.
  intros Hc Hon Hm Hv [x Hx].
  unfold TodoService.toggleTodo, ObjectIdOps.isValid, Todo.findById.
  rewrite Hc. cbn [negb]. unfold conforms in Hv.
  unfold_promise. simpl. rewrite Hon, Hm. unfold Todo.save.
  cbn [title description _id]. rewrite Hv.
  unfold_promise. simpl. rewrite Hx. reflexivity.
Qed.

(** A toggle of a document that the store does not hold under its [_id]
    is rejected by the store. *)
Lemma toggleTodo_lost (now : Date) (id : jsstring) (oid : ObjectId)
    (doc : ITodo) (w : World) :
  ObjectIdOps.cast id = Some oid -> online w = true ->
  collection w !! oid = Some doc -> conforms doc ->
  collection w !! _id doc = None ->
  TodoService.toggleTodo now id w =
  (Rejected (Error "Failed to toggle todo"),
   after (CallSave (_id doc)) (collection w)
     (after (CallFindById id) (collection w) w)).
Proof.
  intros Hc Hon Hm Hv Hx.
  unfold TodoService.toggleTodo, ObjectIdOps.isValid, Todo.findById.
  rewrite Hc. cbn [negb]. unfold conforms in Hv.
  unfold_promise. simpl. rewrite Hon, Hm. unfold Todo.save.
  cbn [title description _id]. rewrite Hv.
  unfold_promise. simpl. rewrite Hx. reflexivity.
Qed.

Lemma acceptable_trimmed (body : UpdateTodoRequest.t) :
  acceptable
    {| UpdateTodoRequest.title := trim <$> UpdateTodoRequest.title body;
       UpdateTodoRequest.description :=
         trim <$> UpdateTodoRequest.description body;
       UpdateTodoRequest.completed := UpdateTodoRequest.completed body |}
  <-> acceptable body.
Proof.
  unfold acceptable. cbn [UpdateTodoRequest.title UpdateTodoRequest.description].
  rewrite !fmap_trim_idempotent. reflexivity.
Qed.

Ltac unchanged :=
  apply step_unchanged; [reflexivity | right; split; discriminate].

Lemma post_step (oid : ObjectId) (now : Date) (body : CreateTodoRequest.t)
    (w : World) :
  step w (Post oid now body)
    (fst (TodoController.createTodo oid now body w))
    (collection (snd (TodoController.createTodo oid now body w))).
Proof.
  destruct (CreateTodoRequest.title body) as [t|] eqn:Ht.
  2: { rewrite createTodo_rejects_empty by (left; exact Ht). unchanged. }
  destruct (decide (trim t = [])) as [He|He].
  { rewrite createTodo_rejects_empty by (right; eauto). unchanged. }
  rewrite (createTodo_accepts oid now body t) by assumption.
  unfold TodoController.respond.
  match goal with
  | |- context [TodoService.createTodo ?o ?n ?q ?x] =>
      destruct (createTodo_cases o n q x)
        as [(t' & Ht' & Hv & Hon & Hfresh & E)|[e E]];
      rewrite E; clear E
  end.
  - cbn [CreateTodoRequest.title CreateTodoRequest.description] in Ht', Hv |- *.
    injection Ht' as <-.
    rewrite trim_idempotent, fmap_trim_idempotent.
    eapply step_created; try reflexivity; eassumption.
  - unchanged.
Qed.

Lemma put_step (now : Date) (id : jsstring) (body : UpdateTodoRequest.t)
    (w : World) :
  step w (Put now id body)
    (fst (TodoController.updateTodo now id body w))
    (collection (snd (TodoController.updateTodo now id body w))).
Proof.
  destruct (falsy id) eqn:Hf.
  { unfold TodoController.updateTodo. rewrite Hf. unchanged. }
  assert ((exists t, UpdateTodoRequest.title body = Some t /\ trim t = [])
          \/ (forall t, UpdateTodoRequest.title body = Some t -> trim t <> []))
    as [(t & Ht & He)|Hne].
  { destruct (UpdateTodoRequest.title body) as [t|]; [|right; discriminate].
    destruct (decide (trim t = [])); [left; eauto|].
    right. intros t' [= <-]. assumption. }
  { rewrite (updateTodo_rejects_empty now id body t) by assumption.
    rewrite Hf. unchanged. }
  rewrite updateTodo_accepts by assumption.
  unfold TodoController.respond.
  set (req := UpdateTodoRequest.mk _ _ _).
  destruct (ObjectIdOps.cast id) as [oid|] eqn:Hc.
  2: { rewrite updateTodo_invalid by exact Hc. unchanged. }
  destruct (decide (acceptable req)) as [Hv|Hv].
  2: { destruct (updateTodo_refused now id oid req w Hc Hv) as [e ->].
       unchanged. }
  destruct (online w) eqn:Hon.
  2: { rewrite (updateTodo_offline now id oid) by assumption. unchanged. }
  destruct (collection w !! oid) as [doc|] eqn:Hm.
  2: { rewrite (updateTodo_missing now id oid) by assumption. unchanged. }
  rewrite (updateTodo_existing now id oid req doc) by assumption.
  subst req. cbn [UpdateTodoRequest.title UpdateTodoRequest.description
                    UpdateTodoRequest.completed].
  rewrite !fmap_trim_idempotent.
  eapply step_updated; try reflexivity; try eassumption.
  apply acceptable_trimmed, Hv.
Qed.

Lemma toggle_step (now : Date) (id : jsstring) (w : World) :
  step w (PatchToggle now id)
    (fst (TodoController.toggleTodo now id w))
    (collection (snd (TodoController.toggleTodo now id w))).
Proof.
  unfold TodoController.toggleTodo.
  destruct (falsy id) eqn:Hf; [unchanged|].
  unfold TodoController.respond.
  destruct (ObjectIdOps.cast id) as [oid|] eqn:Hc.
  2: { rewrite toggleTodo_invalid by exact Hc. unchanged. }
  destruct (online w) eqn:Hon.
  2: { rewrite (toggleTodo_offline now id oid) by assumption. unchanged. }
  destruct (collection w !! oid) as [doc|] eqn:Hm.
  2: { rewrite (toggleTodo_missing now id oid) by assumption. unchanged. }
  destruct (decide (conforms doc)) as [Hv|Hv].
  2: { rewrite (toggleTodo_refused now id oid doc) by assumption. unchanged. }
  destruct (collection w !! _id doc) as [x|] eqn:Hx.
  - rewrite (toggleTodo_written now id oid doc) by eauto.
    eapply step_toggled; try reflexivity; eauto.
  - rewrite (toggleTodo_lost now id oid doc) by assumption. unchanged.
Qed.

Lemma delete_step (id : jsstring) (w : World) :
  step w (Delete id)
    (fst (TodoController.deleteTodo id w))
    (collection (snd (TodoController.deleteTodo id w))).
Proof.
  unfold TodoController.deleteTodo.
  destruct (falsy id) eqn:Hf; [unchanged|].
  unfold TodoController.respond.
  destruct (ObjectIdOps.cast id) as [oid|] eqn:Hc.
  2: { rewrite deleteTodo_invalid by exact Hc. unchanged. }
  destruct (online w) eqn:Hon.
  2: { rewrite (deleteTodo_offline id oid) by assumption. unchanged. }
  rewrite (deleteTodo_online id oid) by assumption.
  destruct (collection w !! oid) as [doc|] eqn:Hm.
  - eapply step_deleted; try reflexivity; eassumption.
  - apply step_unchanged; [|right; split; discriminate].
    cbn. apply delete_id, Hm.
Qed.

(** Every request does one of the things [step] lists. *)
Lemma router_step (r : Request) (w : World) :
  step w r (fst (router r w)) (collection (snd (router r w))).
Proof.
  destruct (isGet r) eqn:Hg.
  - apply step_unchanged; [apply get_collection, Hg | left; exact Hg].
  - destruct r; try discriminate Hg; cbn [router].
    + apply post_step.
    + apply put_step.
    + apply toggle_step.
    + apply delete_step.
Qed.

End Step.

(** * What the routes keep *)

(** X1. A request that is not answered with the status 200 or 201 leaves
    the collection as it was: no route stores, changes or removes a
    document and then reports a failure. *)
Theorem failure_leaves_collection (r : Request) (w : World) :
  Response.status (fst (router r w)) <> 200 ->
  Response.status (fst (router r w)) <> 201 ->
  collection (snd (router r w)) = collection w.
Proof.
  intros H200 H201.
  destruct (router_step r w)
    as [E _|? ? ? ? _ H _ _ _ _ _|? ? ? ? ? _ H _ _ _ _ _ _
        |? ? ? ? _ H _ _ _ _ _ _ _|? ? ? _ H _ _ _ _];
    [exact E | contradiction..].
Qed.

Lemma failure_leaves_collection_witness :
  collection
    (snd (router (Put 500 (js "000000000000000000000003")
                    (UpdateTodoRequest.mk (Some (js "  ")) None (Some true)))
            sampleWorld))
  = collection sampleWorld.
Proof.
  apply failure_leaves_collection; vm_compute; discriminate.
Defined.

(** X2. The GET routes (statistics, paginated list, list, get by id)
    never change the collection, whether the store can be reached or
    not and whatever they answer. *)
Theorem get_routes_read_only (r : Request) (w : World) :
  isGet r = true ->
  collection (snd (router r w)) = collection w
  /\ online (snd (router r w)) = online w.
Proof.
  intros Hg. split; [apply get_collection, Hg|].
  destruct r as [|p l s|s|id|oid now body|now id body|now id|id];
    cbn [isGet router] in *; try discriminate.
  - unfold TodoController.getTodoStats, TodoController.respond,
      TodoService.getTodosCount, Todo.countDocuments.
    unfold_promise. simpl. destruct (online w) eqn:E; simpl; congruence.
  - unfold TodoController.getPaginatedTodos. destruct (_ || _); [reflexivity|].
    unfold TodoController.respond. destruct (online w) eqn:Hon.
    + rewrite getTodosPaginated_online by exact Hon. exact Hon.
    + rewrite getTodosPaginated_offline by exact Hon. exact Hon.
  - unfold TodoController.getAllTodos, TodoController.respond,
      TodoService.getAllTodos, Todo.exec.
    unfold_promise. simpl. destruct (online w) eqn:E; simpl; congruence.
  - unfold TodoController.getTodoById. destruct (falsy id); [reflexivity|].
    unfold TodoController.respond.
    destruct (ObjectIdOps.cast id) as [oid|] eqn:Hc.
    + destruct (online w) eqn:Hon.
      * rewrite (getTodoById_online id oid) by assumption.
        destruct (collection w !! oid); exact Hon.
      * rewrite (getTodoById_offline id oid) by assumption. exact Hon.
    + rewrite getTodoById_invalid by exact Hc. reflexivity.
Qed.

Lemma get_routes_read_only_witness :
  collection (snd (router (GetPaginated (Some 2) (Some 10) (Some PENDING))
                     sampleWorld))
  = collection sampleWorld
  /\ online (snd (router (GetPaginated (Some 2) (Some 10) (Some PENDING))
                    sampleWorld))
     = online sampleWorld.
Proof. apply get_routes_read_only. reflexivity. Defined.

(** X3. The number of stored documents grows by exactly one on a creation
    answered 201, shrinks by exactly one on a deletion answered 200, and
    is the same after any other request. *)
Theorem document_count_step (r : Request) (w : World) :
  size (collection (snd (router r w)))
  = match r with
    | Post _ _ _ =>
        if Response.status (fst (router r w)) =? 201
        then S (size (collection w)) else size (collection w)
    | Delete _ =>
        if Response.status (fst (router r w)) =? 200
        then Nat.pred (size (collection w)) else size (collection w)
    | _ => size (collection w)
    end
  /\ (forall id, r = Delete id ->
        Response.status (fst (router r w)) = 200 ->
        (0 < size (collection w))%nat).
Proof.
  destruct (router_step r w)
    as [E Hs|oid now body t -> Hst _ _ Hfresh _ E
        |now id body oid old -> Hst _ _ Hm _ _ E
        |now id oid old -> Hst _ _ _ _ [x Hx] _ E
        |id oid old -> Hst _ _ Hm E]; rewrite E.
  - split.
    + destruct Hs as [Hg|[H200 H201]].
      * destruct r; try discriminate Hg; reflexivity.
      * destruct r; try reflexivity.
        -- destruct (Z.eqb_spec (Response.status (fst (router (Post oid now body) w))) 201);
             [contradiction | reflexivity].
        -- destruct (Z.eqb_spec (Response.status (fst (router (Delete id) w))) 200);
             [contradiction | reflexivity].
    + intros id -> H. destruct Hs as [Hg|[H200 _]];
        [discriminate | contradiction].
  - split; [|discriminate]. rewrite Hst. cbn [Z.eqb Pos.eqb].
    apply map_size_insert_None, Hfresh.
  - split; [|discriminate]. apply map_size_insert_Some. eauto.
  - split; [|discriminate]. apply map_size_insert_Some. eauto.
  - assert (0 < size (collection w))%nat as Hpos.
    { destruct (size (collection w)) eqn:Hz; [|lia].
      apply map_size_empty_iff in Hz. rewrite Hz, lookup_empty in Hm.
      discriminate. }
    split; [|intros; exact Hpos].
    rewrite Hst. cbn [Z.eqb Pos.eqb].
    apply map_size_delete_Some. eauto.
Qed.

(** X4. In every world the API brings about from an empty collection,
    each document is stored under its own identifier, its title is not
    empty and has at most 200 code units, and its description, when it has
    one, has at most 1000. *)
Theorem schema_invariant (w : World) (k : ObjectId) (doc : ITodo) :
  reachable w ->
  collection w !! k = Some doc ->
  _id doc = k
  /\ 1 <= jslength (title doc) <= 200
  /\ (forall d, description doc = Some d -> jslength d <= 1000).
Proof.
  intros Hr Hk. apply reachable_invariants in Hr as [Hc _].
  destruct (Hc k doc Hk) as [Hid Hv]. split; [exact Hid|].
  unfold conforms in Hv.
  apply validate_bounds in Hv. exact Hv.
Qed.

Lemma document_count_step_witness :
  size (collection
          (snd (router (Delete (js "000000000000000000000007")) sampleWorld)))
  = 24%nat.
Proof.
  rewrite (proj1 (document_count_step
                    (Delete (js "000000000000000000000007")) sampleWorld)).
  vm_compute. reflexivity.
Defined.

Lemma schema_invariant_witness :
  _id (mkTodo 1%N (js "Buy milk") None false 100 100) = 1%N
  /\ 1 <= jslength (js "Buy milk") <= 200
  /\ (forall d, None = Some d -> jslength d <= 1000).
Proof.
  apply (schema_invariant
           (snd (router (Post 1%N 100
                           (CreateTodoRequest.mk (Some (js " Buy milk ")) None))
                   (initial true)))
           1%N (mkTodo 1%N (js "Buy milk") None false 100 100)).
  - apply reachable_request, reachable_initial.
  - vm_compute. reflexivity.
Defined.

Section Clock.

Lemma timely_le (t t' : Date) (w : World) :
  t <= t' -> timely t w -> timely t' w.
Proof.
  intros Hle Hw k doc Hk. destruct (Hw k doc Hk). split; lia.
Qed.

Lemma timely_collection (t : Date) (w w' : World) :
  collection w' = collection w -> timely t w -> timely t w'.
Proof. unfold timely. intros ->. auto. Qed.

Lemma timely_insert (t : Date) (w w' : World) (k : ObjectId) (doc : ITodo) :
  collection w' = <[k := doc]> (collection w) ->
  createdAt doc <= updatedAt doc <= t ->
  timely t w -> timely t w'.
Proof.
  unfold timely. intros -> Hd Hw j d.
  destruct (decide (k = j)) as [<-|Hne].
  - rewrite lookup_insert_eq. intros [= <-]. exact Hd.
  - rewrite lookup_insert_ne by exact Hne. apply Hw.
Qed.

(** One request keeps the stored times in order, when its own time is
    not before the ones stored. *)
Lemma router_timely (t : Date) (r : Request) (w : World) :
  timely t w ->
  match requestTime r with
  | Some now => t <= now -> timely now (snd (router r w))
  | None => timely t (snd (router r w))
  end.
Proof.
  intros Hw.
  destruct (router_step r w)
    as [E _|oid now body x -> _ _ _ _ _ E
        |now id body oid old -> _ _ _ Hm _ _ E
        |now id oid old -> _ _ _ Hm _ _ _ E
        |id oid old -> _ _ _ _ E]; cbn [requestTime].
  - destruct (requestTime r) as [now|].
    + intros Hle. eapply timely_collection; [exact E|].
      eapply timely_le; eassumption.
    + eapply timely_collection; eassumption.
  - intros Hle. eapply timely_insert; [exact E|cbn; lia|].
    eapply timely_le; eassumption.
  - intros Hle. destruct (Hw oid old Hm).
    eapply timely_insert; [exact E|cbn; lia|].
    eapply timely_le; eassumption.
  - intros Hle. destruct (Hw oid old Hm).
    eapply timely_insert; [exact E|cbn; lia|].
    eapply timely_le; eassumption.
  - intros k d. rewrite E. intros Hk.
    apply lookup_delete_Some in Hk as [_ Hk]. exact (Hw k d Hk).
Qed.

Lemma run_timely (evs : list Event) (t : Date) (w : World) :
  clockMonotone t evs -> timely t w -> exists t', timely t' (run evs w).
Proof.
  revert t w. induction evs as [|[r|up] evs IH]; intros t w Hc Hw.
  - exists t. exact Hw.
  - cbn [run clockMonotone] in *.
    pose proof (router_timely t r w Hw) as Hr.
    destruct (requestTime r) as [now|].
    + destruct Hc as [Hle Hc]. exact (IH now _ Hc (Hr Hle)).
    + exact (IH t _ Hc Hr).
  - cbn [run clockMonotone] in *. apply (IH t); [exact Hc|].
    intros k doc Hk. exact (Hw k doc Hk).
Qed.

Lemma run_app (evs evs' : list Event) (w : World) :
  run (evs ++ evs') w = run evs' (run evs w).
Proof.
  revert w. induction evs as [|[r|up] evs IH]; intros w; cbn; auto.
Qed.

(** The worlds the API brings about are the worlds after a sequence of
    events. *)
Lemma reachable_run (w : World) :
  reachable w <-> exists up evs, w = run evs (initial up).
Proof.
  split.
  - induction 1 as [up|w r _ (up & evs & ->)|w up' _ (up & evs & ->)].
    + exists up, []. reflexivity.
    + exists up, (evs ++ [Serve r]). rewrite run_app. reflexivity.
    + exists up, (evs ++ [Connection up']). rewrite run_app. reflexivity.
  - intros (up & evs & ->).
    assert (forall w, reachable w -> reachable (run evs w)) as H.
    { induction evs as [|[r|up'] evs IH]; intros w Hw; cbn; auto.
      - apply IH, reachable_request, Hw.
      - apply IH, reachable_connection, Hw. }
    apply H, reachable_initial.
Qed.

End Clock.

(** X5. When the clock does not go back from one request to the next,
    every document stored after a sequence of requests and connection
    changes, starting from an empty collection, has a creation time that
    is not after its update time. *)
Theorem updated_not_before_created (evs : list Event) (t : Date)
    (up : bool) (k : ObjectId) (doc : ITodo) :
  clockMonotone t evs ->
  collection (run evs (initial up)) !! k = Some doc ->
  createdAt doc <= updatedAt doc.
Proof.
  intros Hc Hk.
  destruct (run_timely evs t (initial up) Hc) as [t' Ht'].
  - intros j d Hj. cbn in Hj. rewrite lookup_empty in Hj. discriminate.
  - exact (proj1 (Ht' k doc Hk)).
Qed.

Lemma updated_not_before_created_witness :
  createdAt (mkTodo 1%N (js "a") (Some (js "b")) true 100 250)
  <= updatedAt (mkTodo 1%N (js "a") (Some (js "b")) true 100 250).
Proof.
  apply (updated_not_before_created
           [Serve (Post 1%N 100 (CreateTodoRequest.mk (Some (js "a")) None));
            Connection false;
            Serve (PatchToggle 150 (js "000000000000000000000001"));
            Connection true;
            Serve (Put 200 (js "000000000000000000000001")
                     (UpdateTodoRequest.mk None (Some (js "b")) None));
            Serve (PatchToggle 250 (js "000000000000000000000001"))]
           0 true 1%N
           (mkTodo 1%N (js "a") (Some (js "b")) true 100 250)).
  - cbn. lia.
  - vm_compute. reflexivity.
Defined.

(** * Lists, statistics and pages *)

Section Lists.
Import Mongoose.

#[local] Instance newer_first_total : Total newer_first.
Proof. intros a b. unfold newer_first. lia. Qed.

#[local] Instance newer_first_transitive : Transitive newer_first.
Proof. intros a b c. unfold newer_first. lia. Qed.

Lemma filter_split {A} (f : A -> bool) (l : list A) :
  l ≡ₚ List.filter f l ++ List.filter (fun x => negb (f x)) l.
Proof.
  induction l as [|x l IH]; simpl; [reflexivity|].
  destruct (f x); simpl.
  - constructor. exact IH.
  - rewrite <- Permutation_middle. constructor. exact IH.
Qed.

Lemma matches_completed (b : bool) (doc : ITodo) :
  matches {| f_completed := Some b |} doc = Bool.eqb (completed doc) b.
Proof. reflexivity. Qed.

Lemma filter_ext_bool {A} (f g : A -> bool) (l : list A) :
  (forall x, f x = g x) -> List.filter f l = List.filter g l.
Proof.
  intros H. induction l as [|x l IH]; simpl; [reflexivity|].
  rewrite H, IH. reflexivity.
Qed.

(** The stored documents split into the completed and the pending
    ones. *)
Lemma documents_split (m : gmap ObjectId ITodo) :
  documents m
  ≡ₚ List.filter (matches {| f_completed := Some true |}) (documents m)
     ++ List.filter (matches {| f_completed := Some false |}) (documents m).
Proof.
  rewrite (filter_split (matches {| f_completed := Some true |})
             (documents m)) at 1.
  apply Permutation_app; [reflexivity|].
  rewrite (filter_ext_bool _ (matches {| f_completed := Some false |}));
    [reflexivity|].
  intros x. unfold matches. cbn. destruct (completed x); reflexivity.
Qed.

Lemma elem_of_documents (m : gmap ObjectId ITodo) (doc : ITodo) :
  doc ∈ documents m <-> exists k, m !! k = Some doc.
Proof.
  unfold documents. rewrite list_elem_of_fmap. split.
  - intros ([k d] & -> & H). exists k. apply elem_of_map_to_list in H. exact H.
  - intros [k H]. exists (k, doc). split; [reflexivity|].
    apply elem_of_map_to_list. exact H.
Qed.

Lemma elem_of_sorted_filter (f : FilterQuery) (m : gmap ObjectId ITodo)
    (doc : ITodo) :
  doc ∈ merge_sort newer_first (List.filter (matches f) (documents m))
  <-> (exists k, m !! k = Some doc) /\ matches f doc = true.
Proof.
  rewrite merge_sort_Permutation, list_elem_of_In, filter_In,
    <- list_elem_of_In, elem_of_documents.
  reflexivity.
Qed.

(** The pages of [n] items of a list, one after the other, are the
    list. *)
Lemma pages_concat {A} (l : list A) (n : nat) (pages : nat) :
  concat (List.map (fun p => take n (drop (p * n) l)) (seq 0 pages))
  = take (pages * n) l.
Proof.
  induction pages as [|k IH]; [reflexivity|].
  rewrite seq_S, map_app, concat_app, IH. cbn [List.map concat plus].
  rewrite app_nil_r, take_take_drop. f_equal. lia.
Qed.

Lemma sorted_newest_first (l : list ITodo) :
  StronglySorted newer_first (merge_sort newer_first l).
Proof. apply StronglySorted_merge_sort; apply _. Qed.

Lemma length_filter_split (m : gmap ObjectId ITodo) :
  length (documents m)
  = (length (List.filter (matches {| f_completed := Some true |})
               (documents m))
     + length (List.filter (matches {| f_completed := Some false |})
                 (documents m)))%nat.
Proof.
  rewrite <- length_app. apply Permutation_length, documents_split.
Qed.

End Lists.

(** X6. Filter partition.  With the store reachable, the list of all
    todos is a rearrangement of the completed list followed by the
    pending list; every todo of the completed list is completed and
    every todo of the pending list is not, so that no todo is in both.
    An absent status lists the same todos as "all". *)
Theorem filter_partition (w : World) :
  online w = true ->
  exists all done pending w1 w2 w3,
    TodoService.getAllTodos (Some ALL) w = (Fulfilled all, w1)
    /\ TodoService.getAllTodos (Some COMPLETED) w1 = (Fulfilled done, w2)
    /\ TodoService.getAllTodos (Some PENDING) w2 = (Fulfilled pending, w3)
    /\ all ≡ₚ done ++ pending
    /\ (forall doc, doc ∈ done -> completed doc = true)
    /\ (forall doc, doc ∈ pending -> completed doc = false)
    /\ fst (TodoService.getAllTodos None w) = Fulfilled all.
Proof.
  intros Hon. eexists _, _, _, _, _, _.
  split; [apply getAllTodos_online, Hon|].
  split; [apply getAllTodos_online, Hon|].
  split; [apply getAllTodos_online, Hon|].
  cbn [after collection TodoService.statusFilter].
  split; [|split; [|split]].
  - rewrite !merge_sort_Permutation, filter_all. apply documents_split.
  - intros doc Hd. apply elem_of_sorted_filter in Hd as [_ Hd].
    unfold Mongoose.matches in Hd. cbn in Hd.
    destruct (completed doc); [reflexivity | discriminate].
  - intros doc Hd. apply elem_of_sorted_filter in Hd as [_ Hd].
    unfold Mongoose.matches in Hd. cbn in Hd.
    destruct (completed doc); [discriminate | reflexivity].
  - rewrite getAllTodos_online by exact Hon. reflexivity.
Qed.

Lemma filter_partition_witness :
  exists all done pending w1 w2 w3,
    TodoService.getAllTodos (Some ALL) sampleWorld = (Fulfilled all, w1)
    /\ TodoService.getAllTodos (Some COMPLETED) w1 = (Fulfilled done, w2)
    /\ TodoService.getAllTodos (Some PENDING) w2 = (Fulfilled pending, w3)
    /\ all ≡ₚ done ++ pending
    /\ (forall doc, doc ∈ done -> completed doc = true)
    /\ (forall doc, doc ∈ pending -> completed doc = false)
    /\ fst (TodoService.getAllTodos None sampleWorld) = Fulfilled all.
Proof. apply filter_partition. reflexivity. Defined.

(** X7. With the store reachable, the list holds exactly the stored todos
    that match the status (completed ones for "completed", the others for
    "pending", all of them otherwise), as many times as they are stored,
    and it is ordered by creation time, newest first. *)
Theorem list_newest_first (status : option TodoStatus) (w : World) :
  online w = true ->
  exists todos w',
    TodoService.getAllTodos status w = (Fulfilled todos, w')
    /\ StronglySorted (fun a b => createdAt b <= createdAt a) todos
    /\ (forall doc,
          doc ∈ todos <->
          (exists k, collection w !! k = Some doc)
          /\ match status with
             | Some COMPLETED => completed doc = true
             | Some PENDING => completed doc = false
             | _ => True
             end)
    /\ todos
       ≡ₚ List.filter
            (fun doc =>
               match status with
               | Some COMPLETED => completed doc
               | Some PENDING => negb (completed doc)
               | _ => true
               end) (Mongoose.documents (collection w)).
Proof.
  intros Hon. eexists _, _.
  split; [apply getAllTodos_online, Hon|].
  split; [apply sorted_newest_first|]. split.
  - intros doc. rewrite elem_of_sorted_filter.
    apply and_iff_compat_l.
    destruct status as [[]|]; unfold Mongoose.matches; cbn;
      destruct (completed doc); split; auto; discriminate.
  - rewrite merge_sort_Permutation.
    erewrite filter_ext_bool; [reflexivity|].
    intros doc. destruct status as [[]|]; unfold Mongoose.matches; cbn;
      destruct (completed doc); reflexivity.
Qed.

Lemma list_newest_first_witness :
  exists todos w',
    TodoService.getAllTodos (Some PENDING) sampleWorld = (Fulfilled todos, w')
    /\ StronglySorted (fun a b => createdAt b <= createdAt a) todos
    /\ (forall doc,
          doc ∈ todos <->
          (exists k, collection sampleWorld !! k = Some doc)
          /\ completed doc = false)
    /\ todos
       ≡ₚ List.filter (fun doc => negb (completed doc))
            (Mongoose.documents (collection sampleWorld)).
Proof. apply (list_newest_first (Some PENDING)). reflexivity. Defined.

(** X8. Statistics.  With the store reachable, the statistics are
    fulfilled with total, completed and pending equal to the lengths of
    the list of all todos, of the completed list and of the pending list;
    total is the number of stored documents and the sum of completed and
    pending, and none of the three is negative.  The handler answers them
    with the status 200. *)
Theorem stats_consistent (w : World) :
  online w = true ->
  exists stats w' all done pending,
    TodoService.getTodosCount w = (Fulfilled stats, w')
    /\ fst (TodoController.getTodoStats w)
       = Response.mk 200 true (Some (DataStats stats)) None None None None
    /\ fst (TodoService.getAllTodos None w') = Fulfilled all
    /\ fst (TodoService.getAllTodos (Some COMPLETED) w') = Fulfilled done
    /\ fst (TodoService.getAllTodos (Some PENDING) w') = Fulfilled pending
    /\ Stats.total stats = Z.of_nat (length all)
    /\ Stats.completed stats = Z.of_nat (length done)
    /\ Stats.pending stats = Z.of_nat (length pending)
    /\ Stats.total stats = Z.of_nat (size (collection w))
    /\ Stats.total stats = Stats.completed stats + Stats.pending stats
    /\ 0 <= Stats.completed stats /\ 0 <= Stats.pending stats.
Proof.
  intros Hon.
  assert (TodoService.getTodosCount w
          = (Fulfilled
               (Stats.mk
                  (Z.of_nat (length (List.filter
                     (Mongoose.matches {| f_completed := None |})
                     (Mongoose.documents (collection w)))))
                  (Z.of_nat (length (List.filter
                     (Mongoose.matches {| f_completed := Some true |})
                     (Mongoose.documents (collection w)))))
                  (Z.of_nat (length (List.filter
                     (Mongoose.matches {| f_completed := None |})
                     (Mongoose.documents (collection w))))
                   - Z.of_nat (length (List.filter
                     (Mongoose.matches {| f_completed := Some true |})
                     (Mongoose.documents (collection w)))))),
              after (CallCountDocuments {| f_completed := Some true |})
                (collection w)
                (after (CallCountDocuments {| f_completed := None |})
                   (collection w) w))) as Hrun.
  { unfold TodoService.getTodosCount, Todo.countDocuments.
    unfold_promise. simpl. rewrite Hon. reflexivity. }
  eexists _, _, _, _, _.
  split; [exact Hrun|].
  split; [unfold TodoController.getTodoStats, TodoController.respond;
          rewrite Hrun; reflexivity|].
  rewrite !getAllTodos_online by exact Hon.
  cbn [fst after collection TodoService.statusFilter
       Stats.total Stats.completed Stats.pending].
  split; [reflexivity|]. split; [reflexivity|]. split; [reflexivity|].
  rewrite !length_sorted, filter_all.
  pose proof (length_filter_split (collection w)) as Hs.
  rewrite length_documents in *.
  repeat split; lia.
Qed.

Lemma stats_consistent_witness :
  exists stats,
    fst (TodoService.getTodosCount sampleWorld) = Fulfilled stats
    /\ Stats.total stats = 25
    /\ Stats.total stats = Stats.completed stats + Stats.pending stats.
Proof.
  destruct (stats_consistent sampleWorld eq_refl)
    as (stats & w' & all & done & pending & H & _ & _ & _ & _ & _ & _ & _
        & Ht & Hs & _).
  exists stats. rewrite H. split; [reflexivity|]. split; [|exact Hs].
  rewrite Ht. vm_compute. reflexivity.
Defined.

Section Pages.
Import Mongoose.

Lemma pageItems_online (page limit : Z) (status : option TodoStatus)
    (w : World) :
  online w = true ->
  pageItems page limit status w
  = take (Z.to_nat limit)
      (drop (Z.to_nat ((page - 1) * limit))
         (merge_sort newer_first
            (List.filter (matches (TodoService.statusFilter status))
               (documents (collection w))))).
Proof.
  intros Hon. unfold pageItems.
  rewrite getTodosPaginated_online by exact Hon. reflexivity.
Qed.

End Pages.

(** X9. Pagination coverage.  With the store reachable and a collection
    that does not change, the pages 1 to totalPages of a limit >= 1, one
    after the other, are the unpaginated list for the same status, in
    order, with no todo left out or repeated. *)
Theorem pagination_coverage (limit : Z) (status : option TodoStatus)
    (w : World) (at_page : nat -> World) :
  1 <= limit ->
  online w = true ->
  (forall p, collection (at_page p) = collection w
             /\ online (at_page p) = true) ->
  exists all w1 first w2,
    TodoService.getAllTodos status w = (Fulfilled all, w1)
    /\ TodoService.getTodosPaginated 1 limit status w = (Fulfilled first, w2)
    /\ concat
         (List.map
            (fun p => pageItems (Z.of_nat p) limit status (at_page p))
            (seq 1 (Z.to_nat (Paginated.totalPages first))))
       = all.
Proof.
  intros Hl Hon Hat. eexists _, _, _, _.
  split; [apply getAllTodos_online, Hon|].
  split; [apply getTodosPaginated_online, Hon|].
  cbn [Paginated.totalPages].
  set (all := merge_sort _ _).
  set (total := Z.of_nat (length (List.filter _ _))).
  assert (total = Z.of_nat (length all)) as Htotal
    by (subst all total; rewrite length_sorted; reflexivity).
  pose proof (Math_ceil_div_spec total limit ltac:(lia)) as Hceil.
  set (pages := Math_ceil_div total limit) in *.
  rewrite <- seq_shift, map_map.
  erewrite map_ext_in.
  - rewrite (pages_concat all (Z.to_nat limit)). apply take_ge. nia.
  - intros p _. cbv beta. destruct (Hat (S p)) as [Hc Ho].
    rewrite pageItems_online by exact Ho. rewrite Hc. fold all.
    do 2 f_equal. nia.
Qed.

Lemma pagination_coverage_witness :
  exists all w1 first w2,
    TodoService.getAllTodos (Some COMPLETED) sampleWorld = (Fulfilled all, w1)
    /\ TodoService.getTodosPaginated 1 5 (Some COMPLETED) sampleWorld
       = (Fulfilled first, w2)
    /\ concat
         (List.map
            (fun p => pageItems (Z.of_nat p) 5 (Some COMPLETED) sampleWorld)
            (seq 1 (Z.to_nat (Paginated.totalPages first))))
       = all.
Proof.
  apply (pagination_coverage 5 (Some COMPLETED) sampleWorld
           (fun _ => sampleWorld)).
  - lia.
  - reflexivity.
  - intros p. split; reflexivity.
Defined.



(** X11. Pagination parameters.  A page parameter that is absent, not a
    number or 0 is served as page 1, whatever the limit, and a limit
    parameter that is absent, not a number or 0 as limit 10, whatever the
    page: page 0 is not refused.  A request is answered with the status
    400 exactly when its page is negative, or its limit is negative or
    above 100; the world is then left as it was, without a call to the
    store. *)
Theorem pagination_parameters (status : option TodoStatus) (w : World) :
  (forall p l,
      p = None \/ p = Some 0 ->
      TodoController.getPaginatedTodos p l status w
      = TodoController.getPaginatedTodos (Some 1) l status w)
  /\ (forall p l,
         l = None \/ l = Some 0 ->
         TodoController.getPaginatedTodos p l status w
         = TodoController.getPaginatedTodos p (Some 10) status w)
  /\ (forall p l,
         p = None \/ p = Some 0 ->
         l = None \/ l = Some 0 ->
         TodoController.getPaginatedTodos p l status w
         = TodoController.getPaginatedTodos (Some 1) (Some 10) status w)
  /\ (forall p l,
         (exists n, p = Some n /\ n < 0)
         \/ (exists n, l = Some n /\ (n < 0 \/ 100 < n)) ->
         TodoController.getPaginatedTodos p l status w
         = (TodoController.failure 400
              "Invalid pagination parameters. Page must be >= 1, limit must be between 1 and 100",
            w))
  /\ (forall p l,
         Response.status
           (fst (TodoController.getPaginatedTodos p l status w)) = 400
         <-> (exists n, p = Some n /\ n < 0)
             \/ (exists n, l = Some n /\ (n < 0 \/ 100 < n))).
Proof.
  assert (forall p l,
             (exists n, p = Some n /\ n < 0)
             \/ (exists n, l = Some n /\ (n < 0 \/ 100 < n)) ->
             TodoController.getPaginatedTodos p l status w
             = (TodoController.failure 400
                  "Invalid pagination parameters. Page must be >= 1, limit must be between 1 and 100",
                w)) as Hbad.
  { intros p l H. unfold TodoController.getPaginatedTodos.
    replace ((or_default p 1 <? 1) || (or_default l 10 <? 1)
             || (or_default l 10 >? 100)) with true; [reflexivity|].
    symmetry. destruct H as [(n & -> & Hn)|(n & -> & Hn)].
    - destruct n; try lia. reflexivity.
    - destruct n as [|n|n]; try lia.
      + cbn [or_default]. rewrite orb_true_iff. right.
        apply Z.gtb_lt. lia.
      + cbn [or_default]. rewrite !orb_true_iff. left. right.
        reflexivity. }
  split; [|split; [|split; [|split]]].
  - intros p l [-> | ->]; reflexivity.
  - intros p l [-> | ->]; reflexivity.
  - intros p l [-> | ->] [-> | ->]; reflexivity.
  - exact Hbad.
  - intros p l. split; [|intros H; rewrite (Hbad p l H); reflexivity].
    unfold TodoController.getPaginatedTodos.
    destruct ((or_default p 1 <? 1) || (or_default l 10 <? 1)
              || (or_default l 10 >? 100)) eqn:E.
    + intros _. rewrite !orb_true_iff in E.
      destruct E as [[E|E]|E].
      * left. apply Z.ltb_lt in E.
        destruct p as [[|n|n]|]; cbn [or_default] in E; try lia.
        exists (Z.neg n). split; [reflexivity | lia].
      * right. apply Z.ltb_lt in E.
        destruct l as [[|n|n]|]; cbn [or_default] in E; try lia.
        exists (Z.neg n). split; [reflexivity | lia].
      * right. apply Z.gtb_lt in E.
        destruct l as [[|n|n]|]; cbn [or_default] in E; try lia.
        exists (Z.pos n). split; [reflexivity | lia].
    + unfold TodoController.respond.
      destruct (TodoService.getTodosPaginated _ _ _ w) as [[a|e] w'];
        cbn; discriminate.
Qed.

Lemma pagination_parameters_witness :
  TodoController.getPaginatedTodos (Some 0) (Some 5) None sampleWorld
  = TodoController.getPaginatedTodos (Some 1) (Some 5) None sampleWorld
  /\ TodoController.getPaginatedTodos (Some 2) None None sampleWorld
     = TodoController.getPaginatedTodos (Some 2) (Some 10) None sampleWorld
  /\ TodoController.getPaginatedTodos (Some 0) None None sampleWorld
     = TodoController.getPaginatedTodos (Some 1) (Some 10) None sampleWorld
  /\ TodoController.getPaginatedTodos (Some (-1)) (Some 10) None sampleWorld
     = (TodoController.failure 400
          "Invalid pagination parameters. Page must be >= 1, limit must be between 1 and 100",
        sampleWorld).
Proof.
  split; [|split; [|split]].
  - apply (proj1 (pagination_parameters None sampleWorld)).
    right. reflexivity.
  - apply (proj1 (proj2 (pagination_parameters None sampleWorld))).
    left. reflexivity.
  - apply (proj1 (proj2 (proj2 (pagination_parameters None sampleWorld))));
      [right | left]; reflexivity.
  - apply (proj1 (proj2 (proj2 (proj2
             (pagination_parameters None sampleWorld))))).
    left. exists (-1). split; [reflexivity | lia].
Defined.

(** * Errors and edges *)

(** X12. An id that is not a valid identifier never reaches the store.
    Get by id, Toggle, Delete and (for a body whose title is absent or not
    empty once trimmed) Update answer it with the status 404, or 400 when
    the id is the empty string, and leave the world as it was, whether the
    store can be reached or not. *)
Theorem malformed_id_never_reaches_store (now : Date) (id : jsstring)
    (w : World) :
  ObjectIdOps.isValid id = false ->
  let answer :=
    if falsy id then TodoController.failure 400 "Todo ID is required"
    else TodoController.failure 404 "Todo not found" in
  TodoController.getTodoById id w = (answer, w)
  /\ TodoController.toggleTodo now id w = (answer, w)
  /\ TodoController.deleteTodo id w = (answer, w)
  /\ (forall body,
         (forall t, UpdateTodoRequest.title body = Some t -> trim t <> []) ->
         TodoController.updateTodo now id body w = (answer, w)).
Proof.
  intros Hv answer. subst answer.
  assert (ObjectIdOps.cast id = None) as Hc.
  { unfold ObjectIdOps.isValid in Hv.
    destruct (ObjectIdOps.cast id); [discriminate | reflexivity]. }
  split; [|split; [|split]].
  - unfold TodoController.getTodoById. destruct (falsy id); [reflexivity|].
    unfold TodoController.respond.
    rewrite getTodoById_invalid by exact Hc. reflexivity.
  - unfold TodoController.toggleTodo. destruct (falsy id); [reflexivity|].
    unfold TodoController.respond.
    rewrite toggleTodo_invalid by exact Hc. reflexivity.
  - unfold TodoController.deleteTodo. destruct (falsy id); [reflexivity|].
    unfold TodoController.respond.
    rewrite deleteTodo_invalid by exact Hc. reflexivity.
  - intros body Hb. destruct (falsy id) eqn:Hf.
    + unfold TodoController.updateTodo. rewrite Hf. reflexivity.
    + rewrite updateTodo_accepts by assumption.
      unfold TodoController.respond.
      rewrite updateTodo_invalid by exact Hc. reflexivity.
Qed.

Lemma malformed_id_never_reaches_store_witness :
  TodoController.toggleTodo 5 (js "not-a-valid-id-format") (initial false)
  = (TodoController.failure 404 "Todo not found", initial false).
Proof.
  apply (malformed_id_never_reaches_store 5 (js "not-a-valid-id-format")
           (initial false)).
  reflexivity.
Defined.

(** X13. A valid id that matches no document.  With the store reachable,
    Toggle, Delete and (for a body within the bounds of the schema whose
    title is absent or not empty once trimmed) Update answer it with the
    status 404 and leave the collection as it was. *)
Theorem missing_id_not_found (now : Date) (id : jsstring) (oid : ObjectId)
    (w : World) :
  ObjectIdOps.cast id = Some oid ->
  online w = true ->
  collection w !! oid = None ->
  let answer := TodoController.failure 404 "Todo not found" in
  (fst (TodoController.toggleTodo now id w) = answer
   /\ collection (snd (TodoController.toggleTodo now id w)) = collection w)
  /\ (fst (TodoController.deleteTodo id w) = answer
      /\ collection (snd (TodoController.deleteTodo id w)) = collection w)
  /\ (forall body,
         (forall t, UpdateTodoRequest.title body = Some t -> trim t <> []) ->
         acceptable body ->
         fst (TodoController.updateTodo now id body w) = answer
         /\ collection (snd (TodoController.updateTodo now id body w))
            = collection w).
Proof.
  intros Hc Hon Hm answer. subst answer.
  pose proof (cast_falsy id oid Hc) as Hf.
  split; [|split].
  - unfold TodoController.toggleTodo, TodoController.respond. rewrite Hf.
    rewrite (toggleTodo_missing now id oid) by assumption.
    split; reflexivity.
  - unfold TodoController.deleteTodo, TodoController.respond. rewrite Hf.
    rewrite (deleteTodo_online id oid) by assumption. rewrite Hm.
    split; [reflexivity|]. cbn. apply delete_id, Hm.
  - intros body Hb Ha. rewrite updateTodo_accepts by assumption.
    unfold TodoController.respond.
    rewrite (updateTodo_missing now id oid)
      by (try assumption; apply acceptable_trimmed, Ha).
    split; reflexivity.
Qed.

Lemma missing_id_not_found_witness :
  fst (TodoController.deleteTodo (js "00000000000000000000002a") sampleWorld)
  = TodoController.failure 404 "Todo not found"
  /\ collection
       (snd (TodoController.deleteTodo (js "00000000000000000000002a")
               sampleWorld))
     = collection sampleWorld.
Proof.
  apply (missing_id_not_found 0 (js "00000000000000000000002a") 42%N
           sampleWorld);
    vm_compute; reflexivity.
Defined.

Section Refusals.
Import Mongoose.

(** [createTodo] rethrows what the validators say. *)
Lemma createTodo_refused (oid : ObjectId) (now : Date)
    (req : CreateTodoRequest.t) (w : World) (m : string) (msgs : list string) :
  Schema.validate (trim <$> CreateTodoRequest.title req)
    (trim <$> CreateTodoRequest.description req) = m :: msgs ->
  TodoService.createTodo oid now req w
  = (Rejected
       (Error ("Validation error: " ++ String.concat ", " (m :: msgs))%string),
     after (CallSave oid) (collection w) w).
Proof.
  intros Hv. unfold TodoService.createTodo, Todo.new, Todo.save.
  unfold Schema.set_title, Schema.set_description.
  destruct (CreateTodoRequest.title req) as [t|];
    cbn [fmap option_fmap option_map] in *; rewrite Hv;
    unfold_promise; reflexivity.
Qed.


Lemma maxlength_description_within (d : option jsstring) :
  (forall x, d = Some x -> jslength (trim x) <= 1000) ->
  Schema.maxlength_description (trim <$> d) = [].
Proof.
  intros H. destruct d as [x|]; [|reflexivity]. cbn.
  specialize (H x eq_refl).
  destruct (Z.leb_spec (jslength (trim x)) 1000); [reflexivity | lia].
Qed.

Lemma maxlength_description_beyond (d : jsstring) :
  1000 < jslength (trim d) ->
  Schema.maxlength_description (Some (trim d))
  = ["Description cannot exceed 1000 characters"%string].
Proof.
  intros H. cbn.
  destruct (Z.leb_spec (jslength (trim d)) 1000); [lia | reflexivity].
Qed.

Lemma title_within (t : jsstring) :
  1 <= jslength t <= 200 ->
  Schema.required_title (Some t) ++ Schema.maxlength_title (Some t) = [].
Proof.
  intros H. cbn.
  destruct (Z.eqb_spec (jslength t) 0); [lia|].
  destruct (Z.leb_spec (jslength t) 200); [reflexivity | lia].
Qed.

Lemma title_beyond (t : jsstring) :
  200 < jslength t ->
  Schema.required_title (Some t) ++ Schema.maxlength_title (Some t)
  = ["Title cannot exceed 200 characters"%string].
Proof.
  intros H. cbn.
  destruct (Z.eqb_spec (jslength t) 0); [lia|].
  destruct (Z.leb_spec (jslength t) 200); [lia | reflexivity].
Qed.

Lemma jslength_pos_nonempty (t : jsstring) : 1 <= jslength t -> t <> [].
Proof. intros H ->. change (jslength []) with 0 in H. lia. Qed.

End Refusals.

(** X14. The bounds of the schema on a creation.  A creation whose title
    is not empty once trimmed is answered with the status 500, not 400,
    when the trimmed title has more than 200 code units or the trimmed
    description more than 1000; the error is "Validation error: " with the
    message of each validator that fails, the title's before the
    description's; nothing is stored.  A title that is absent or empty
    once trimmed is answered with the status 400 whatever the
    description. *)
Theorem create_beyond_bounds (oid : ObjectId) (now : Date)
    (body : CreateTodoRequest.t) (w : World) :
  let e500 e :=
    (Response.mk 500 false None (Some "Failed to create todo"%string)
       (Some e) None None,
     after (CallSave oid) (collection w) w) in
  (forall t,
      CreateTodoRequest.title body = Some t ->
      200 < jslength (trim t) ->
      (forall d, CreateTodoRequest.description body = Some d ->
                 jslength (trim d) <= 1000) ->
      TodoController.createTodo oid now body w
      = e500 "Validation error: Title cannot exceed 200 characters"%string)
  /\ (forall t d,
         CreateTodoRequest.title body = Some t ->
         CreateTodoRequest.description body = Some d ->
         1 <= jslength (trim t) <= 200 ->
         1000 < jslength (trim d) ->
         TodoController.createTodo oid now body w
         = e500
             "Validation error: Description cannot exceed 1000 characters"%string)
  /\ (forall t d,
         CreateTodoRequest.title body = Some t ->
         CreateTodoRequest.description body = Some d ->
         200 < jslength (trim t) ->
         1000 < jslength (trim d) ->
         TodoController.createTodo oid now body w
         = e500
             "Validation error: Title cannot exceed 200 characters, Description cannot exceed 1000 characters"%string)
  /\ ((CreateTodoRequest.title body = None
       \/ exists t, CreateTodoRequest.title body = Some t
                    /\ jslength (trim t) = 0) ->
      TodoController.createTodo oid now body w
      = (TodoController.failure 400 "Title is required", w)).
Proof.
  intros e500.
  assert (forall t m msgs,
             CreateTodoRequest.title body = Some t ->
             1 <= jslength (trim t) ->
             Mongoose.Schema.validate (Some (trim t))
               (trim <$> CreateTodoRequest.description body) = m :: msgs ->
             TodoController.createTodo oid now body w
             = e500 ("Validation error: "
                     ++ String.concat ", " (m :: msgs))%string) as Hrun.
  { intros t m msgs Ht Hlen Hv.
    rewrite (createTodo_accepts oid now body t)
      by (try assumption; apply jslength_pos_nonempty; lia).
    unfold TodoController.respond.
    rewrite (createTodo_refused oid now _ w m msgs); [reflexivity|].
    cbn [CreateTodoRequest.title CreateTodoRequest.description].
    rewrite fmap_trim_idempotent. cbn [fmap option_fmap option_map].
    rewrite trim_idempotent. exact Hv. }
  split; [|split; [|split]].
  - intros t Ht Hlen Hd.
    apply (Hrun t "Title cannot exceed 200 characters"%string []);
      [exact Ht | lia |].
    unfold Mongoose.Schema.validate.
    rewrite title_beyond by exact Hlen.
    rewrite (maxlength_description_within _ Hd). reflexivity.
  - intros t d Ht Hd Hlen Hbig.
    apply (Hrun t "Description cannot exceed 1000 characters"%string []);
      [exact Ht | lia |].
    rewrite Hd. cbn [fmap option_fmap option_map].
    unfold Mongoose.Schema.validate.
    rewrite title_within by exact Hlen.
    rewrite maxlength_description_beyond by exact Hbig. reflexivity.
  - intros t d Ht Hd Hlen Hbig.
    apply (Hrun t "Title cannot exceed 200 characters"%string
             ["Description cannot exceed 1000 characters"%string]);
      [exact Ht | lia |].
    rewrite Hd. cbn [fmap option_fmap option_map].
    unfold Mongoose.Schema.validate.
    rewrite title_beyond by exact Hlen.
    rewrite maxlength_description_beyond by exact Hbig. reflexivity.
  - intros H. apply createTodo_rejects_empty.
    destruct H as [H|(t & Ht & Hlen)]; [left; exact H|].
    right. exists t. split; [exact Ht|].
    destruct (trim t); [reflexivity|].
    unfold jslength in Hlen. cbn [length] in Hlen. lia.
Qed.

Lemma create_beyond_bounds_witness :
  TodoController.createTodo 1%N 0
    (CreateTodoRequest.mk (Some (repeat 97%N 201))
       (Some (repeat 98%N 1001)))
    (initial true)
  = (Response.mk 500 false None (Some "Failed to create todo"%string)
       (Some "Validation error: Title cannot exceed 200 characters, Description cannot exceed 1000 characters"%string)
       None None,
     after (CallSave 1%N) ∅ (initial true)).
Proof.
  apply (proj1 (proj2 (proj2
           (create_beyond_bounds 1%N 0
              (CreateTodoRequest.mk (Some (repeat 97%N 201))
                 (Some (repeat 98%N 1001)))
              (initial true))))
           (repeat 97%N 201) (repeat 98%N 1001) eq_refl eq_refl).
  - vm_compute. reflexivity.
  - vm_compute. reflexivity.
Defined.

(** X15. A creation is answered with the status 201 exactly when the
    title is present and has between 1 and 200 code units once trimmed,
    the description, if any, has at most 1000 once trimmed, the store can
    be reached and does not hold the identifier yet. *)
Theorem create_succeeds_iff (oid : ObjectId) (now : Date)
    (body : CreateTodoRequest.t) (w : World) :
  Response.status (fst (TodoController.createTodo oid now body w)) = 201
  <-> (exists t,
          CreateTodoRequest.title body = Some t
          /\ 1 <= jslength (trim t) <= 200)
      /\ (forall d, CreateTodoRequest.description body = Some d ->
                    jslength (trim d) <= 1000)
      /\ online w = true
      /\ collection w !! oid = None.
Proof.
  split.
  - intros Hst.
    destruct (CreateTodoRequest.title body) as [t|] eqn:Ht.
    2: { rewrite createTodo_rejects_empty in Hst by (left; exact Ht).
         discriminate Hst. }
    destruct (decide (trim t = [])) as [He|He].
    { rewrite createTodo_rejects_empty in Hst by (right; eauto).
      discriminate Hst. }
    rewrite (createTodo_accepts oid now body t) in Hst by assumption.
    unfold TodoController.respond in Hst.
    match type of Hst with
    | context [TodoService.createTodo ?o ?n ?q ?x] =>
        destruct (createTodo_cases o n q x)
          as [(t' & Ht' & Hv & Hon & Hfresh & E)|[e E]];
        rewrite E in Hst; clear E
    end; [|discriminate Hst].
    cbn [CreateTodoRequest.title CreateTodoRequest.description] in Ht', Hv.
    injection Ht' as <-.
    rewrite trim_idempotent, fmap_trim_idempotent in Hv.
    apply validate_bounds in Hv as [Hlen Hd].
    split; [eauto|]. split; [|auto].
    intros d Hdesc. apply Hd. rewrite Hdesc. reflexivity.
  - intros ((t & Ht & Hlen) & Hd & Hon & Hfresh).
    rewrite (createTodo_accepts oid now body t)
      by (try assumption; apply jslength_pos_nonempty; lia).
    unfold TodoController.respond.
    erewrite createTodo_stores; try reflexivity; try assumption.
    cbn [CreateTodoRequest.title CreateTodoRequest.description].
    rewrite trim_idempotent, fmap_trim_idempotent.
    apply validate_bounds. split; [exact Hlen|].
    intros x Hx. destruct (CreateTodoRequest.description body) as [d|];
      [|discriminate]. injection Hx as <-. apply Hd. reflexivity.
Qed.

Lemma create_succeeds_iff_witness :
  Response.status
    (fst (TodoController.createTodo 26%N 0
            (CreateTodoRequest.mk (Some (js " x ")) None) sampleWorld))
  = 201.
Proof.
  apply create_succeeds_iff. split; [|split; [|split]].
  - exists (js " x "). split; [reflexivity | vm_compute; split; discriminate].
  - intros d H. discriminate H.
  - reflexivity.
  - vm_compute. reflexivity.
Defined.



(** X17. The service alone refuses a todo without a title.  Called with
    a title that is absent, empty or made of white space only,
    [createTodo] is rejected and stores nothing: the schema enforces what
    the handler checks first.  The error is "Validation error: Title is
    required", followed by the message of the description's validator
    when the trimmed description has more than 1000 code units. *)
Theorem service_requires_title (oid : ObjectId) (now : Date)
    (req : CreateTodoRequest.t) (w : World) :
  (CreateTodoRequest.title req = None
   \/ exists t, CreateTodoRequest.title req = Some t
                /\ whiteSpaceOnly t = true) ->
  (exists e,
      TodoService.createTodo oid now req w
      = (Rejected e, after (CallSave oid) (collection w) w))
  /\ ((forall d, CreateTodoRequest.description req = Some d ->
                 jslength (trim d) <= 1000) ->
      TodoService.createTodo oid now req w
      = (Rejected (Error "Validation error: Title is required"),
         after (CallSave oid) (collection w) w))
  /\ (forall d,
         CreateTodoRequest.description req = Some d ->
         1000 < jslength (trim d) ->
         TodoService.createTodo oid now req w
         = (Rejected
              (Error
                 "Validation error: Title is required, Description cannot exceed 1000 characters"),
            after (CallSave oid) (collection w) w)).
Proof.
  intros Ht.
  assert (Mongoose.Schema.required_title
            (trim <$> CreateTodoRequest.title req)
          ++ Mongoose.Schema.maxlength_title
               (trim <$> CreateTodoRequest.title req)
          = ["Title is required"%string]) as Hreq.
  { destruct Ht as [-> | (t & -> & Hws)]; [reflexivity|].
    apply trim_nil in Hws. cbn [fmap option_fmap option_map].
    rewrite Hws. reflexivity. }
  assert ((forall d, CreateTodoRequest.description req = Some d ->
                     jslength (trim d) <= 1000) ->
          TodoService.createTodo oid now req w
          = (Rejected (Error "Validation error: Title is required"),
             after (CallSave oid) (collection w) w)) as Hshort.
  { intros Hd.
    rewrite (createTodo_refused oid now req w "Title is required" []);
      [reflexivity|].
    unfold Mongoose.Schema.validate. rewrite Hreq.
    rewrite (maxlength_description_within _ Hd). reflexivity. }
  assert (forall d,
             CreateTodoRequest.description req = Some d ->
             1000 < jslength (trim d) ->
             TodoService.createTodo oid now req w
             = (Rejected
                  (Error
                     "Validation error: Title is required, Description cannot exceed 1000 characters"),
                after (CallSave oid) (collection w) w)) as Hlong.
  { intros d Hd Hbig.
    rewrite (createTodo_refused oid now req w "Title is required"
               ["Description cannot exceed 1000 characters"%string]);
      [reflexivity|].
    unfold Mongoose.Schema.validate. rewrite Hreq, Hd.
    cbn [fmap option_fmap option_map].
    rewrite maxlength_description_beyond by exact Hbig. reflexivity. }
  split; [|split; [exact Hshort | exact Hlong]].
  destruct (CreateTodoRequest.description req) as [d|] eqn:Hd.
  - destruct (Z.le_gt_cases (jslength (trim d)) 1000) as [Hle|Hgt].
    + eexists. apply Hshort. intros d' [= <-]. exact Hle.
    + eexists. apply (Hlong d eq_refl). lia.
  - eexists. apply Hshort. intros d' Hd'. discriminate Hd'.
Qed.

Lemma service_requires_title_witness :
  TodoService.createTodo 1%N 0
    (CreateTodoRequest.mk (Some (js "   ")) (Some (repeat 98%N 1001)))
    (initial true)
  = (Rejected
       (Error
          "Validation error: Title is required, Description cannot exceed 1000 characters"),
     after (CallSave 1%N) ∅ (initial true)).
Proof.
  apply (proj2 (proj2
           (service_requires_title 1%N 0
              (CreateTodoRequest.mk (Some (js "   "))
                 (Some (repeat 98%N 1001)))
              (initial true)
              (or_intror
                 (ex_intro _ (js "   ") (conj eq_refl eq_refl)))))
           (repeat 98%N 1001) eq_refl).
  vm_compute. reflexivity.
Defined.

(** X18. The store out of reach.  When the store cannot be reached, every
    request that gets to it is answered with the status 500, the message
    of its handler and, as error, the message of the service operation:
    the list, the statistics, a page with valid parameters, and Get,
    Toggle, Delete, a valid Update and a valid Create. *)
Theorem store_unreachable (w : World) :
  online w = false ->
  let e500 m e := Response.mk 500 false None (Some m) (Some e) None None in
  (forall status,
      fst (TodoController.getAllTodos status w)
      = e500 "Failed to fetch todos" "Failed to fetch todos")%string
  /\ fst (TodoController.getTodoStats w)
     = e500 "Failed to fetch todo statistics"%string
         "Failed to get todos statistics"%string
  /\ (forall page limit status,
         1 <= page -> 1 <= limit <= 100 ->
         fst (TodoController.getPaginatedTodos (Some page) (Some limit)
                status w)
         = e500 "Failed to fetch paginated todos"
             "Failed to fetch paginated todos")%string
  /\ (forall now id,
         ObjectIdOps.isValid id = true ->
         fst (TodoController.getTodoById id w)
         = e500 "Failed to fetch todo"%string "Failed to fetch todo"%string
         /\ fst (TodoController.toggleTodo now id w)
            = e500 "Failed to toggle todo"%string
                "Failed to toggle todo"%string
         /\ fst (TodoController.deleteTodo id w)
            = e500 "Failed to delete todo"%string
                "Failed to delete todo"%string
         /\ (forall body,
                (forall t, UpdateTodoRequest.title body = Some t ->
                           trim t <> []) ->
                acceptable body ->
                fst (TodoController.updateTodo now id body w)
                = e500 "Failed to update todo"%string
                    "Failed to update todo"%string))
  /\ (forall oid now body t,
         CreateTodoRequest.title body = Some t ->
         1 <= jslength (trim t) <= 200 ->
         (forall d, CreateTodoRequest.description body = Some d ->
                    jslength (trim d) <= 1000) ->
         fst (TodoController.createTodo oid now body w)
         = e500 "Failed to create todo"%string
             "Failed to create todo"%string).
Proof.
  intros Hoff e500. subst e500. cbv beta.
  split; [|split; [|split; [|split]]].
  - intros status.
    unfold TodoController.getAllTodos, TodoController.respond,
      TodoService.getAllTodos, Todo.exec.
    unfold_promise. simpl. rewrite Hoff. reflexivity.
  - unfold TodoController.getTodoStats, TodoController.respond,
      TodoService.getTodosCount, Todo.countDocuments.
    unfold_promise. simpl. rewrite Hoff. reflexivity.
  - intros page limit status Hp Hl.
    unfold TodoController.getPaginatedTodos.
    rewrite !or_default_positive by lia.
    replace ((page <? 1) || (limit <? 1) || (limit >? 100)) with false
      by (symmetry; rewrite !orb_false_iff; repeat split; lia).
    unfold TodoController.respond.
    rewrite getTodosPaginated_offline by exact Hoff. reflexivity.
  - intros now id Hv. apply isValid_cast in Hv as [oid Hc].
    pose proof (cast_falsy id oid Hc) as Hf.
    split; [|split; [|split]].
    + unfold TodoController.getTodoById, TodoController.respond. rewrite Hf.
      rewrite (getTodoById_offline id oid) by assumption. reflexivity.
    + unfold TodoController.toggleTodo, TodoController.respond. rewrite Hf.
      rewrite (toggleTodo_offline now id oid) by assumption. reflexivity.
    + unfold TodoController.deleteTodo, TodoController.respond. rewrite Hf.
      rewrite (deleteTodo_offline id oid) by assumption. reflexivity.
    + intros body Hb Ha. rewrite updateTodo_accepts by assumption.
      unfold TodoController.respond.
      rewrite (updateTodo_offline now id oid)
        by (try assumption; apply acceptable_trimmed, Ha).
      reflexivity.
  - intros oid now body t Ht Hlen Hd.
    rewrite (createTodo_accepts oid now body t)
      by (try assumption; apply jslength_pos_nonempty; lia).
    unfold TodoController.respond.
    match goal with
    | |- context [TodoService.createTodo ?o ?n ?q ?x] =>
        destruct (createTodo_cases o n q x)
          as [(t' & _ & _ & Hon & _)|[e E]]
    end; [congruence|].
    revert E. unfold TodoService.createTodo, Todo.new, Todo.save.
    cbn [CreateTodoRequest.title CreateTodoRequest.description
         fmap option_fmap option_map].
    unfold Mongoose.Schema.set_title, Mongoose.Schema.set_description.
    rewrite trim_idempotent.
    change (option_map trim (option_map trim ?x))
      with (trim <$> (trim <$> x)).
    rewrite fmap_trim_idempotent.
    assert (Mongoose.Schema.validate (Some (trim t))
              (trim <$> CreateTodoRequest.description body) = []) as ->.
    { apply validate_bounds. split; [exact Hlen|].
      intros x Hx. destruct (CreateTodoRequest.description body) as [d|];
        [|discriminate]. injection Hx as <-. apply Hd. reflexivity. }
    unfold_promise. simpl. rewrite Hoff. reflexivity.
Qed.

Lemma store_unreachable_witness :
  fst (TodoController.getTodoStats (connection false sampleWorld))
  = Response.mk 500 false None (Some "Failed to fetch todo statistics"%string)
      (Some "Failed to get todos statistics"%string) None None.
Proof.
  apply (store_unreachable (connection false sampleWorld)). reflexivity.
Defined.

(** X19. Which writes succeed.  In a world the API brought about, Toggle
    and Delete are answered with the status 200 exactly when the store can
    be reached and the id is a valid identifier that matches a stored
    document; Update is, exactly when moreover the fields it carries are
    within the bounds of the schema once trimmed. *)
Theorem write_succeeds_iff (w : World) :
  reachable w ->
  (forall now id,
      Response.status (fst (TodoController.toggleTodo now id w)) = 200
      <-> online w = true
          /\ exists oid, ObjectIdOps.cast id = Some oid
                         /\ is_Some (collection w !! oid))
  /\ (forall id,
         Response.status (fst (TodoController.deleteTodo id w)) = 200
         <-> online w = true
             /\ exists oid, ObjectIdOps.cast id = Some oid
                            /\ is_Some (collection w !! oid))
  /\ (forall now id body,
         Response.status (fst (TodoController.updateTodo now id body w)) = 200
         <-> online w = true
             /\ (exists oid, ObjectIdOps.cast id = Some oid
                             /\ is_Some (collection w !! oid))
             /\ acceptable body).
Proof.
  intros Hr. apply reachable_invariants in Hr as [Hcons _].
  split; [|split].
  - intros now id. split.
    + intros Hst.
      destruct (toggle_step now id w)
        as [_ [Hg|[H200 _]]|? ? ? ? E|? ? ? ? ? E
            |now' id' oid old E _ Hon Hc Hm _ _ _ _|? ? ? E];
        try discriminate; try contradiction.
      split; [exact Hon|]. injection E as <- <-. eauto.
    + intros (Hon & oid & Hc & old & Hm).
      destruct (Hcons oid old Hm) as [Hid Hv].
      unfold TodoController.toggleTodo, TodoController.respond.
      rewrite (cast_falsy id oid Hc).
      rewrite (toggleTodo_existing now id oid old) by assumption.
      reflexivity.
  - intros id. split.
    + intros Hst.
      destruct (delete_step id w)
        as [_ [Hg|[H200 _]]|? ? ? ? E|? ? ? ? ? E|? ? ? ? E
            |id' oid old E _ Hon Hc Hm _];
        try discriminate; try contradiction.
      split; [exact Hon|]. injection E as <-. eauto.
    + intros (Hon & oid & Hc & old & Hm).
      unfold TodoController.deleteTodo, TodoController.respond.
      rewrite (cast_falsy id oid Hc).
      rewrite (deleteTodo_online id oid) by assumption.
      rewrite Hm. reflexivity.
  - intros now id body. split.
    + intros Hst.
      destruct (put_step now id body w)
        as [_ [Hg|[H200 _]]|? ? ? ? E
            |now' id' body' oid old E _ Hon Hc Hm Ha _ _|? ? ? ? E|? ? ? E];
        try discriminate; try contradiction.
      injection E as <- <- <-. split; [exact Hon|]. split; eauto.
    + intros (Hon & (oid & Hc & old & Hm) & Ha).
      rewrite updateTodo_accepts.
      * unfold TodoController.respond.
        rewrite (updateTodo_existing now id oid _ old)
          by (try assumption; apply acceptable_trimmed, Ha).
        reflexivity.
      * exact (cast_falsy id oid Hc).
      * intros t Ht He.
        unfold acceptable, Mongoose.Schema.validateUpdate in Ha.
        rewrite Ht in Ha.
        cbn [fmap option_fmap option_map] in Ha. rewrite He in Ha.
        apply app_eq_nil in Ha as [_ Ha]. discriminate Ha.
Qed.

Lemma write_succeeds_iff_witness :
  Response.status
    (fst (TodoController.toggleTodo 7 (js "000000000000000000000001")
            (snd (router (Post 1%N 1
                            (CreateTodoRequest.mk (Some (js "a")) None))
                    (initial true)))))
  = 200.
Proof.
  apply (proj1 (write_succeeds_iff
                  (snd (router (Post 1%N 1
                                  (CreateTodoRequest.mk (Some (js "a")) None))
                          (initial true)))
                  (reachable_request _ _ (reachable_initial true)))).
  split; [reflexivity|]. exists 1%N. split; [reflexivity|].
  vm_compute. eauto.
Defined.

(** * How requests compose *)

Section Online.
Import Mongoose.

Lemma keepsOnline_resolve {E A} (a : A) : keepsOnline (@resolve E A a).
Proof. intros w. reflexivity. Qed.

Lemma keepsOnline_reject {E A} (e : E) : keepsOnline (@reject E A e).
Proof. intros w. reflexivity. Qed.

Lemma keepsOnline_request {A} (c : StoreCall)
    (op : gmap ObjectId ITodo -> Settled MongooseError A * gmap ObjectId ITodo) :
  keepsOnline (request c op).
Proof.
  intros w. unfold request. destruct (online w) eqn:E.
  - destruct (op (collection w)). reflexivity.
  - reflexivity.
Qed.

Lemma keepsOnline_refuse {A} (c : StoreCall) (e : MongooseError) :
  keepsOnline (@refuse A c e).
Proof. intros w. reflexivity. Qed.

Lemma keepsOnline_bind {E A B} (m : Promise E A) (k : A -> Promise E B) :
  keepsOnline m -> (forall a, keepsOnline (k a)) -> keepsOnline (bind m k).
Proof.
  intros Hm Hk w. unfold bind. specialize (Hm w).
  destruct (m w) as [[a|e] w']; cbn in *; [rewrite Hk|]; exact Hm.
Qed.

Lemma keepsOnline_try_catch {E E' A} (m : Promise E A)
    (h : E -> Promise E' A) :
  keepsOnline m -> (forall e, keepsOnline (h e)) ->
  keepsOnline (try_catch m h).
Proof.
  intros Hm Hh w. unfold try_catch. specialize (Hm w).
  destruct (m w) as [[a|e] w']; cbn in *; [|rewrite Hh]; exact Hm.
Qed.

Lemma keepsOnline_all {E A B} (p : Promise E A) (q : Promise E B) :
  keepsOnline p -> keepsOnline q -> keepsOnline (Promise_all p q).
Proof.
  intros Hp Hq w. unfold Promise_all. specialize (Hp w).
  destruct (p w) as [ra w1]. specialize (Hq w1).
  destruct (q w1) as [rb w2]. cbn in *.
  destruct ra, rb; cbn; congruence.
Qed.

Lemma keepsOnline_rethrow {A} (m : string) (e : MongooseError) :
  keepsOnline (@TodoService.rethrow A m e).
Proof. destruct e; intros w; reflexivity. Qed.

Ltac keeps :=
  repeat first
    [ apply keepsOnline_try_catch
    | apply keepsOnline_bind
    | apply keepsOnline_all
    | apply keepsOnline_request
    | apply keepsOnline_refuse
    | apply keepsOnline_resolve
    | apply keepsOnline_reject
    | apply keepsOnline_rethrow
    | match goal with |- forall _, keepsOnline _ => intro end
    | progress cbv beta
    | match goal with
      | |- keepsOnline (if ?b then _ else _) => destruct b
      | |- keepsOnline (match ?x with _ => _ end) => destruct x
      | |- keepsOnline (let '(_, _) := ?x in _) => destruct x
      end ].

Lemma respond_online {A} (p : Promise JsError A) (k : A -> Response.t)
    (m : string) (w : World) :
  keepsOnline p -> online (snd (TodoController.respond p k m w)) = online w.
Proof.
  intros Hp. unfold TodoController.respond. specialize (Hp w).
  destruct (p w) as [[a|e] w']; exact Hp.
Qed.

(** No request changes whether the store can be reached. *)
Lemma router_online (r : Request) (w : World) :
  online (snd (router r w)) = online w.
Proof.
  destruct r as [|p l s|s|id|oid now body|now id body|now id|id];
    cbn [router].
  - apply respond_online. unfold TodoService.getTodosCount,
      Todo.countDocuments. keeps.
  - unfold TodoController.getPaginatedTodos. destruct (_ || _); [reflexivity|].
    apply respond_online. unfold TodoService.getTodosPaginated, Todo.exec,
      Todo.countDocuments. keeps.
  - apply respond_online. unfold TodoService.getAllTodos, Todo.exec. keeps.
  - unfold TodoController.getTodoById. destruct (falsy id); [reflexivity|].
    apply respond_online. unfold TodoService.getTodoById, Todo.findById.
    keeps.
  - unfold TodoController.createTodo.
    destruct (CreateTodoRequest.title body); [|reflexivity].
    destruct (_ || _); [reflexivity|].
    apply respond_online. unfold TodoService.createTodo, Todo.new, Todo.save.
    keeps.
  - unfold TodoController.updateTodo. destruct (falsy id); [reflexivity|].
    destruct (match UpdateTodoRequest.title body with
              | Some _ => _ | None => _ end); [reflexivity|].
    apply respond_online.
    unfold TodoService.updateTodo, Todo.findByIdAndUpdate. keeps.
  - unfold TodoController.toggleTodo. destruct (falsy id); [reflexivity|].
    apply respond_online.
    unfold TodoService.toggleTodo, Todo.findById, Todo.save. keeps.
  - unfold TodoController.deleteTodo. destruct (falsy id); [reflexivity|].
    apply respond_online.
    unfold TodoService.deleteTodo, Todo.findByIdAndDelete. keeps.
Qed.

End Online.

(** X20. Create then Delete.  After a creation answered 201, the
    deletion of the id presented for the created todo is answered 200, and
    the collection is again what it was before the creation. *)
Theorem create_then_delete (oid : ObjectId) (now : Date)
    (body : CreateTodoRequest.t) (w w1 : World) (r : Response.t) :
  wf_ObjectId oid ->
  TodoController.createTodo oid now body w = (r, w1) ->
  Response.status r = 201 ->
  exists doc w2,
    Response.data r = Some (DataTodo doc)
    /\ TodoController.deleteTodo (TodoJSON.id (toJSON doc)) w1
       = (Response.mk 200 true None (Some "Todo deleted successfully"%string)
            None None None, w2)
    /\ collection w2 = collection w.
Proof.
  intros Hwf Hrun Hst.
  pose proof (post_step oid now body w) as Hs.
  pose proof (router_online (Post oid now body) w) as Ho.
  cbn [router] in Ho. rewrite Hrun in Hs, Ho. cbn [fst snd] in Hs, Ho.
  destruct Hs
    as [_ [Hg|[_ H201]]|oid' now' body' t E _ Hon Ht Hfresh Hd Hm
        |? ? ? ? ? E|? ? ? ? E|? ? ? E];
    try discriminate; try contradiction.
  injection E as <- <- <-.
  eexists _, _. split; [exact Hd|].
  cbn [toJSON TodoJSON.id _id].
  pose proof (cast_toString oid Hwf) as Hc.
  unfold TodoController.deleteTodo, TodoController.respond.
  rewrite (cast_falsy _ oid Hc).
  rewrite (deleteTodo_online _ oid) by congruence.
  rewrite Hm, lookup_insert_eq. split; [reflexivity|].
  cbn. apply delete_insert_id, Hfresh.
Qed.

Lemma create_then_delete_witness :
  exists doc w2,
    Response.data
      (fst (TodoController.createTodo 26%N 0
              (CreateTodoRequest.mk (Some (js "x")) None) sampleWorld))
    = Some (DataTodo doc)
    /\ TodoController.deleteTodo (TodoJSON.id (toJSON doc))
         (snd (TodoController.createTodo 26%N 0
                 (CreateTodoRequest.mk (Some (js "x")) None) sampleWorld))
       = (Response.mk 200 true None (Some "Todo deleted successfully"%string)
            None None None, w2)
    /\ collection w2 = collection sampleWorld.
Proof.
  apply (create_then_delete 26%N 0
           (CreateTodoRequest.mk (Some (js "x")) None) sampleWorld).
  - vm_compute. reflexivity.
  - apply surjective_pairing.
  - vm_compute. reflexivity.
Defined.

(** X21. Deleted means gone.  After a deletion answered 200, Get by id,
    Toggle, a second Delete and (for a body within the bounds of the
    schema) Update of the same id are all answered 404, and none of them
    changes the collection. *)
Theorem deleted_is_gone (now : Date) (id : jsstring) (w w1 : World)
    (r : Response.t) :
  TodoController.deleteTodo id w = (r, w1) ->
  Response.status r = 200 ->
  let answer := TodoController.failure 404 "Todo not found" in
  fst (TodoController.getTodoById id w1) = answer
  /\ (fst (TodoController.toggleTodo now id w1) = answer
      /\ collection (snd (TodoController.toggleTodo now id w1))
         = collection w1)
  /\ (fst (TodoController.deleteTodo id w1) = answer
      /\ collection (snd (TodoController.deleteTodo id w1)) = collection w1)
  /\ (forall body,
         acceptable body ->
         fst (TodoController.updateTodo now id body w1) = answer
         /\ collection (snd (TodoController.updateTodo now id body w1))
            = collection w1).
Proof.
  intros Hrun Hst answer. subst answer.
  pose proof (delete_step id w) as Hs.
  pose proof (router_online (Delete id) w) as Ho.
  cbn [router] in Ho. rewrite Hrun in Hs, Ho. cbn [fst snd] in Hs, Ho.
  destruct Hs
    as [_ [Hg|[H200 _]]|? ? ? ? E|? ? ? ? ? E|? ? ? ? E
        |id' oid old E _ Hon Hc Hm Hd];
    try discriminate; try contradiction.
  injection E as <-.
  assert (online w1 = true) as Hon1 by congruence.
  assert (collection w1 !! oid = None) as Hgone
    by (rewrite Hd; apply lookup_delete_eq).
  pose proof (cast_falsy id oid Hc) as Hf.
  split; [|split; [|split]].
  - unfold TodoController.getTodoById, TodoController.respond. rewrite Hf.
    rewrite (getTodoById_online id oid) by assumption.
    rewrite Hgone. reflexivity.
  - unfold TodoController.toggleTodo, TodoController.respond. rewrite Hf.
    rewrite (toggleTodo_missing now id oid) by assumption.
    split; reflexivity.
  - unfold TodoController.deleteTodo, TodoController.respond. rewrite Hf.
    rewrite (deleteTodo_online id oid) by assumption. rewrite Hgone.
    split; [reflexivity|]. cbn. apply delete_id, Hgone.
  - intros body Ha. rewrite updateTodo_accepts.
    + unfold TodoController.respond.
      rewrite (updateTodo_missing now id oid)
        by (try assumption; apply acceptable_trimmed, Ha).
      split; reflexivity.
    + exact Hf.
    + intros t Ht He. unfold acceptable, Mongoose.Schema.validateUpdate in Ha.
      rewrite Ht in Ha.
      cbn [fmap option_fmap option_map] in Ha. rewrite He in Ha.
      apply app_eq_nil in Ha as [_ Ha]. discriminate Ha.
Qed.

Lemma deleted_is_gone_witness :
  fst (TodoController.getTodoById (js "000000000000000000000007")
         (snd (TodoController.deleteTodo (js "000000000000000000000007")
                 sampleWorld)))
  = TodoController.failure 404 "Todo not found".
Proof.
  apply (deleted_is_gone 0 (js "000000000000000000000007") sampleWorld
           _ _ (surjective_pairing _)).
  vm_compute. reflexivity.
Defined.

(** X22. A write is read back.  The todo that a creation answered 201, an
    update answered 200 or (in a world the API brought about) a toggle
    answered 200 returns is the todo that Get by id then returns for the
    same id. *)
Theorem write_then_get (w : World) :
  (forall oid now body r w1,
      wf_ObjectId oid ->
      TodoController.createTodo oid now body w = (r, w1) ->
      Response.status r = 201 ->
      exists doc,
        Response.data r = Some (DataTodo doc)
        /\ fst (TodoController.getTodoById (TodoJSON.id (toJSON doc)) w1)
           = Response.mk 200 true (Some (DataTodo doc)) None None None None)
  /\ (forall now id body r w1,
         TodoController.updateTodo now id body w = (r, w1) ->
         Response.status r = 200 ->
         exists doc,
           Response.data r = Some (DataTodo doc)
           /\ fst (TodoController.getTodoById id w1)
              = Response.mk 200 true (Some (DataTodo doc)) None None None None)
  /\ (forall now id r w1,
         reachable w ->
         TodoController.toggleTodo now id w = (r, w1) ->
         Response.status r = 200 ->
         exists doc,
           Response.data r = Some (DataTodo doc)
           /\ fst (TodoController.getTodoById id w1)
              = Response.mk 200 true (Some (DataTodo doc)) None None None None).
Proof.
  split; [|split].
  - intros oid now body r w1 Hwf Hrun Hst.
    pose proof (post_step oid now body w) as Hs.
    pose proof (router_online (Post oid now body) w) as Ho.
    cbn [router] in Ho. rewrite Hrun in Hs, Ho. cbn [fst snd] in Hs, Ho.
    destruct Hs
      as [_ [Hg|[_ H201]]|oid' now' body' t E _ Hon Ht Hfresh Hd Hm
          |? ? ? ? ? E|? ? ? ? E|? ? ? E];
      try discriminate; try contradiction.
    injection E as <- <- <-.
    eexists. split; [exact Hd|].
    cbn [toJSON TodoJSON.id _id].
    pose proof (cast_toString oid Hwf) as Hc.
    unfold TodoController.getTodoById, TodoController.respond.
    rewrite (cast_falsy _ oid Hc).
    rewrite (getTodoById_online _ oid) by congruence.
    rewrite Hm, lookup_insert_eq. reflexivity.
  - intros now id body r w1 Hrun Hst.
    pose proof (put_step now id body w) as Hs.
    pose proof (router_online (Put now id body) w) as Ho.
    cbn [router] in Ho. rewrite Hrun in Hs, Ho. cbn [fst snd] in Hs, Ho.
    destruct Hs
      as [_ [Hg|[H200 _]]|? ? ? ? E
          |now' id' body' oid old E _ Hon Hc Hm Ha Hd Hcol|? ? ? ? E|? ? ? E];
      try discriminate; try contradiction.
    injection E as <- <- <-.
    eexists. split; [exact Hd|].
    unfold TodoController.getTodoById, TodoController.respond.
    rewrite (cast_falsy id oid Hc).
    rewrite (getTodoById_online id oid) by congruence.
    rewrite Hcol, lookup_insert_eq. reflexivity.
  - intros now id r w1 Hr Hrun Hst.
    apply reachable_invariants in Hr as [Hcons _].
    pose proof (toggle_step now id w) as Hs.
    pose proof (router_online (PatchToggle now id) w) as Ho.
    cbn [router] in Ho. rewrite Hrun in Hs, Ho. cbn [fst snd] in Hs, Ho.
    destruct Hs
      as [_ [Hg|[H200 _]]|? ? ? ? E|? ? ? ? ? E
          |now' id' oid old E _ Hon Hc Hm _ _ Hd Hcol|? ? ? E];
      try discriminate; try contradiction.
    injection E as <- <-.
    destruct (Hcons oid old Hm) as [Hid _].
    eexists. split; [exact Hd|].
    unfold TodoController.getTodoById, TodoController.respond.
    rewrite (cast_falsy id oid Hc).
    rewrite (getTodoById_online id oid) by congruence.
    rewrite Hcol, Hid, lookup_insert_eq. reflexivity.
Qed.

Lemma write_then_get_witness :
  exists doc,
    Response.data
      (fst (TodoController.updateTodo 9 (js "000000000000000000000003")
              (UpdateTodoRequest.mk (Some (js " new ")) None None)
              sampleWorld))
    = Some (DataTodo doc)
    /\ fst (TodoController.getTodoById (js "000000000000000000000003")
              (snd (TodoController.updateTodo 9
                      (js "000000000000000000000003")
                      (UpdateTodoRequest.mk (Some (js " new ")) None None)
                      sampleWorld)))
       = Response.mk 200 true (Some (DataTodo doc)) None None None None.
Proof.
  apply (proj1 (proj2 (write_then_get sampleWorld))
           9 (js "000000000000000000000003")
           (UpdateTodoRequest.mk (Some (js " new ")) None None)
           _ _ (surjective_pairing _)).
  vm_compute. reflexivity.
Defined.

(** X23. The list and Get by id agree.  With the store reachable, a todo
    that Get by id returns is in the list of all todos; and in a world
    the API brought about, every todo of the list whose identifier is a
    12-byte value is returned by Get by id for the id it is presented
    under. *)
Theorem list_and_get_agree (w : World) :
  online w = true ->
  exists all,
    fst (TodoService.getAllTodos None w) = Fulfilled all
    /\ (forall id doc,
          fst (TodoService.getTodoById id w) = Fulfilled (Some doc) ->
          doc ∈ all)
    /\ (forall doc,
          reachable w -> doc ∈ all -> wf_ObjectId (_id doc) ->
          fst (TodoService.getTodoById (TodoJSON.id (toJSON doc)) w)
          = Fulfilled (Some doc)).
Proof.
  intros Hon. eexists. split.
  { rewrite getAllTodos_online by exact Hon. reflexivity. }
  cbn [TodoService.statusFilter]. split.
  - intros id doc Hget. apply elem_of_sorted_filter. split; [|reflexivity].
    destruct (ObjectIdOps.cast id) as [oid|] eqn:Hc.
    + rewrite (getTodoById_online id oid) in Hget by assumption.
      cbn in Hget. injection Hget as Hget. eauto.
    + rewrite getTodoById_invalid in Hget by exact Hc. discriminate Hget.
  - intros doc Hr Hin Hwf. apply elem_of_sorted_filter in Hin as [[k Hk] _].
    apply reachable_invariants in Hr as [Hcons _].
    destruct (Hcons k doc Hk) as [Hid _]. subst k.
    cbn [toJSON TodoJSON.id].
    rewrite (getTodoById_online _ (_id doc));
      [|apply cast_toString, Hwf | exact Hon].
    cbn. rewrite Hk. reflexivity.
Qed.

Lemma list_and_get_agree_witness :
  exists all,
    fst (TodoService.getAllTodos None sampleWorld) = Fulfilled all
    /\ mkTodo 3%N (js "todo") None false 3 3 ∈ all.
Proof.
  destruct (list_and_get_agree sampleWorld eq_refl) as (all & Ha & Hin & _).
  exists all. split; [exact Ha|].
  apply (Hin (js "000000000000000000000003")). vm_compute. reflexivity.
Defined.

Section Counting.
Import Mongoose.

Lemma length_filter_Permutation {A} (f : A -> bool) (l l' : list A) :
  l ≡ₚ l' -> length (List.filter f l) = length (List.filter f l').
Proof.
  induction 1 as [|x l l' _ IH|x y l|l l' l'' _ IH1 _ IH2]; simpl.
  - reflexivity.
  - destruct (f x); simpl; congruence.
  - destruct (f x), (f y); reflexivity.
  - congruence.
Qed.

Lemma documents_insert_fresh (m : gmap ObjectId ITodo) (k : ObjectId)
    (doc : ITodo) :
  m !! k = None -> documents (<[k := doc]> m) ≡ₚ doc :: documents m.
Proof.
  intros Hk. unfold documents. rewrite (map_to_list_insert m k doc Hk).
  reflexivity.
Qed.

Lemma documents_delete (m : gmap ObjectId ITodo) (k : ObjectId)
    (doc : ITodo) :
  m !! k = Some doc -> doc :: documents (delete k m) ≡ₚ documents m.
Proof.
  intros Hk. unfold documents. rewrite <- (map_to_list_delete m k doc Hk).
  reflexivity.
Qed.

Lemma documents_insert_over (m : gmap ObjectId ITodo) (k : ObjectId)
    (doc : ITodo) :
  documents (<[k := doc]> m) ≡ₚ doc :: documents (delete k m).
Proof.
  rewrite <- (insert_delete_eq m k doc).
  apply documents_insert_fresh, lookup_delete_eq.
Qed.

(** The number of documents that match a filter. *)
Lemma count_insert_fresh (f : FilterQuery) (m : gmap ObjectId ITodo)
    (k : ObjectId) (doc : ITodo) :
  m !! k = None ->
  Z.of_nat (length (List.filter (matches f) (documents (<[k := doc]> m))))
  = (if matches f doc then 1 else 0)
    + Z.of_nat (length (List.filter (matches f) (documents m))).
Proof.
  intros Hk.
  rewrite (length_filter_Permutation _ _ _ (documents_insert_fresh m k doc Hk)).
  simpl. destruct (matches f doc); simpl; lia.
Qed.

Lemma count_delete (f : FilterQuery) (m : gmap ObjectId ITodo)
    (k : ObjectId) (doc : ITodo) :
  m !! k = Some doc ->
  Z.of_nat (length (List.filter (matches f) (documents m)))
  = (if matches f doc then 1 else 0)
    + Z.of_nat (length (List.filter (matches f) (documents (delete k m)))).
Proof.
  intros Hk.
  rewrite <- (length_filter_Permutation _ _ _ (documents_delete m k doc Hk)).
  simpl. destruct (matches f doc); simpl; lia.
Qed.

Lemma count_insert_over (f : FilterQuery) (m : gmap ObjectId ITodo)
    (k : ObjectId) (old doc : ITodo) :
  m !! k = Some old ->
  Z.of_nat (length (List.filter (matches f) (documents (<[k := doc]> m))))
  + (if matches f old then 1 else 0)
  = (if matches f doc then 1 else 0)
    + Z.of_nat (length (List.filter (matches f) (documents m))).
Proof.
  intros Hk. rewrite (count_delete f m k old Hk).
  rewrite (length_filter_Permutation _ _ _ (documents_insert_over m k doc)).
  simpl. destruct (matches f doc); simpl; lia.
Qed.

Lemma getTodosCount_online (w : World) :
  online w = true ->
  fst (TodoService.getTodosCount w)
  = Fulfilled
      (Stats.mk
         (Z.of_nat (length (List.filter (matches {| f_completed := None |})
                              (documents (collection w)))))
         (Z.of_nat (length (List.filter
                              (matches {| f_completed := Some true |})
                              (documents (collection w)))))
         (Z.of_nat (length (List.filter (matches {| f_completed := None |})
                              (documents (collection w))))
          - Z.of_nat (length (List.filter
                                (matches {| f_completed := Some true |})
                                (documents (collection w)))))).
Proof.
  intros Hon. unfold TodoService.getTodosCount, Todo.countDocuments.
  unfold_promise. simpl. rewrite Hon. reflexivity.
Qed.

(** A toggle that returns a todo is answered with the status 200. *)
Lemma toggle_data_status (now : Date) (id : jsstring) (w w1 : World)
    (r : Response.t) (doc : ITodo) :
  TodoController.toggleTodo now id w = (r, w1) ->
  Response.data r = Some (DataTodo doc) ->
  Response.status r = 200.
Proof.
  unfold TodoController.toggleTodo, TodoController.respond.
  destruct (falsy id).
  - intros [= <- <-]. discriminate.
  - destruct (TodoService.toggleTodo now id w) as [[[u|]|e] w'];
      intros [= <- <-]; try discriminate. reflexivity.
Qed.

End Counting.

(** X24. The statistics follow the writes.  With the store reachable, in
    a world the API brought about: after a creation answered 201, total
    and pending are one more and completed is the same; after a toggle
    that returns a todo, total is the same and completed is one more when
    the todo returned is completed, one less when it is not; after a
    deletion answered 200, total is one less. *)
Theorem stats_follow_writes (w : World) :
  reachable w ->
  online w = true ->
  exists before,
    fst (TodoService.getTodosCount w) = Fulfilled before
    /\ (forall oid now body r w1,
          TodoController.createTodo oid now body w = (r, w1) ->
          Response.status r = 201 ->
          exists stats,
            fst (TodoService.getTodosCount w1) = Fulfilled stats
            /\ Stats.total stats = Stats.total before + 1
            /\ Stats.completed stats = Stats.completed before
            /\ Stats.pending stats = Stats.pending before + 1)
    /\ (forall now id r w1 doc,
          TodoController.toggleTodo now id w = (r, w1) ->
          Response.data r = Some (DataTodo doc) ->
          exists stats,
            fst (TodoService.getTodosCount w1) = Fulfilled stats
            /\ Stats.total stats = Stats.total before
            /\ Stats.completed stats
               = Stats.completed before + (if completed doc then 1 else -1))
    /\ (forall id r w1,
          TodoController.deleteTodo id w = (r, w1) ->
          Response.status r = 200 ->
          exists stats,
            fst (TodoService.getTodosCount w1) = Fulfilled stats
            /\ Stats.total stats = Stats.total before - 1
            /\ Stats.completed before - 1 <= Stats.completed stats
               <= Stats.completed before).
Proof.
  intros Hr Hon. apply reachable_invariants in Hr as [Hcons _].
  eexists. split; [apply getTodosCount_online, Hon|].
  cbn [Stats.total Stats.completed Stats.pending].
  split; [|split].
  - intros oid now body r w1 Hrun Hst.
    pose proof (post_step oid now body w) as Hs.
    pose proof (router_online (Post oid now body) w) as Ho.
    cbn [router] in Ho. rewrite Hrun in Hs, Ho. cbn [fst snd] in Hs, Ho.
    destruct Hs
      as [_ [Hg|[_ H201]]|oid' now' body' t E _ _ Ht Hfresh Hd Hm
          |? ? ? ? ? E|? ? ? ? E|? ? ? E];
      try discriminate; try contradiction.
    eexists. split; [apply getTodosCount_online; congruence|].
    cbn [Stats.total Stats.completed Stats.pending]. rewrite Hm.
    rewrite !count_insert_fresh by exact Hfresh.
    unfold Mongoose.matches. cbn. lia.
  - intros now id r w1 doc Hrun Hdata.
    pose proof (toggle_step now id w) as Hs.
    pose proof (router_online (PatchToggle now id) w) as Ho.
    cbn [router] in Ho. rewrite Hrun in Hs, Ho. cbn [fst snd] in Hs, Ho.
    destruct Hs
      as [Hsame [Hg|Hfail]|? ? ? ? E|? ? ? ? ? E
          |now' id' oid old E _ _ Hc Hm _ _ Hd Hcol|? ? ? E];
      try discriminate.
    { destruct Hfail as [H200 _]. exfalso. apply H200.
      eapply toggle_data_status; eassumption. }
    rewrite Hd in Hdata. injection Hdata as <-.
    destruct (Hcons oid old Hm) as [Hid _].
    eexists. split; [apply getTodosCount_online; congruence|].
    cbn [Stats.total Stats.completed Stats.pending completed]. rewrite Hcol, Hid.
    pose proof (count_insert_over {| f_completed := None |} (collection w)
                  oid old
                  (mkTodo oid (title old) (description old)
                     (negb (completed old)) (createdAt old) now') Hm) as H1.
    pose proof (count_insert_over {| f_completed := Some true |}
                  (collection w) oid old
                  (mkTodo oid (title old) (description old)
                     (negb (completed old)) (createdAt old) now') Hm) as H2.
    unfold Mongoose.matches in H1, H2 |- *. cbn in H1, H2 |- *.
    destruct (completed old); cbn in *; lia.
  - intros id r w1 Hrun Hst.
    pose proof (delete_step id w) as Hs.
    pose proof (router_online (Delete id) w) as Ho.
    cbn [router] in Ho. rewrite Hrun in Hs, Ho. cbn [fst snd] in Hs, Ho.
    destruct Hs
      as [_ [Hg|[H200 _]]|? ? ? ? E|? ? ? ? ? E|? ? ? ? E
          |id' oid old E _ _ Hc Hm Hd];
      try discriminate; try contradiction.
    eexists. split; [apply getTodosCount_online; congruence|].
    cbn [Stats.total Stats.completed Stats.pending]. rewrite Hd.
    rewrite (count_delete {| f_completed := None |} _ oid old Hm).
    rewrite (count_delete {| f_completed := Some true |} _ oid old Hm).
    unfold Mongoose.matches. cbn. destruct (completed old); cbn; lia.
Qed.

Lemma stats_follow_writes_witness :
  let w := snd (router (Post 1%N 1 (CreateTodoRequest.mk (Some (js "a")) None))
                  (initial true)) in
  exists before stats,
    fst (TodoService.getTodosCount w) = Fulfilled before
    /\ fst (TodoService.getTodosCount
              (snd (TodoController.toggleTodo 7
                      (js "000000000000000000000001") w)))
       = Fulfilled stats
    /\ Stats.total stats = Stats.total before
    /\ Stats.completed stats = Stats.completed before + 1.
Proof.
  intros w.
  destruct (stats_follow_writes w
              (reachable_request _ _ (reachable_initial true)) eq_refl)
    as (before & Hb & _ & Ht & _).
  destruct (Ht 7 (js "000000000000000000000001") _ _
              (mkTodo 1%N (js "a") None true 1 7)
              (surjective_pairing _) ltac:(vm_compute; reflexivity))
    as (stats & Hs & H1 & H2).
  exists before, stats. auto.
Defined.

(** X25. Clearing.  With the store reachable, [clearAllTodos] is
    fulfilled and leaves no document: every list is then empty and the
    statistics are all 0.  With the store out of reach it is rejected with
    "Failed to clear todos" and the collection is as it was. *)
Theorem clear_all_todos (w : World) :
  (online w = true ->
   exists w1,
     TodoService.clearAllTodos w = (Fulfilled tt, w1)
     /\ collection w1 = ∅
     /\ (forall status,
           fst (TodoService.getAllTodos status w1) = Fulfilled [])
     /\ fst (TodoService.getTodosCount w1) = Fulfilled (Stats.mk 0 0 0))
  /\ (online w = false ->
      fst (TodoService.clearAllTodos w)
      = Rejected (Error "Failed to clear todos")
      /\ collection (snd (TodoService.clearAllTodos w)) = collection w).
Proof.
  split.
  - intros Hon. eexists. split; [|split; [|split]].
    + unfold TodoService.clearAllTodos, Todo.deleteMany.
      unfold_promise. simpl. rewrite Hon. reflexivity.
    + reflexivity.
    + intros status. rewrite getAllTodos_online by reflexivity.
      cbn [fst after collection]. unfold Mongoose.documents.
      rewrite map_to_list_empty. reflexivity.
    + rewrite getTodosCount_online by reflexivity.
      cbn [after collection]. unfold Mongoose.documents.
      rewrite map_to_list_empty. reflexivity.
  - intros Hoff. unfold TodoService.clearAllTodos, Todo.deleteMany.
    unfold_promise. simpl. rewrite Hoff. split; reflexivity.
Qed.

Lemma clear_all_todos_witness :
  exists w1,
    TodoService.clearAllTodos sampleWorld = (Fulfilled tt, w1)
    /\ collection w1 = ∅
    /\ (forall status,
          fst (TodoService.getAllTodos status w1) = Fulfilled [])
    /\ fst (TodoService.getTodosCount w1) = Fulfilled (Stats.mk 0 0 0).
Proof. apply (proj1 (clear_all_todos sampleWorld)). reflexivity. Defined.

(** * The error middleware and the cross-origin policy *)

Section Middleware.

Lemma or_string_nonempty (s : option jsstring) (d : jsstring) :
  d <> [] -> or_string s d <> [].
Proof.
  intros Hd. unfold or_string. destruct s as [v|]; [|exact Hd].
  destruct (falsy v) eqn:Hf; [exact Hd|].
  apply jslength_not_0. exact Hf.
Qed.

Lemma includes_spec (l : list jsstring) (s : jsstring) :
  includes l s = true <-> s ∈ l.
Proof. unfold includes. apply bool_decide_eq_true. Qed.

End Middleware.

(** X26. The error middleware.  Whatever the error, the response of
    [errorHandler] has success false; its status code is the one of the
    error, or 500 when the error carries none or 0, and so never 0; its
    status is the one of the error, or "error" when the error carries none
    or an empty one; its message is the one of the error, or "Internal
    Server Error" when that is empty: neither is ever empty; the stack
    trace of the error is sent in development and only then.  For every
    URL, the error that [notFoundHandler] passes on is answered with the
    status code 404, the status "fail" and the message "Not found - "
    followed by the URL. *)
Theorem error_middleware (development : bool) (err : AppError.t) :
  let r := errorHandler development err in
  ErrorResponse.success r = false
  /\ ErrorResponse.statusCode r <> 0
  /\ (AppError.statusCode err = None \/ AppError.statusCode err = Some 0 ->
      ErrorResponse.statusCode r = 500)
  /\ (forall c, AppError.statusCode err = Some c -> c <> 0 ->
                ErrorResponse.statusCode r = c)
  /\ ErrorResponse.status r <> []
  /\ (AppError.status err = None \/ AppError.status err = Some [] ->
      ErrorResponse.status r = js "error")
  /\ (forall s, AppError.status err = Some s -> s <> [] ->
                ErrorResponse.status r = s)
  /\ ErrorResponse.message r <> []
  /\ (AppError.message err = [] ->
      ErrorResponse.message r = js "Internal Server Error")
  /\ (AppError.message err <> [] ->
      ErrorResponse.message r = AppError.message err)
  /\ (development = false -> ErrorResponse.stack r = None)
  /\ (development = true -> ErrorResponse.stack r = AppError.stack err)
  /\ (forall originalUrl stack,
        errorHandler development (notFoundHandler originalUrl stack)
        = {| ErrorResponse.statusCode := 404;
             ErrorResponse.success := false;
             ErrorResponse.status := js "fail";
             ErrorResponse.message := js "Not found - " ++ originalUrl;
             ErrorResponse.stack :=
               if development then Some stack else None |}).
Proof.
  assert (forall s d, s <> [] -> or_string (Some s) d = s) as Hkeep.
  { intros [|c s] d Hs; [contradiction | reflexivity]. }
  cbv zeta. unfold errorHandler.
  cbn [ErrorResponse.success ErrorResponse.statusCode ErrorResponse.status
       ErrorResponse.message ErrorResponse.stack].
  repeat match goal with |- _ /\ _ => split end.
  - reflexivity.
  - destruct (AppError.statusCode err) as [[|p|p]|]; cbn; discriminate.
  - intros [-> | ->]; reflexivity.
  - intros c -> Hc. destruct c; [contradiction | reflexivity | reflexivity].
  - apply or_string_nonempty. discriminate.
  - intros [-> | ->]; reflexivity.
  - intros s -> Hs. apply Hkeep, Hs.
  - apply or_string_nonempty. discriminate.
  - intros ->. reflexivity.
  - intros Hm. apply Hkeep, Hm.
  - intros ->. reflexivity.
  - intros ->. reflexivity.
  - intros originalUrl stack. reflexivity.
Qed.

Lemma error_middleware_witness :
  ErrorResponse.statusCode
    (errorHandler false (AppError.mk [] None (Some 0) (Some [])))
  = 500
  /\ ErrorResponse.status
       (errorHandler false (AppError.mk [] None (Some 0) (Some [])))
     = js "error"
  /\ ErrorResponse.message
       (errorHandler false (AppError.mk [] None (Some 0) (Some [])))
     = js "Internal Server Error"
  /\ ErrorResponse.status
       (errorHandler true
          (AppError.mk (js "gone") None (Some 410) (Some (js "fail"))))
     = js "fail".
Proof.
  destruct (error_middleware false (AppError.mk [] None (Some 0) (Some [])))
    as (_ & _ & Hc & _ & _ & Hs & _ & _ & Hm & _).
  destruct (error_middleware true
              (AppError.mk (js "gone") None (Some 410) (Some (js "fail"))))
    as (_ & _ & _ & _ & _ & _ & Hs' & _).
  split; [apply Hc; right; reflexivity|].
  split; [apply Hs; right; reflexivity|].
  split; [apply Hm; reflexivity|].
  apply (Hs' (js "fail") eq_refl). discriminate.
Defined.

(** X27. The cross-origin policy.  A request is let through exactly when
    its Origin header is one of the allowed origins; a request without an
    Origin header, or with an empty one, is refused like any other origin
    that is not allowed, and the refusal is answered by the error handler
    with the status code 500, the status "error" and the message
    "Not allowed by CORS". *)
Theorem cors_policy (origin : option jsstring) (stack : jsstring)
    (development : bool) :
  (corsOrigin origin stack = None
   <-> exists o, origin = Some o /\ o ∈ allowedOrigins)
  /\ (forall err,
         corsOrigin origin stack = Some err ->
         errorHandler development err
         = {| ErrorResponse.statusCode := 500;
              ErrorResponse.success := false;
              ErrorResponse.status := js "error";
              ErrorResponse.message := js "Not allowed by CORS";
              ErrorResponse.stack :=
                if development then Some stack else None |})
  /\ (origin = None \/ origin = Some [] ->
      corsOrigin origin stack <> None).
Proof.
  assert (~ [] ∈ allowedOrigins) as Hempty.
  { intros H. apply includes_spec in H. vm_compute in H. discriminate H. }
  assert (or_string origin (js "") ∈ allowedOrigins
          <-> exists o, origin = Some o /\ o ∈ allowedOrigins)
    as Hin.
  { unfold or_string. destruct origin as [v|].
    - destruct (falsy v) eqn:Hf.
      + apply jslength_0 in Hf. subst v. split; [contradiction|].
        intros (o & [= <-] & Ho). contradiction.
      + split; [eauto|]. intros (o & [= <-] & Ho). exact Ho.
    - split; [contradiction|]. intros (o & Ho & _). discriminate. }
  unfold corsOrigin.
  destruct (includes allowedOrigins (or_string origin (js ""))) eqn:Hi.
  - apply includes_spec in Hi. split; [|split].
    + split; [intros _; apply Hin, Hi | reflexivity].
    + discriminate.
    + intros Ho. exfalso. apply Hin in Hi as (o & E & Hi).
      destruct Ho as [-> | ->]; [discriminate|].
      injection E as <-. contradiction.
  - split; [|split].
    + split; [discriminate|]. intros H. apply Hin in H.
      apply includes_spec in H. congruence.
    + intros err [= <-]. reflexivity.
    + discriminate.
Qed.

Lemma cors_policy_witness :
  errorHandler false
    {| AppError.message := js "Not allowed by CORS";
       AppError.stack := Some (js "at server.ts");
       AppError.statusCode := None;
       AppError.status := None |}
  = {| ErrorResponse.statusCode := 500;
       ErrorResponse.success := false;
       ErrorResponse.status := js "error";
       ErrorResponse.message := js "Not allowed by CORS";
       ErrorResponse.stack := None |}.
Proof.
  apply (proj1 (proj2 (cors_policy (Some (js "http://localhost:3000/"))
                         (js "at server.ts") false))).
  vm_compute. reflexivity.
Defined.
